(** * Bonjorno daily notes: date codec, note index cache and pagination

  A shallow embedding of [src/DateService.ts], [src/constants.ts],
  [src/types.ts] and [src/DailyNotesManager.ts], and the properties of the
  note store that the specification states about them; then the paging and
  the date line of [src/DailyNotesView.ts], the folder setting of
  [src/SettingsTab.ts] and the vault events of [src/main.ts], with further
  properties read off the code.

  Conventions of the embedding.
  - JavaScript strings are [string]s of 8-bit code units; [<=] on strings
    is the code-unit lexicographic order ([String.leb]).
  - A JavaScript [Date] is represented by the local calendar day it falls
    on, as a day number relative to 1970-01-01 (the ECMAScript [Day]
    abstract operation applied to local time).  Time of day is dropped:
    no function embedded here reads it.
  - Local time is that of a zone in which every calendar day exists and
    lasts 24 hours, such as UTC.  In other zones [new Date(y, m, d)] and
    [setDate] step over a day that local time skipped, and two local
    midnights can be 23 or 25 hours apart.  The numbered properties do not
    lean on this choice: they speak of the dates the code has in hand, not
    of reaching a requested day, and of the sign of [compareDates], not of
    its size.
  - [Map<string, TFile>] is an association list in insertion order, because
    [Map.prototype.keys] enumerates in insertion order and the code
    returns that enumeration to its callers.
  - The Obsidian [Vault] is an interface (a type class); every vault call
    either returns or throws an error carrying a message.  File and folder
    objects are immutable values.
  - A method is a state transformer over the manager's fields and the
    vault that returns or throws.  [async] methods are run to completion
    one at a time, and the clock does not advance during a call: each call
    sees one value of [Date.now()] and one of [new Date()].
  - Notices and console output are left out.

  The first part holds the definitions, module by module as in the
  source; the second part the properties. *)

From Stdlib Require Import ZArith List String Ascii Bool Lia.
From Stdlib Require Import Sorting.Sorted Sorting.Permutation.
Import ListNotations.

Local Open Scope Z_scope.

(* ===================================================================== *)
(** ** String primitives of the host language                             *)
(* ===================================================================== *)

Module Js.

(** [\d] of a JavaScript regular expression: the ASCII digits. *)
Definition isDigit (c : ascii) : bool :=
  let n := N_of_ascii c in (48 <=? n)%N && (n <=? 57)%N.

Definition digitValue (c : ascii) : Z := Z.of_N (N_of_ascii c) - 48.

Definition digitChar (d : Z) : ascii := ascii_of_N (Z.to_N (48 + d)).

(** [String(n)] for an integer [n]: decimal digits, most significant
    first, with a leading minus sign for negative numbers. *)
Fixpoint digitsOf (fuel : nat) (n : Z) (acc : string) : string :=
  match fuel with
  | O => acc
  | S fuel' =>
      let acc' := String (digitChar (n mod 10)) acc in
      if n / 10 =? 0 then acc' else digitsOf fuel' (n / 10) acc'
  end.

Definition Number_toString (n : Z) : string :=
  if n <? 0
  then String "-"%char (digitsOf (S (Z.to_nat (Z.log2 (- n)))) (- n) EmptyString)
  else digitsOf (S (Z.to_nat (Z.log2 n))) n EmptyString.

Fixpoint repeatChar (c : ascii) (n : nat) : string :=
  match n with
  | O => EmptyString
  | S n' => String c (repeatChar c n')
  end.

(** [s.padStart(len, c)] for a one-character filler. *)
Definition padStart (len : nat) (c : ascii) (s : string) : string :=
  (repeatChar c (len - String.length s) ++ s)%string.

(** [s.replace(pat, rep)] with a string pattern: only the first
    occurrence is replaced. *)
Fixpoint replace (pat rep s : string) : string :=
  if String.prefix pat s
  then (rep ++ String.substring (String.length pat)
                 (String.length s - String.length pat) s)%string
  else match s with
       | EmptyString => EmptyString
       | String c s' => String c (replace pat rep s')
       end.

(** [s.split(sep)] for a one-character separator. *)
Fixpoint split (sep : ascii) (s : string) : list string :=
  match s with
  | EmptyString => [EmptyString]
  | String c s' =>
      if Ascii.eqb c sep then EmptyString :: split sep s'
      else match split sep s' with
           | [] => [String c EmptyString]
           | w :: ws => String c w :: ws
           end
  end.

(** [parseInt(s, 10)] on a string that starts with a digit or is empty:
    the value of the longest prefix of digits, [None] standing for [NaN].
    (Leading white space and signs are not modelled; the callers only
    pass strings that passed the digit pattern.) *)
Fixpoint parseDigits (s : string) (acc : option Z) : option Z :=
  match s with
  | EmptyString => acc
  | String c s' =>
      if isDigit c
      then parseDigits s'
             (Some (10 * match acc with Some a => a | None => 0 end
                    + digitValue c))
      else acc
  end.

Definition parseInt (s : string) : option Z := parseDigits s None.

(** A regular expression of the shape [^c1 c2 ... cn$], each [ci] being
    [\d] or a literal character. *)
Inductive charClass : Type :=
  | Digit : charClass
  | Lit : ascii -> charClass.

Definition matchClass (k : charClass) (c : ascii) : bool :=
  match k with
  | Digit => isDigit c
  | Lit l => Ascii.eqb c l
  end.

Fixpoint test (re : list charClass) (s : string) : bool :=
  match re, s with
  | [], EmptyString => true
  | k :: re', String c s' => matchClass k c && test re' s'
  | _, _ => false
  end.

(** [l.slice(0, count)]: a negative [count] counts from the end. *)
Definition slice0 {A : Type} (count : Z) (l : list A) : list A :=
  if count <? 0
  then firstn (Z.to_nat (Z.max (Z.of_nat (List.length l) + count) 0)) l
  else firstn (Z.to_nat count) l.

(** [a % b] on integers: the sign of the result is that of [a]. *)
Definition rem (a b : Z) : Z := Z.rem a b.

(** White space and line terminators among the 8-bit code units: tab, line
    feed, vertical tab, form feed, carriage return, space, no-break space. *)
Definition isWhiteSpace (c : ascii) : bool :=
  let n := N_of_ascii c in
  ((9 <=? n)%N && (n <=? 13)%N) || (n =? 32)%N || (n =? 160)%N.

Fixpoint trimStart (s : string) : string :=
  match s with
  | EmptyString => EmptyString
  | String c s' => if isWhiteSpace c then trimStart s' else s
  end.

Fixpoint trimEnd (s : string) : string :=
  match s with
  | EmptyString => EmptyString
  | String c s' =>
      match trimEnd s' with
      | EmptyString => if isWhiteSpace c then EmptyString else String c EmptyString
      | t => String c t
      end
  end.

(** [s.trim()] *)
Definition trim (s : string) : string := trimEnd (trimStart s).

(** [l.join(sep)] *)
Fixpoint join (sep : string) (l : list string) : string :=
  match l with
  | [] => EmptyString
  | [a] => a
  | a :: l' => (a ++ sep ++ join sep l')%string
  end.

(** [s.startsWith(p)] *)
Definition startsWith (s p : string) : bool := String.prefix p s.

(** [s.replace(/^c+|c+$/g, "")] for a character [c]: the leading and the
    trailing run of [c] are removed. *)
Fixpoint dropLeading (c : ascii) (s : string) : string :=
  match s with
  | EmptyString => EmptyString
  | String a s' => if Ascii.eqb a c then dropLeading c s' else s
  end.

Fixpoint dropTrailing (c : ascii) (s : string) : string :=
  match s with
  | EmptyString => EmptyString
  | String a s' =>
      match dropTrailing c s' with
      | EmptyString => if Ascii.eqb a c then EmptyString else String a EmptyString
      | t => String a t
      end
  end.

Definition stripEnds (c : ascii) (s : string) : string :=
  dropTrailing c (dropLeading c s).

(** [s.replace(/c+/g, "c")]: every run of [c] becomes a single [c]. *)
Fixpoint collapseRuns (c : ascii) (s : string) : string :=
  match s with
  | EmptyString => EmptyString
  | String a s' =>
      match s' with
      | String b _ =>
          if Ascii.eqb a c && Ascii.eqb b c then collapseRuns c s'
          else String a (collapseRuns c s')
      | EmptyString => String a EmptyString
      end
  end.

(** [a <= b] on strings. *)
Definition le (a b : string) : bool := String.leb a b.

(** [Array.prototype.sort(cmp)]: a stable sort; [cmp a b > 0] asks for
    [a] after [b].  Stable insertion sort gives the specified result for
    every consistent comparator; for an inconsistent one ECMAScript
    leaves the order to the implementation. *)
Section Sort.
Context {A : Type} (cmp : A -> A -> Z).

Fixpoint insertSorted (x : A) (l : list A) : list A :=
  match l with
  | [] => [x]
  | y :: l' => if cmp x y <=? 0 then x :: l else y :: insertSorted x l'
  end.

Definition sort (l : list A) : list A := fold_right insertSorted [] l.
End Sort.

End Js.

(* ===================================================================== *)
(** ** The [Date] builtin, restricted to calendar days                     *)
(* ===================================================================== *)

Module JsDate.

(** ECMAScript 21.4.1: day number and time within day; here only the day
    number of the local time value is kept. *)
Record t : Type := ofDay { day : Z }.

Definition InLeapYear (y : Z) : bool :=
  ((y mod 4 =? 0) && negb (y mod 100 =? 0)) || (y mod 400 =? 0).

Definition DaysInYear (y : Z) : Z := if InLeapYear y then 366 else 365.

Definition DayFromYear (y : Z) : Z :=
  365 * (y - 1970) + (y - 1969) / 4 - (y - 1901) / 100 + (y - 1601) / 400.

(** The largest [y] with [DayFromYear y <= d]. *)
Definition YearFromDay (d : Z) : Z :=
  let y := 1970 + (d * 400) / 146097 in
  if d <? DayFromYear y then y - 1
  else if DayFromYear (y + 1) <=? d then y + 1
  else y.

Definition DayWithinYear (d : Z) : Z := d - DayFromYear (YearFromDay d).

(** First day-within-year of month [m] (0-based); [monthStart l 12] is the
    length of the year. *)
Definition monthStart (leap : bool) (m : Z) : Z :=
  let l := if leap then 1 else 0 in
  match m with
  | 0 => 0
  | 1 => 31
  | 2 => 59 + l
  | 3 => 90 + l
  | 4 => 120 + l
  | 5 => 151 + l
  | 6 => 181 + l
  | 7 => 212 + l
  | 8 => 243 + l
  | 9 => 273 + l
  | 10 => 304 + l
  | 11 => 334 + l
  | _ => 365 + l
  end.

Definition MonthFromDayWithinYear (leap : bool) (w : Z) : Z :=
  if w <? monthStart leap 1 then 0
  else if w <? monthStart leap 2 then 1
  else if w <? monthStart leap 3 then 2
  else if w <? monthStart leap 4 then 3
  else if w <? monthStart leap 5 then 4
  else if w <? monthStart leap 6 then 5
  else if w <? monthStart leap 7 then 6
  else if w <? monthStart leap 8 then 7
  else if w <? monthStart leap 9 then 8
  else if w <? monthStart leap 10 then 9
  else if w <? monthStart leap 11 then 10
  else 11.

Definition getFullYear (d : t) : Z := YearFromDay (day d).

Definition getMonth (d : t) : Z :=
  MonthFromDayWithinYear (InLeapYear (YearFromDay (day d)))
    (DayWithinYear (day d)).

Definition getDate (d : t) : Z :=
  DayWithinYear (day d)
  - monthStart (InLeapYear (YearFromDay (day d))) (getMonth d) + 1.

(** [MakeDay(year, month, date)]. *)
Definition MakeDay (year month date : Z) : Z :=
  let ym := year + month / 12 in
  let mn := month mod 12 in
  DayFromYear ym + monthStart (InLeapYear ym) mn + date - 1.

(** [new Date(year, month, date)]: a two-digit year counts from 1900.  The
    day asked for is taken to exist in local time. *)
Definition make (year month date : Z) : t :=
  let yr := if (0 <=? year) && (year <=? 99) then 1900 + year else year in
  ofDay (MakeDay yr month date).

(** [d.getTime()] after [d.setHours(0, 0, 0, 0)], up to the offset of the
    zone: only the order of two such values is meant, local days being
    taken to last 24 hours. *)
Definition msPerDay : Z := 86400000.
Definition midnightTime (d : t) : Z := msPerDay * day d.

(** [d.setDate(date)]: the day [date] of the month of [d], counted past
    either end of the month if need be; the day reached is taken to exist
    in local time and to lie within the range of [Date]. *)
Definition setDate (d : t) (date : Z) : t :=
  ofDay (MakeDay (getFullYear d) (getMonth d) date).

(** Days of month [m] (1-based) of year [y] in the Gregorian calendar. *)
Definition daysInMonth (y m : Z) : Z :=
  match m with
  | 2 => if InLeapYear y then 29 else 28
  | 4 | 6 | 9 | 11 => 30
  | _ => 31
  end.

End JsDate.

(* ===================================================================== *)
(** ** [constants.ts]                                                      *)
(* ===================================================================== *)

Module Constants.
Import Js.

(** [/^\d{4}-\d{2}-\d{2}\.md$/] *)
Definition DAILY_NOTE_FILENAME_REGEX : list charClass :=
  [Digit; Digit; Digit; Digit; Lit "-"; Digit; Digit; Lit "-";
   Digit; Digit; Lit "."; Lit "m"; Lit "d"]%char.

Definition NOTE_FILE_EXTENSION : string := ".md".

Definition DEFAULT_NOTE_TEMPLATE : string := "".

Definition ERROR_permissionDenied : string :=
  "Permission denied accessing daily notes directory".

Definition DEFAULT_dailyNotesPath : string := "daily-notes".

End Constants.

(* ===================================================================== *)
(** ** [DateService.ts]                                                    *)
(* ===================================================================== *)

Module DateService.
Import Js Constants.

Definition formatDateToFileName (date : JsDate.t) : string :=
  let year := JsDate.getFullYear date in
  let month := padStart 2 "0" (Number_toString (JsDate.getMonth date + 1)) in
  let day := padStart 2 "0" (Number_toString (JsDate.getDate date)) in
  (Number_toString year ++ "-" ++ month ++ "-" ++ day)%string.

Definition parseDateFromFilename (filename : string) : option JsDate.t :=
  let nameWithoutExt := replace NOTE_FILE_EXTENSION "" filename in
  if negb (test DAILY_NOTE_FILENAME_REGEX filename) then None
  else
    match split "-" nameWithoutExt with
    | [p0; p1; p2] =>
        match parseInt p0, parseInt p1, parseInt p2 with
        | Some year, Some month1, Some day =>
            let month := month1 - 1 in
            if (year <? 1900) || (year >? 2100) then None
            else if (month <? 0) || (month >? 11) then None
            else if (day <? 1) || (day >? 31) then None
            else
              let date := JsDate.make year month day in
              if negb (JsDate.getFullYear date =? year)
                 || negb (JsDate.getMonth date =? month)
                 || negb (JsDate.getDate date =? day)
              then None
              else Some date
        | _, _, _ => None
        end
    | _ => None
    end.

Definition isValidDailyNoteFilename (filename : string) : bool :=
  if negb (test DAILY_NOTE_FILENAME_REGEX filename) then false
  else
    match parseDateFromFilename filename with
    | Some _ => true
    | None => false
    end.

Definition generateFilename (date : JsDate.t) : string :=
  (formatDateToFileName date ++ NOTE_FILE_EXTENSION)%string.

Definition compareDates (date1 date2 : JsDate.t) : Z :=
  JsDate.midnightTime date1 - JsDate.midnightTime date2.

Definition parseDateString (dateString : string) : option JsDate.t :=
  parseDateFromFilename (dateString ++ NOTE_FILE_EXTENSION)%string.

Definition sortDateStringsDesc (dateStrings : list string) : list string :=
  sort
    (fun a b =>
       match parseDateString a, parseDateString b with
       | Some dateA, Some dateB => compareDates dateB dateA
       | _, _ => 0
       end)
    dateStrings.

(** [getTodayFormatted()], [today] being [new Date()]. *)
Definition getTodayFormatted (today : JsDate.t) : string :=
  formatDateToFileName today.

Definition getOrdinalSuffix (day : Z) : string :=
  if (day >? 3) && (day <? 21) then "th"%string
  else
    match rem day 10 with
    | 1 => "st"
    | 2 => "nd"
    | 3 => "rd"
    | _ => "th"
    end%string.



Definition isSameDay (date1 date2 : JsDate.t) : bool :=
  compareDates date1 date2 =? 0.

(** [isToday(date)], [today] being [new Date()]. *)
Definition isToday (today date : JsDate.t) : bool := isSameDay date today.

Definition addDays (date : JsDate.t) (days : Z) : JsDate.t :=
  JsDate.setDate date (JsDate.getDate date + days).

Definition subtractDays (date : JsDate.t) (days : Z) : JsDate.t :=
  addDays date (- days).

(** [sorted[i]] followed by [parseDateString]: an index past the end gives
    [undefined], which does not parse. *)
Definition parseAt (sorted : list string) (i : nat) : option JsDate.t :=
  match nth_error sorted i with
  | Some s => parseDateString s
  | None => None
  end.

Definition getOldestDate (dateStrings : list string) : option JsDate.t :=
  match dateStrings with
  | [] => None
  | _ =>
      let sorted := sortDateStringsDesc dateStrings in
      parseAt sorted (List.length sorted - 1)
  end.

Definition getNewestDate (dateStrings : list string) : option JsDate.t :=
  match dateStrings with
  | [] => None
  | _ =>
      let sorted := sortDateStringsDesc dateStrings in
      parseAt sorted 0
  end.

End DateService.

(* ===================================================================== *)
(** ** The host: files, folders and the vault interface                    *)
(* ===================================================================== *)

Module Obsidian.

#[local] Set Warnings "-register-all".

Record TFile : Type := mkTFile
  { path : string; name : string; extension : string }.

Inductive TAbstractFile : Type :=
  | AFile : TFile -> TAbstractFile
  | AFolder : string -> list TAbstractFile -> TAbstractFile.

(** The result of a call that may throw. *)
Inductive outcome (A : Type) : Type :=
  | Returned : A -> outcome A
  | Thrown : string -> outcome A.
Arguments Returned {A} _.
Arguments Thrown {A} _.

(** The part of [Vault] the manager calls.  [getAbstractFileByPath] is the
    lookup in the vault's table of files: it answers with a file, a folder
    or [null], and is taken not to throw.  The other calls may throw; a
    call that throws leaves the vault as it was. *)
Class Vault (V : Type) : Type :=
  { getAbstractFileByPath : V -> string -> option TAbstractFile;
    createFolder : V -> string -> outcome V;
    create : V -> string -> string -> outcome (TFile * V);
    read : V -> TFile -> outcome string;
    modify : V -> TFile -> string -> outcome V;
    delete : V -> TFile -> outcome V }.

End Obsidian.

(* ===================================================================== *)
(** ** [Map<string, V>] with its insertion order                           *)
(* ===================================================================== *)

Module JsMap.
Section Defs.
Context {V : Type}.

Definition t : Type := list (string * V).

Definition empty : t := [].

Fixpoint get (k : string) (m : t) : option V :=
  match m with
  | [] => None
  | (k', v) :: m' => if String.eqb k' k then Some v else get k m'
  end.

(** An existing key keeps its position, a new key goes last. *)
Fixpoint set (k : string) (v : V) (m : t) : t :=
  match m with
  | [] => [(k, v)]
  | (k', v') :: m' =>
      if String.eqb k' k then (k', v) :: m' else (k', v') :: set k v m'
  end.

(** [set] never enters a key twice; [delete] drops every entry of the key,
  so that it needs no side condition on the list. *)
Fixpoint delete (k : string) (m : t) : t :=
  match m with
  | [] => []
  | (k', v') :: m' =>
      if String.eqb k' k then delete k m' else (k', v') :: delete k m'
  end.

Definition keys (m : t) : list string := map fst m.
End Defs.
Arguments t : clear implicits.
End JsMap.

(* ===================================================================== *)
(** ** [types.ts]                                                          *)
(* ===================================================================== *)

Module Types.
Import Obsidian.

Record BonjoroSettings : Type := mkSettings
  { dailyNotesPath : string;
    initialLoadCount : Z;
    dateFormat : string;
    autoSave : bool;
    autoSaveDelay : Z;
    loadMoreCount : Z }.

(** [displayDate] is presentation only and is left out. *)
Record DailyNote : Type := mkDailyNote
  { date : JsDate.t;
    dateString : string;
    content : string;
    file : option TFile;
    exists_ : bool;
    isDirty : bool }.

Record FileOperationResult : Type := mkResult
  { success : bool;
    error : option string;
    resultFile : option TFile }.

Record LoadNotesOptions : Type := mkOptions
  { count : Z;
    startDate : option JsDate.t;
    append : bool }.

End Types.

(* ===================================================================== *)
(** ** [DailyNotesManager.ts]                                              *)
(* ===================================================================== *)

Module DailyNotesManager.
Import Js Constants Obsidian Types.

(** The fields of the class ([app] and [vault] are the host). *)
Record Manager : Type := mkManager
  { settings : BonjoroSettings;
    cachedFileList : JsMap.t TFile;
    lastScanTime : Z }.

(** [new DailyNotesManager(app, settings)] *)
Definition constructor (s : BonjoroSettings) : Manager :=
  {| settings := s; cachedFileList := JsMap.empty; lastScanTime := 0 |}.

Section WithVault.
Context {V : Type} `{Vault V}.

(** What a method runs against: the object, the vault, and the two
    readings of the clock, [Date.now()] and [new Date()]. *)
Record World : Type := mkWorld
  { manager : Manager;
    vault : V;
    dateNow : Z;
    newDate : JsDate.t }.

(** A method body: it returns or throws, and leaves a world behind. *)
Definition M (A : Type) : Type := World -> outcome A * World.

Definition ret {A} (a : A) : M A := fun w => (Returned a, w).

Definition bind {A B} (m : M A) (k : A -> M B) : M B :=
  fun w =>
    match m w with
    | (Returned a, w') => k a w'
    | (Thrown e, w') => (Thrown e, w')
    end.

Definition throw {A} (e : string) : M A := fun w => (Thrown e, w).

(** [try { m } catch (error) { h(String(error)) }] *)
Definition tryCatch {A} (m : M A) (h : string -> M A) : M A :=
  fun w =>
    match m w with
    | (Returned a, w') => (Returned a, w')
    | (Thrown e, w') => h e w'
    end.

Definition gets {A} (f : World -> A) : M A := fun w => (Returned (f w), w).

Definition setCache (c : JsMap.t TFile) : M unit :=
  fun w =>
    (Returned tt,
     {| manager := {| settings := settings (manager w);
                      cachedFileList := c;
                      lastScanTime := lastScanTime (manager w) |};
        vault := vault w; dateNow := dateNow w; newDate := newDate w |}).

Definition modifyCache (f : JsMap.t TFile -> JsMap.t TFile) : M unit :=
  fun w => setCache (f (cachedFileList (manager w))) w.

Definition setLastScanTime (t : Z) : M unit :=
  fun w =>
    (Returned tt,
     {| manager := {| settings := settings (manager w);
                      cachedFileList := cachedFileList (manager w);
                      lastScanTime := t |};
        vault := vault w; dateNow := dateNow w; newDate := newDate w |}).

Definition setSettings (s : BonjoroSettings) : M unit :=
  fun w =>
    (Returned tt,
     {| manager := {| settings := s;
                      cachedFileList := cachedFileList (manager w);
                      lastScanTime := lastScanTime (manager w) |};
        vault := vault w; dateNow := dateNow w; newDate := newDate w |}).

Definition setVault (v : V) : M unit :=
  fun w =>
    (Returned tt,
     {| manager := manager w; vault := v;
        dateNow := dateNow w; newDate := newDate w |}).

(** Calls into the vault. *)
Definition vault_getAbstractFileByPath (p : string)
  : M (option TAbstractFile) :=
  gets (fun w => getAbstractFileByPath (vault w) p).

Definition vault_createFolder (p : string) : M unit :=
  fun w =>
    match createFolder (vault w) p with
    | Returned v' => setVault v' w
    | Thrown e => (Thrown e, w)
    end.

Definition vault_create (p c : string) : M TFile :=
  fun w =>
    match create (vault w) p c with
    | Returned (f, v') => bind (setVault v') (fun _ => ret f) w
    | Thrown e => (Thrown e, w)
    end.

Definition vault_read (f : TFile) : M string :=
  fun w =>
    match read (vault w) f with
    | Returned c => (Returned c, w)
    | Thrown e => (Thrown e, w)
    end.

Definition vault_modify (f : TFile) (c : string) : M unit :=
  fun w =>
    match modify (vault w) f c with
    | Returned v' => setVault v' w
    | Thrown e => (Thrown e, w)
    end.

Definition vault_delete (f : TFile) : M unit :=
  fun w =>
    match delete (vault w) f with
    | Returned v' => setVault v' w
    | Thrown e => (Thrown e, w)
    end.


Notation "x <- m ;; k" := (bind m (fun x => k))
  (at level 61, m at next level, right associativity).
Notation "m ;;; k" := (bind m (fun _ => k))
  (at level 61, right associativity).

Fixpoint forEach {A B} (l : list A) (body : A -> B -> M B) (acc : B)
  : M B :=
  match l with
  | [] => ret acc
  | x :: l' => acc' <- body x acc ;; forEach l' body acc'
  end.

Definition getDailyNotesPath : M string :=
  gets (fun w => dailyNotesPath (settings (manager w))).

Definition getNotePath (dateString : string) : M string :=
  let filename := (dateString ++ NOTE_FILE_EXTENSION)%string in
  dir <- gets (fun w => dailyNotesPath (settings (manager w))) ;;
  ret (dir ++ "/" ++ filename)%string.

Definition ensureDirectoryExists : M bool :=
  path <- getDailyNotesPath ;;
  tryCatch
    (folder <- vault_getAbstractFileByPath path ;;
     match folder with
     | None => vault_createFolder path ;;; ret true
     | Some (AFile _) => ret false
     | Some (AFolder _ _) => ret true
     end)
    (fun _ => ret false).

(** The body of the loop over [folder.children]. *)
Definition scanFile (cache : JsMap.t TFile) (file : TAbstractFile)
  : JsMap.t TFile :=
  match file with
  | AFile f =>
      if String.eqb (extension f) "md" then
        let filename := name f in
        if DateService.isValidDailyNoteFilename filename then
          let dateString := replace NOTE_FILE_EXTENSION "" filename in
          JsMap.set dateString f cache
        else cache
      else cache
  | AFolder _ _ => cache
  end.

Definition scanDirectory (forceRefresh : bool) : M (list string) :=
  now <- gets dateNow ;;
  last <- gets (fun w => lastScanTime (manager w)) ;;
  if negb forceRefresh && (now - last <? 5000) then
    gets (fun w => JsMap.keys (cachedFileList (manager w)))
  else
    tryCatch
      (path <- getDailyNotesPath ;;
       folder <- vault_getAbstractFileByPath path ;;
       match folder with
       | Some (AFolder _ files) =>
           setCache JsMap.empty ;;;
           modifyCache (fun cache => fold_left scanFile files cache) ;;;
           setLastScanTime now ;;;
           dateStrings <-
             gets (fun w => JsMap.keys (cachedFileList (manager w))) ;;
           ret (DateService.sortDateStringsDesc dateStrings)
       | _ => ret []
       end)
      (fun _ => ret []).

(** The body of the loop over [datesToLoad]. *)
Definition loadOne (dateString : string) (notes : list DailyNote)
  : M (list DailyNote) :=
  match DateService.parseDateString dateString with
  | None => ret notes
  | Some date =>
      file <- gets (fun w =>
                      JsMap.get dateString (cachedFileList (manager w))) ;;
      content <-
        match file with
        | Some f => tryCatch (vault_read f) (fun _ => ret ""%string)
        | None => ret ""%string
        end ;;
      ret (notes ++
           [ {| date := date; dateString := dateString;
                content := content; file := file;
                exists_ := true; isDirty := false |} ])
  end.

Definition loadNotes (options : LoadNotesOptions)
  : M (list DailyNote) :=
  start <-
    match startDate options with
    | Some d => ret d
    | None => gets newDate
    end ;;
  existingDates <- scanDirectory false ;;
  let startDateString := DateService.formatDateToFileName start in
  let filteredDates :=
    filter (fun dateString => le dateString startDateString)
      existingDates in
  let datesToLoad := slice0 (count options) filteredDates in
  forEach datesToLoad loadOne [].

Definition failure (e : string) : FileOperationResult :=
  {| success := false; error := Some e; resultFile := None |}.

Definition createNote (dateString content : string)
  : M FileOperationResult :=
  tryCatch
    (dirExists <- ensureDirectoryExists ;;
     if negb dirExists then ret (failure ERROR_permissionDenied)
     else
       path <- getNotePath dateString ;;
       existingFile <- vault_getAbstractFileByPath path ;;
       match existingFile with
       | Some _ => ret (failure "File already exists")
       | None =>
           file <- vault_create path content ;;
           modifyCache (JsMap.set dateString file) ;;;
           ret {| success := true; error := None;
                  resultFile := Some file |}
       end)
    (fun e => ret (failure e)).

(** [notes[0]] is [undefined] ([None]) on an empty page. *)
Definition getOrCreateTodayNote : M (option DailyNote) :=
  today <- gets newDate ;;
  dateString <- gets (fun w => DateService.formatDateToFileName (newDate w)) ;;
  existingDates <- scanDirectory false ;;
  if existsb (String.eqb dateString) existingDates then
    notes <- loadNotes {| count := 1; startDate := Some today;
                          append := false |} ;;
    ret (nth_error notes 0)
  else
    result <- createNote dateString DEFAULT_NOTE_TEMPLATE ;;
    if negb (success result) then
      throw ("Error: Failed to create today's note: " ++
             match error result with
             | Some e => e
             | None => "undefined"
             end)%string
    else
      ret (Some {| date := today; dateString := dateString;
                   content := DEFAULT_NOTE_TEMPLATE;
                   file := resultFile result;
                   exists_ := true; isDirty := false |}).

Definition saveNote (dateString content : string)
  : M FileOperationResult :=
  tryCatch
    (file <- gets (fun w =>
                     JsMap.get dateString (cachedFileList (manager w))) ;;
     match file with
     | None => createNote dateString content
     | Some f =>
         existingFile <- vault_getAbstractFileByPath (path f) ;;
         match existingFile with
         | None =>
             modifyCache (JsMap.delete dateString) ;;;
             createNote dateString content
         | Some _ =>
             vault_modify f content ;;;
             ret {| success := true; error := None;
                    resultFile := Some f |}
         end
     end)
    (fun e => ret (failure e)).

Definition deleteNote (dateString : string) : M FileOperationResult :=
  tryCatch
    (file <- gets (fun w =>
                     JsMap.get dateString (cachedFileList (manager w))) ;;
     match file with
     | None => ret (failure "File not found")
     | Some f =>
         vault_delete f ;;;
         modifyCache (JsMap.delete dateString) ;;;
         ret {| success := true; error := None; resultFile := None |}
     end)
    (fun e => ret (failure e)).

(** [None] is [null]. *)
Definition readNote (dateString : string) : M (option string) :=
  tryCatch
    (file <- gets (fun w =>
                     JsMap.get dateString (cachedFileList (manager w))) ;;
     match file with
     | None => ret None
     | Some f => content <- vault_read f ;; ret (Some content)
     end)
    (fun _ => ret None).

Definition noteExists (dateString : string) : M bool :=
  existingDates <- scanDirectory false ;;
  ret (existsb (String.eqb dateString) existingDates).

Definition getFile (dateString : string) : M (option TFile) :=
  gets (fun w => JsMap.get dateString (cachedFileList (manager w))).

Definition refreshFile (dateString : string) : M unit :=
  path <- getNotePath dateString ;;
  file <- vault_getAbstractFileByPath path ;;
  match file with
  | Some (AFile f) => modifyCache (JsMap.set dateString f)
  | _ => modifyCache (JsMap.delete dateString)
  end.

Definition clearCache : M unit :=
  setCache JsMap.empty ;;;
  setLastScanTime 0.

(** The plugin passes the settings object the manager already holds,
    after changing it in place, right after every change; the embedding
    keeps the settings by value, as of the last [updateSettings]. *)
Definition updateSettings (s : BonjoroSettings) : M unit :=
  setSettings s ;;;
  setCache JsMap.empty.

(** Shorthands for stating what a method leaves behind. *)
Definition cache (w : World) : JsMap.t TFile := cachedFileList (manager w).

Definition withVault (w : World) (v : V) : World :=
  {| manager := manager w; vault := v;
     dateNow := dateNow w; newDate := newDate w |}.

Definition withCache (w : World) (c : JsMap.t TFile) : World :=
  {| manager := {| settings := settings (manager w);
                   cachedFileList := c;
                   lastScanTime := lastScanTime (manager w) |};
     vault := vault w; dateNow := dateNow w; newDate := newDate w |}.

Definition withClock (w : World) (now : Z) (today : JsDate.t) : World :=
  {| manager := manager w; vault := vault w;
     dateNow := now; newDate := today |}.

End WithVault.
Arguments World V : clear implicits.
Arguments M V A : clear implicits.

End DailyNotesManager.

(* ===================================================================== *)
(** ** An in-memory vault                                                  *)
(* ===================================================================== *)

(** A vault to run the manager on: a flat table from paths to files (with
  their content) and folders, which can be switched to read-only and in
  which chosen files can be made unreadable. *)
Module MemVault.
Import Obsidian.

Record t : Type := mk
  { nodes : list (string * option string);
    readOnly : bool;
    unreadable : list string }.

(** [splitLast c s]: the parts of [s] around the last [c]. *)
Fixpoint splitLast (c : ascii) (s : string) : option (string * string) :=
  match s with
  | EmptyString => None
  | String a s' =>
      match splitLast c s' with
      | Some (l, r) => Some (String a l, r)
      | None => if Ascii.eqb a c then Some (EmptyString, s') else None
      end
  end.

Definition dirname (p : string) : string :=
  match splitLast "/" p with
  | Some (d, _) => d
  | None => EmptyString
  end.

Definition basename (p : string) : string :=
  match splitLast "/" p with
  | Some (_, b) => b
  | None => p
  end.

Definition extname (n : string) : string :=
  match splitLast "." n with
  | Some (_, e) => e
  | None => EmptyString
  end.

Definition fileAt (p : string) : TFile :=
  {| path := p; name := basename p; extension := extname (basename p) |}.

Fixpoint lookup (p : string) (ns : list (string * option string))
  : option (option string) :=
  match ns with
  | [] => None
  | (q, n) :: ns' => if String.eqb q p then Some n else lookup p ns'
  end.

Fixpoint remove (p : string) (ns : list (string * option string))
  : list (string * option string) :=
  match ns with
  | [] => []
  | (q, n) :: ns' =>
      if String.eqb q p then remove p ns' else (q, n) :: remove p ns'
  end.

Fixpoint update (p c : string) (ns : list (string * option string))
  : list (string * option string) :=
  match ns with
  | [] => []
  | (q, n) :: ns' =>
      if String.eqb q p then (q, Some c) :: ns' else (q, n) :: update p c ns'
  end.

(** The object for the node [e]; the children of a folder are the nodes
    directly below it, in table order. *)
Fixpoint abstractOf (depth : nat) (ns : list (string * option string))
  (e : string * option string) : TAbstractFile :=
  match e with
  | (p, Some _) => AFile (fileAt p)
  | (p, None) =>
      AFolder p
        match depth with
        | O => []
        | S depth' =>
            map (abstractOf depth' ns)
              (filter (fun e' => String.eqb (dirname (fst e')) p) ns)
        end
  end.

Definition mem (p : string) (l : list string) : bool :=
  existsb (String.eqb p) l.

Definition withNodes (v : t) (ns : list (string * option string)) : t :=
  {| nodes := ns; readOnly := readOnly v; unreadable := unreadable v |}.

#[global] Instance vault : Vault t :=
  {| getAbstractFileByPath v p :=
       match lookup p (nodes v) with
       | Some n => Some (abstractOf (List.length (nodes v)) (nodes v) (p, n))
       | None => None
       end;
     createFolder v p :=
       if readOnly v then Thrown "Error: EACCES: permission denied"
       else
         match lookup p (nodes v) with
         | Some _ => Thrown "Error: Folder already exists."
         | None => Returned (withNodes v (nodes v ++ [(p, None)]))
         end;
     create v p c :=
       if readOnly v then Thrown "Error: EACCES: permission denied"
       else
         match lookup p (nodes v) with
         | Some _ => Thrown "Error: File already exists."
         | None =>
             Returned (fileAt p, withNodes v (nodes v ++ [(p, Some c)]))
         end;
     read v f :=
       if mem (path f) (unreadable v) then Thrown "Error: EIO: i/o error"
       else
         match lookup (path f) (nodes v) with
         | Some (Some c) => Returned c
         | _ => Thrown "Error: ENOENT: no such file or directory"
         end;
     modify v f c :=
       if readOnly v then Thrown "Error: EACCES: permission denied"
       else
         match lookup (path f) (nodes v) with
         | Some (Some _) => Returned (withNodes v (update (path f) c (nodes v)))
         | _ => Thrown "Error: ENOENT: no such file or directory"
         end;
     delete v f :=
       if readOnly v then Thrown "Error: EACCES: permission denied"
       else
         match lookup (path f) (nodes v) with
         | Some _ => Returned (withNodes v (remove (path f) (nodes v)))
         | None => Thrown "Error: ENOENT: no such file or directory"
         end |}.

End MemVault.

(* ===================================================================== *)
(** ** Runs of the manager                                                 *)
(* ===================================================================== *)

Module Run.
Import Obsidian Types DailyNotesManager.

(** The public methods. *)
Inductive Call : Type :=
  | ScanDirectory (forceRefresh : bool)
  | LoadNotes (options : LoadNotesOptions)
  | GetOrCreateTodayNote
  | CreateNote (dateString content : string)
  | SaveNote (dateString content : string)
  | DeleteNote (dateString : string)
  | ReadNote (dateString : string)
  | NoteExists (dateString : string)
  | RefreshFile (dateString : string)
  | EnsureDirectoryExists
  | ClearCache
  | UpdateSettings (s : BonjoroSettings).

(** What happens to a manager: a method is called at some reading of the
    clock, or the vault is changed from outside. *)
Inductive Event (V : Type) : Type :=
  | At (now : Z) (today : JsDate.t) (c : Call)
  | External (v : V).
Arguments At {V} _ _ _.
Arguments External {V} _.

Section WithVault.
Context {V : Type} `{Vault V}.

Definition after {A} (m : M V A) (w : World V) : World V := snd (m w).

Definition call (c : Call) (w : World V) : World V :=
  match c with
  | ScanDirectory b => after (scanDirectory b) w
  | LoadNotes o => after (loadNotes o) w
  | GetOrCreateTodayNote => after getOrCreateTodayNote w
  | CreateNote d c => after (createNote d c) w
  | SaveNote d c => after (saveNote d c) w
  | DeleteNote d => after (deleteNote d) w
  | ReadNote d => after (readNote d) w
  | NoteExists d => after (noteExists d) w
  | RefreshFile d => after (refreshFile d) w
  | EnsureDirectoryExists => after ensureDirectoryExists w
  | ClearCache => after clearCache w
  | UpdateSettings s => after (updateSettings s) w
  end.

Definition step (w : World V) (e : Event V) : World V :=
  match e with
  | At now today c => call c (withClock w now today)
  | External v => withVault w v
  end.

Definition run (w : World V) (es : list (Event V)) : World V :=
  fold_left step es w.

(** A freshly constructed manager on the vault [v]. *)
Definition initial (s : BonjoroSettings) (v : V) : World V :=
  {| manager := constructor s; vault := v;
     dateNow := 0; newDate := JsDate.ofDay 0 |}.

Definition validDateString (s : string) : bool :=
  match DateService.parseDateString s with
  | Some _ => true
  | None => false
  end.

Definition keysValid (c : JsMap.t TFile) : Prop :=
  Forall (fun k => validDateString k = true) (JsMap.keys c).

Definition cacheKeysValid (w : World V) : Prop := keysValid (cache w).

(** [m] keeps the keys of the cache valid. *)
Definition preserves {A} (m : M V A) : Prop :=
  forall w, cacheKeysValid w -> cacheKeysValid (snd (m w)).

(** The date-strings a call is given are valid, and today's note is
    asked for on a day of the years 1900 to 2100. *)
Definition callArgsValid (today : JsDate.t) (c : Call) : Prop :=
  match c with
  | CreateNote d _ | SaveNote d _ | RefreshFile d =>
      validDateString d = true
  | GetOrCreateTodayNote =>
      1900 <= JsDate.getFullYear today <= 2100
  | _ => True
  end.

Definition eventArgsValid (e : Event V) : Prop :=
  match e with
  | At _ today c => callArgsValid today c
  | External _ => True
  end.

(** [m] returns, it does not throw. *)
Definition returns {A} (m : M V A) (w : World V) : Prop :=
  exists a w', m w = (Returned a, w').

(** The manager [m'] differs from [m] at most in the cache entry of
    [dateString]. *)
Definition sameExcept (dateString : string) (m m' : Manager) : Prop :=
  settings m' = settings m
  /\ lastScanTime m' = lastScanTime m
  /\ forall k, k <> dateString ->
               JsMap.get k (cachedFileList m') = JsMap.get k (cachedFileList m).

(** The manager before and after [m] are related by [R]. *)
Definition relates {A} (R : Manager -> Manager -> Prop) (m : M V A) : Prop :=
  forall w, R (manager w) (manager (snd (m w))).

(** The folder of the notes and the path of the note of a date-string, as
    [getDailyNotesPath] and [getNotePath] compute them. *)
Definition folderOf (w : World V) : string :=
  dailyNotesPath (settings (manager w)).

Definition notePathOf (w : World V) (dateString : string) : string :=
  (folderOf w ++ "/" ++ (dateString ++ Constants.NOTE_FILE_EXTENSION))%string.

(** The content the vault gives for a handle: empty without a handle or
    when the read throws. *)
Definition contentOf (w : World V) (file : option TFile) : string :=
  match file with
  | Some f =>
      match read (vault w) f with
      | Returned c => c
      | Thrown _ => EmptyString
      end
  | None => EmptyString
  end.

(** The record of the note of a date-string in the world [w]. *)
Definition noteFor (w : World V) (dateString : string) (date : JsDate.t)
  : DailyNote :=
  {| date := date; dateString := dateString;
     content := contentOf w (JsMap.get dateString (cache w));
     file := JsMap.get dateString (cache w);
     exists_ := true; isDirty := false |}.

Definition notesFor (w : World V) (dateString : string) : list DailyNote :=
  match DateService.parseDateString dateString with
  | Some date => [noteFor w dateString date]
  | None => []
  end.

End WithVault.

End Run.

(* ===================================================================== *)
(** ** [DailyNotesView.ts]: paging and the date line                       *)
(* ===================================================================== *)

Module DailyNotesView.
Import Js Obsidian Types.

(** The fields of the view that paging reads and writes.  Rendering and
    the editors are left out. *)
Record View : Type := mkView
  { settings : BonjoroSettings;
    notes : list DailyNote;
    isLoading : bool;
    hasMoreToLoad : bool }.

(** [while (startIndex < lines.length && lines[startIndex].trim() === "")
    startIndex++] *)
Fixpoint leadingBlank (lines : list string) : nat :=
  match lines with
  | [] => O
  | l :: lines' =>
      if String.eqb (trim l) "" then S (leadingBlank lines') else O
  end.

Definition skipBlank (lines : list string) (startIndex : nat) : nat :=
  (startIndex + leadingBlank (skipn startIndex lines))%nat.

Definition stripDateLineFromContent (content dateString : string) : string :=
  if String.eqb content "" || String.eqb (trim content) "" then content
  else
    let lines := split "010" content in
    let startIndex := skipBlank lines 0 in
    let startIndex :=
      match nth_error lines startIndex with
      | Some l =>
          if String.eqb (trim l) dateString
          then skipBlank lines (startIndex + 1)
          else startIndex
      | None => startIndex
      end in
    if (0 <? startIndex)%nat then join (String "010" "") (skipn startIndex lines)
    else content.

Section WithVault.
Context {V : Type} `{Vault V}.

Definition finished (view : View) : View :=
  {| settings := settings view; notes := notes view;
     isLoading := false; hasMoreToLoad := hasMoreToLoad view |}.

Definition loadInitialNotes (view : View) : DailyNotesManager.M V View :=
  DailyNotesManager.tryCatch
    (DailyNotesManager.bind (DailyNotesManager.gets DailyNotesManager.newDate)
       (fun today =>
          DailyNotesManager.bind
            (DailyNotesManager.loadNotes
               {| count := initialLoadCount (settings view);
                  startDate := Some today;
                  append := false |})
            (fun loadedNotes =>
               DailyNotesManager.ret
                 {| settings := settings view;
                    notes := loadedNotes;
                    isLoading := false;
                    hasMoreToLoad :=
                      Z.of_nat (List.length loadedNotes)
                      =? initialLoadCount (settings view) |})))
    (fun _ => DailyNotesManager.ret (finished view)).

Definition loadMoreNotes (view : View) : DailyNotesManager.M V View :=
  if isLoading view || negb (hasMoreToLoad view)
  then DailyNotesManager.ret view
  else
    DailyNotesManager.tryCatch
      (DailyNotesManager.bind
         match List.length (notes view) with
         | O => DailyNotesManager.gets DailyNotesManager.newDate
         | S n =>
             match nth_error (notes view) n with
             | Some oldest =>
                 DailyNotesManager.ret
                   (DateService.subtractDays (date oldest) 1)
             | None => DailyNotesManager.gets DailyNotesManager.newDate
             end
         end
         (fun oldestDate =>
            DailyNotesManager.bind
              (DailyNotesManager.loadNotes
                 {| count := loadMoreCount (settings view);
                    startDate := Some oldestDate;
                    append := true |})
              (fun loadedNotes =>
                 if (List.length loadedNotes =? 0)%nat then
                   DailyNotesManager.ret
                     {| settings := settings view;
                        notes := notes view;
                        isLoading := false;
                        hasMoreToLoad := false |}
                 else
                   DailyNotesManager.ret
                     {| settings := settings view;
                        notes := notes view ++ loadedNotes;
                        isLoading := false;
                        hasMoreToLoad :=
                          Z.of_nat (List.length loadedNotes)
                          =? loadMoreCount (settings view) |})))
      (fun _ => DailyNotesManager.ret (finished view)).

End WithVault.

End DailyNotesView.

(* ===================================================================== *)
(** ** [SettingsTab.ts]: the notes folder setting                          *)
(* ===================================================================== *)

Module SettingsTab.
Import Js.

(** What the change handler of the folder setting stores for the text
    [value] typed by the user. *)
Definition sanitizeDailyNotesPath (value : string) : string :=
  let sanitized := trim value in
  let sanitized := stripEnds "/" sanitized in
  let sanitized := collapseRuns "/" sanitized in
  if String.eqb sanitized "" then Constants.DEFAULT_dailyNotesPath
  else sanitized.

End SettingsTab.

(* ===================================================================== *)
(** ** [main.ts]: vault events and saved settings                          *)
(* ===================================================================== *)

Module Plugin.
Import Js Obsidian Types DailyNotesManager.

Section WithVault.
Context {V : Type} `{Vault V}.

(** The handlers of the vault's [create] and [delete] events, for a file
    at [filePath]; the plugin's settings are the manager's. *)
Definition onCreateOrDelete (filePath : string) : M V unit :=
  bind (gets (fun w => dailyNotesPath (settings (manager w))))
    (fun path =>
       if startsWith filePath path
       then bind (scanDirectory true) (fun _ => ret tt)
       else ret tt).

(** The handler of the vault's [rename] event. *)
Definition onRename (filePath oldPath : string) : M V unit :=
  bind (gets (fun w => dailyNotesPath (settings (manager w))))
    (fun path =>
       if startsWith filePath path || startsWith oldPath path
       then bind (scanDirectory true) (fun _ => ret tt)
       else ret tt).

End WithVault.

End Plugin.

(* ===================================================================== *)
(** ** Vocabulary of the specification                                     *)
(* ===================================================================== *)

Module Spec.

(** Fixed-width, zero-padded decimal renderings. *)
Definition twoDigits (n : Z) : string :=
  String (Js.digitChar (n / 10)) (String (Js.digitChar (n mod 10)) EmptyString).

Definition fourDigits (n : Z) : string :=
  String (Js.digitChar (n / 1000))
    (String (Js.digitChar (n / 100 mod 10))
       (String (Js.digitChar (n / 10 mod 10))
          (String (Js.digitChar (n mod 10)) EmptyString))).

(** The canonical date-string [YYYY-MM-DD] of year [y], month [m]
    (1 to 12) and day [d]. *)
Definition canonicalDateString (y m d : Z) : string :=
  (fourDigits y ++ "-" ++ twoDigits m ++ "-" ++ twoDigits d)%string.

(** [y]-[m]-[d] is a day of the Gregorian calendar. *)
Definition realCalendarDate (y m d : Z) : Prop :=
  1 <= m <= 12 /\ 1 <= d <= JsDate.daysInMonth y m.

(** Newest first: each date-string is strictly greater than the next. *)
Fixpoint newestFirst (l : list string) : bool :=
  match l with
  | a :: (b :: _) as l' => negb (Js.le a b) && newestFirst l'
  | _ => true
  end.

(** The strings the filename pattern admits, character by character:
    with and without the extension. *)
Definition fileNameChars (y1 y2 y3 y4 m1 m2 d1 d2 : ascii) : string :=
  String y1 (String y2 (String y3 (String y4 (String "-"
    (String m1 (String m2 (String "-"
      (String d1 (String d2 ".md"))))))))).

Definition dateStringChars (y1 y2 y3 y4 m1 m2 d1 d2 : ascii) : string :=
  String y1 (String y2 (String y3 (String y4 (String "-"
    (String m1 (String m2 (String "-"
      (String d1 (String d2 EmptyString))))))))).

(** The checks [parseDateFromFilename] makes on the three numbers it has
    read, and the date it then returns. *)
Definition validateParts (year month1 day : Z) : option JsDate.t :=
  let month := month1 - 1 in
  if (year <? 1900) || (year >? 2100) then None
  else if (month <? 0) || (month >? 11) then None
  else if (day <? 1) || (day >? 31) then None
  else
    let date := JsDate.make year month day in
    if negb (JsDate.getFullYear date =? year)
       || negb (JsDate.getMonth date =? month)
       || negb (JsDate.getDate date =? day)
    then None
    else Some date.

(** The day a date-string denotes (0 when it does not parse). *)
Definition dayOf (s : string) : Z :=
  match DateService.parseDateString s with
  | Some d => JsDate.day d
  | None => 0
  end.

(** Newest first by date: no date-string is older than the next one. *)
Definition newestFirstByDate (l : list string) : Prop :=
  Sorted (fun a b => dayOf b <= dayOf a) l.

(** The comparator of [sortDateStringsDesc]. *)
Definition byDateDesc (a b : string) : Z :=
  match DateService.parseDateString a, DateService.parseDateString b with
  | Some dateA, Some dateB => DateService.compareDates dateB dateA
  | _, _ => 0
  end.

(** A file of the listing [files] is entered in the cache under [k]: it is
  a file with extension [md] whose name passes validation, and [k] is the
  name without the extension. *)
Definition entered (files : list Obsidian.TAbstractFile) (k : string) : Prop :=
  exists f, In (Obsidian.AFile f) files
            /\ Obsidian.extension f = "md"%string
            /\ DateService.isValidDailyNoteFilename (Obsidian.name f) = true
            /\ k = Js.replace Constants.NOTE_FILE_EXTENSION "" (Obsidian.name f).

(** The date [y]-[m]-[d] read as one decimal number, [yyyymmdd]. *)
Definition dateNumber (y m d : Z) : Z := 10000 * y + 100 * m + d.

Definition dateNumberOf (d : JsDate.t) : Z :=
  dateNumber (JsDate.getFullYear d) (JsDate.getMonth d + 1) (JsDate.getDate d).

(** The English ordinal suffix of a natural number. *)
Definition englishOrdinalSuffix (n : Z) : string :=
  if (n mod 100 =? 11) || (n mod 100 =? 12) || (n mod 100 =? 13) then "th"%string
  else if n mod 10 =? 1 then "st"%string
  else if n mod 10 =? 2 then "nd"%string
  else if n mod 10 =? 3 then "rd"%string
  else "th"%string.

(** The first and the last character of a string, and whether it holds two
    [c] in a row. *)
Definition firstChar (s : string) : option ascii :=
  match s with
  | EmptyString => None
  | String a _ => Some a
  end.

Fixpoint lastChar (s : string) : option ascii :=
  match s with
  | EmptyString => None
  | String a EmptyString => Some a
  | String _ s' => lastChar s'
  end.

Fixpoint hasRun (c : ascii) (s : string) : bool :=
  match s with
  | String a (String b _ as s') =>
      (Ascii.eqb a c && Ascii.eqb b c) || hasRun c s'
  | _ => false
  end.

End Spec.

(* ===================================================================== *)
(** ** Concrete worlds                                                     *)
(* ===================================================================== *)

Module Examples.
Import Obsidian Types DailyNotesManager Run.

Definition settings0 : BonjoroSettings :=
  {| dailyNotesPath := Constants.DEFAULT_dailyNotesPath;
     initialLoadCount := 30;
     dateFormat := "MMMM Do, YYYY";
     autoSave := true;
     autoSaveDelay := 500;
     loadMoreCount := 20 |}.

(** The same settings with the notes kept in [journal]. *)
Definition journalSettings : BonjoroSettings :=
  {| dailyNotesPath := "journal";
     initialLoadCount := 30;
     dateFormat := "MMMM Do, YYYY";
     autoSave := true;
     autoSaveDelay := 500;
     loadMoreCount := 20 |}.

(** Two folders of notes; [notes.md] is not a daily note. *)
Definition vault0 : MemVault.t :=
  {| MemVault.nodes :=
       [ ("daily-notes", None);
         ("daily-notes/2026-01-10.md", Some "ten");
         ("daily-notes/notes.md", Some "misc");
         ("journal", None);
         ("journal/2026-01-12.md", Some "twelve") ]%string;
     MemVault.readOnly := false;
     MemVault.unreadable := [] |}.

(** [vault0] after a switch to read-only. *)
Definition readOnlyVault : MemVault.t :=
  {| MemVault.nodes := MemVault.nodes vault0;
     MemVault.readOnly := true;
     MemVault.unreadable := [] |}.

(** [vault0] with the note of 2026-01-10 unreadable. *)
Definition unreadableVault : MemVault.t :=
  {| MemVault.nodes := MemVault.nodes vault0;
     MemVault.readOnly := false;
     MemVault.unreadable := ["daily-notes/2026-01-10.md"%string] |}.

(** [vault0] after the note of 2026-01-10 was deleted from outside. *)
Definition emptiedVault : MemVault.t :=
  {| MemVault.nodes :=
       [ ("daily-notes", None);
         ("daily-notes/notes.md", Some "misc");
         ("journal", None);
         ("journal/2026-01-12.md", Some "twelve") ]%string;
     MemVault.readOnly := false;
     MemVault.unreadable := [] |}.

(** 2026-01-15 12:00:00 UTC, in milliseconds. *)
Definition noon : Z := 1768478400000.

Definition jan15 : JsDate.t := JsDate.make 2026 0 15.

Definition note10 : TFile := MemVault.fileAt "daily-notes/2026-01-10.md".

(** A new manager after its first scan. *)
Definition scanned : World MemVault.t :=
  run (initial settings0 vault0) [At noon jan15 (ScanDirectory false)].

(** ... and after the note of 2026-01-15 was created a second later. *)
Definition created : World MemVault.t :=
  run scanned [At (noon + 1000) jan15 (CreateNote "2026-01-15" "fifteen")].

(** ... or after the notes folder was changed to [journal] instead. *)
Definition moved : World MemVault.t :=
  run scanned [At (noon + 1000) jan15 (UpdateSettings journalSettings)].

Definition firstPage : LoadNotesOptions :=
  {| count := 1; startDate := Some jan15; append := false |}.

(** A run in which every date-string is valid. *)
Definition validRun : list (Event MemVault.t) :=
  [ At noon jan15 (ScanDirectory false);
    At (noon + 1000) jan15 GetOrCreateTodayNote;
    At (noon + 2000) jan15 (SaveNote "2026-01-14" "fourteen");
    External emptiedVault;
    At (noon + 3000) jan15 (RefreshFile "2026-01-10");
    At (noon + 4000) jan15 (DeleteNote "2026-01-14");
    At (noon + 9000) jan15 (CreateNote "2026-01-13" "thirteen") ]%string.

(** A new manager at noon of 2026-01-15, before its first scan. *)
Definition fresh : World MemVault.t :=
  withClock (initial settings0 vault0) noon jan15.

(** The listing of [daily-notes] in [vault0]. *)
Definition dailyFiles : list TAbstractFile :=
  [ AFile note10; AFile (MemVault.fileAt "daily-notes/notes.md") ].

Definition note15 : TFile := MemVault.fileAt "daily-notes/2026-01-15.md".

(** [vault0] after the note of 2026-01-15 was created with [content]. *)
Definition vault15 (content : string) : MemVault.t :=
  MemVault.withNodes vault0
    (MemVault.nodes vault0 ++ [("daily-notes/2026-01-15.md"%string, Some content)]).

(** A view that shows nothing yet, and one that shows the note of
    2026-01-15. *)
Definition emptyView : DailyNotesView.View :=
  {| DailyNotesView.settings := settings0;
     DailyNotesView.notes := [];
     DailyNotesView.isLoading := false;
     DailyNotesView.hasMoreToLoad := true |}.

Definition todayView : DailyNotesView.View :=
  {| DailyNotesView.settings := settings0;
     DailyNotesView.notes :=
       [ {| date := jan15; dateString := "2026-01-15"; content := "";
            file := Some note15; exists_ := true; isDirty := false |} ];
     DailyNotesView.isLoading := false;
     DailyNotesView.hasMoreToLoad := true |}.

(** [vault0] after the folder [daily-notes] was renamed to [archive]. *)
Definition renamedVault : MemVault.t :=
  {| MemVault.nodes :=
       [ ("archive", None);
         ("archive/2026-01-10.md", Some "ten");
         ("archive/notes.md", Some "misc");
         ("journal", None);
         ("journal/2026-01-12.md", Some "twelve") ]%string;
     MemVault.readOnly := false;
     MemVault.unreadable := [] |}.

(** A note whose text starts with its own date line. *)
Definition datedContent : string :=
  ("2026-01-10" ++ String "010" (String "010" "ten"))%string.

End Examples.

(* ===================================================================== *)
(** * Properties                                                           *)
(* ===================================================================== *)

(** ** The calendar *)

Section Calendar.
Import JsDate.

Lemma DayFromYear_succ (y : Z) :
  DayFromYear (y + 1) = DayFromYear y + DaysInYear y.
Proof.
  unfold DayFromYear, DaysInYear, InLeapYear.
  destruct (Z.eqb_spec (y mod 4) 0), (Z.eqb_spec (y mod 100) 0),
    (Z.eqb_spec (y mod 400) 0); cbn [andb orb negb];
    Z.div_mod_to_equations; lia.
Qed.

Lemma YearFromDay_unique (y d : Z) :
  DayFromYear y <= d < DayFromYear (y + 1) -> YearFromDay d = y.
Proof.
  intros Hd. unfold YearFromDay.
  destruct (Z.ltb_spec d (DayFromYear (1970 + d * 400 / 146097)));
    [| destruct (Z.leb_spec (DayFromYear (1970 + d * 400 / 146097 + 1)) d)];
    unfold DayFromYear in *; Z.div_mod_to_equations; lia.
Qed.

Lemma YearFromDay_bounds (d : Z) :
  DayFromYear (YearFromDay d) <= d < DayFromYear (YearFromDay d + 1).
Proof.
  unfold YearFromDay.
  destruct (Z.ltb_spec d (DayFromYear (1970 + d * 400 / 146097)));
    [| destruct (Z.leb_spec (DayFromYear (1970 + d * 400 / 146097 + 1)) d)];
    unfold DayFromYear in *; Z.div_mod_to_equations; lia.
Qed.

Lemma DayWithinYear_range (d : Z) :
  0 <= DayWithinYear d < DaysInYear (YearFromDay d).
Proof.
  unfold DayWithinYear.
  pose proof (YearFromDay_bounds d) as Hb.
  rewrite DayFromYear_succ in Hb. lia.
Qed.

Lemma DaysInYear_monthStart (y : Z) :
  DaysInYear y = monthStart (InLeapYear y) 12.
Proof. unfold DaysInYear. destruct (InLeapYear y); reflexivity. Qed.

Lemma monthStart_succ (y m : Z) :
  0 <= m <= 11 ->
  monthStart (InLeapYear y) (m + 1)
  = monthStart (InLeapYear y) m + daysInMonth y (m + 1).
Proof.
  intros Hm.
  assert (m = 0 \/ m = 1 \/ m = 2 \/ m = 3 \/ m = 4 \/ m = 5 \/ m = 6
          \/ m = 7 \/ m = 8 \/ m = 9 \/ m = 10 \/ m = 11) as Hc by lia.
  unfold daysInMonth.
  repeat (destruct Hc as [-> | Hc]); try subst m;
    destruct (InLeapYear y); reflexivity.
Qed.

(** Month and day of a day-within-year that lies in month [m]. *)
Lemma MonthFromDayWithinYear_in (l : bool) (m w : Z) :
  0 <= m <= 11 ->
  monthStart l m <= w < monthStart l (m + 1) ->
  MonthFromDayWithinYear l w = m.
Proof.
  intros Hm Hw.
  assert (m = 0 \/ m = 1 \/ m = 2 \/ m = 3 \/ m = 4 \/ m = 5 \/ m = 6
          \/ m = 7 \/ m = 8 \/ m = 9 \/ m = 10 \/ m = 11) as Hc by lia.
  unfold MonthFromDayWithinYear.
  repeat (destruct Hc as [-> | Hc]); try subst m;
    destruct l; cbn in Hw |- *;
    repeat match goal with
           | |- context [?a <? ?b] => destruct (Z.ltb_spec a b); try lia
           end.
Qed.

Lemma MonthFromDayWithinYear_range (l : bool) (w : Z) :
  0 <= w < monthStart l 12 ->
  0 <= MonthFromDayWithinYear l w <= 11
  /\ monthStart l (MonthFromDayWithinYear l w) <= w
     < monthStart l (MonthFromDayWithinYear l w + 1).
Proof.
  intros Hw. unfold MonthFromDayWithinYear.
  destruct l; cbn in Hw |- *;
    repeat match goal with
           | |- context [?a <? ?b] => destruct (Z.ltb_spec a b)
           end; cbn; lia.
Qed.

(** Every [Date] lies on a day of the calendar. *)
Lemma fields_range (d : t) :
  0 <= getMonth d <= 11
  /\ 1 <= getDate d <= daysInMonth (getFullYear d) (getMonth d + 1).
Proof.
  unfold getDate, getMonth, getFullYear.
  pose proof (DayWithinYear_range (day d)) as Hw.
  rewrite DaysInYear_monthStart in Hw.
  destruct (MonthFromDayWithinYear_range _ _ Hw) as [Hm Hs].
  split; [exact Hm |].
  rewrite monthStart_succ in Hs by exact Hm. lia.
Qed.

(** [MakeDay] inverts the three getters. *)
Lemma MakeDay_fields (d : t) :
  MakeDay (getFullYear d) (getMonth d) (getDate d) = day d.
Proof.
  destruct (fields_range d) as [Hm _].
  unfold MakeDay.
  rewrite (Z.div_small (getMonth d) 12), (Z.mod_small (getMonth d) 12) by lia.
  unfold getDate, getFullYear, DayWithinYear.
  rewrite Z.add_0_r. fold (getMonth d). lia.
Qed.

(** The getters invert [MakeDay] on the days of the calendar. *)
Lemma fields_MakeDay (y m dd : Z) :
  0 <= m <= 11 -> 1 <= dd <= daysInMonth y (m + 1) ->
  let d := ofDay (MakeDay y m dd) in
  getFullYear d = y /\ getMonth d = m /\ getDate d = dd.
Proof.
  intros Hm Hdd d.
  assert (Hday : day d = DayFromYear y + monthStart (InLeapYear y) m + dd - 1).
  { unfold d, MakeDay. cbn [day].
    rewrite (Z.div_small m 12), (Z.mod_small m 12) by lia.
    rewrite Z.add_0_r. reflexivity. }
  pose proof (monthStart_succ y m Hm) as Hs.
  assert (Hlo : 0 <= monthStart (InLeapYear y) m).
  { assert (m = 0 \/ m = 1 \/ m = 2 \/ m = 3 \/ m = 4 \/ m = 5 \/ m = 6
            \/ m = 7 \/ m = 8 \/ m = 9 \/ m = 10 \/ m = 11) as Hc by lia.
    repeat (destruct Hc as [-> | Hc]); try subst m;
      destruct (InLeapYear y); cbn; lia. }
  assert (Hhi : monthStart (InLeapYear y) (m + 1) <= DaysInYear y).
  { rewrite DaysInYear_monthStart.
    assert (m = 0 \/ m = 1 \/ m = 2 \/ m = 3 \/ m = 4 \/ m = 5 \/ m = 6
            \/ m = 7 \/ m = 8 \/ m = 9 \/ m = 10 \/ m = 11) as Hc by lia.
    repeat (destruct Hc as [-> | Hc]); try subst m;
      destruct (InLeapYear y); cbn; lia. }
  assert (Hy : YearFromDay (day d) = y).
  { apply YearFromDay_unique. rewrite DayFromYear_succ. lia. }
  assert (Hmo : getMonth d = m).
  { unfold getMonth, DayWithinYear. rewrite Hy.
    apply MonthFromDayWithinYear_in; [exact Hm | lia]. }
  unfold getFullYear. split; [exact Hy | split; [exact Hmo |]].
  unfold getDate, DayWithinYear. rewrite Hmo, Hy. lia.
Qed.

(** A day number past the end of the month is not read back. *)
Lemma fields_MakeDay_overflow (y m dd : Z) :
  0 <= m <= 11 -> daysInMonth y (m + 1) < dd <= 31 ->
  let d := ofDay (MakeDay y m dd) in
  getFullYear d = y -> getMonth d <> m.
Proof.
  intros Hm Hdd d Hy Hmo.
  assert (Hday : day d = DayFromYear y + monthStart (InLeapYear y) m + dd - 1).
  { unfold d, MakeDay. cbn [day].
    rewrite (Z.div_small m 12), (Z.mod_small m 12) by lia.
    rewrite Z.add_0_r. reflexivity. }
  pose proof (monthStart_succ y m Hm) as Hs.
  pose proof (DayWithinYear_range (day d)) as Hw.
  rewrite DaysInYear_monthStart in Hw.
  destruct (MonthFromDayWithinYear_range _ _ Hw) as [_ Hr].
  fold (getMonth d) in Hr. unfold getFullYear in Hy.
  rewrite Hmo, Hy in Hr. unfold DayWithinYear in Hr. rewrite Hy in Hr.
  lia.
Qed.

End Calendar.

(** ** Digits and the filename pattern *)

Section Digits.
Import Js.

Lemma isDigit_range (c : ascii) :
  isDigit c = true <-> (48 <= N_of_ascii c <= 57)%N.
Proof.
  unfold isDigit. rewrite andb_true_iff, !N.leb_le. reflexivity.
Qed.

Lemma digitValue_range (c : ascii) :
  isDigit c = true -> 0 <= digitValue c <= 9.
Proof. rewrite isDigit_range. unfold digitValue. lia. Qed.

Lemma digitChar_digitValue (c : ascii) :
  isDigit c = true -> digitChar (digitValue c) = c.
Proof.
  rewrite isDigit_range. intros Hc. unfold digitChar, digitValue.
  replace (Z.to_N (48 + (Z.of_N (N_of_ascii c) - 48))) with (N_of_ascii c)
    by lia.
  apply ascii_N_embedding.
Qed.

Lemma digit_cases (k : Z) :
  0 <= k <= 9 ->
  k = 0 \/ k = 1 \/ k = 2 \/ k = 3 \/ k = 4 \/ k = 5 \/ k = 6 \/ k = 7
  \/ k = 8 \/ k = 9.
Proof. lia. Qed.

Lemma isDigit_digitChar (k : Z) : 0 <= k <= 9 -> isDigit (digitChar k) = true.
Proof.
  intros Hk. destruct (digit_cases k Hk) as [-> | Hc]; [reflexivity |].
  repeat (destruct Hc as [-> | Hc]; [reflexivity |]). subst k. reflexivity.
Qed.

Lemma digitValue_digitChar (k : Z) : 0 <= k <= 9 -> digitValue (digitChar k) = k.
Proof.
  intros Hk. destruct (digit_cases k Hk) as [-> | Hc]; [reflexivity |].
  repeat (destruct Hc as [-> | Hc]; [reflexivity |]). subst k. reflexivity.
Qed.

Lemma digit_not (c l : ascii) :
  isDigit c = true -> isDigit l = false -> Ascii.eqb c l = false.
Proof.
  intros Hc Hl. destruct (Ascii.eqb_spec c l) as [-> |]; congruence.
Qed.

Lemma prefix_md_other (c : ascii) (s : string) :
  c <> "."%char -> String.prefix ".md" (String c s) = false.
Proof.
  intros Hc. cbn [String.prefix].
  destruct (ascii_dec "." c) as [E | _]; [congruence | reflexivity].
Qed.

Lemma replace_md_other (c : ascii) (s : string) :
  c <> "."%char ->
  replace ".md" "" (String c s) = String c (replace ".md" "" s).
Proof.
  intros Hc. cbn [replace]. rewrite (prefix_md_other c s Hc). reflexivity.
Qed.

Lemma digit_neq (c l : ascii) :
  isDigit c = true -> isDigit l = false -> c <> l.
Proof. intros Hc Hl ->. congruence. Qed.

End Digits.

Section Parse.
Import Js Constants DateService.

Lemma test_regex_inv (s : string) :
  test DAILY_NOTE_FILENAME_REGEX s = true ->
  exists y1 y2 y3 y4 m1 m2 d1 d2,
    s = Spec.fileNameChars y1 y2 y3 y4 m1 m2 d1 d2
    /\ Forall (fun c => isDigit c = true) [y1; y2; y3; y4; m1; m2; d1; d2].
Proof.
  unfold DAILY_NOTE_FILENAME_REGEX. intros Ht.
  do 13 (destruct s as [| ? s]; cbn [test] in Ht; [discriminate Ht |];
         apply andb_true_iff in Ht; destruct Ht as [? Ht]).
  destruct s; cbn [test] in Ht; [| discriminate Ht].
  cbn [matchClass] in *.
  repeat match goal with
         | E : Ascii.eqb _ _ = true |- _ => apply Ascii.eqb_eq in E; subst
         end.
  do 8 eexists. split; [reflexivity |].
  repeat constructor; assumption.
Qed.

Lemma test_regex_chars y1 y2 y3 y4 m1 m2 d1 d2 :
  Forall (fun c => isDigit c = true) [y1; y2; y3; y4; m1; m2; d1; d2] ->
  test DAILY_NOTE_FILENAME_REGEX (Spec.fileNameChars y1 y2 y3 y4 m1 m2 d1 d2) = true.
Proof.
  intros Hd.
  repeat match goal with
         | H : Forall _ (_ :: _) |- _ => inversion H; clear H; subst
         end.
  cbn [test matchClass DAILY_NOTE_FILENAME_REGEX Spec.fileNameChars].
  repeat match goal with
         | H : isDigit _ = true |- _ => rewrite H; clear H
         end.
  reflexivity.
Qed.

Lemma replace_chars y1 y2 y3 y4 m1 m2 d1 d2 :
  Forall (fun c => isDigit c = true) [y1; y2; y3; y4; m1; m2; d1; d2] ->
  replace NOTE_FILE_EXTENSION "" (Spec.fileNameChars y1 y2 y3 y4 m1 m2 d1 d2)
  = Spec.dateStringChars y1 y2 y3 y4 m1 m2 d1 d2.
Proof.
  intros Hd.
  repeat match goal with
         | H : Forall _ (_ :: _) |- _ => inversion H; clear H; subst
         end.
  unfold Spec.fileNameChars, NOTE_FILE_EXTENSION.
  repeat (rewrite replace_md_other
            by (first [ apply digit_neq; [assumption | reflexivity]
                      | discriminate ])).
  reflexivity.
Qed.

Lemma split_chars y1 y2 y3 y4 m1 m2 d1 d2 :
  Forall (fun c => isDigit c = true) [y1; y2; y3; y4; m1; m2; d1; d2] ->
  split "-" (Spec.dateStringChars y1 y2 y3 y4 m1 m2 d1 d2)
  = [String y1 (String y2 (String y3 (String y4 EmptyString)));
     String m1 (String m2 EmptyString);
     String d1 (String d2 EmptyString)].
Proof.
  intros Hd.
  repeat match goal with
         | H : Forall _ (_ :: _) |- _ => inversion H; clear H; subst
         end.
  unfold Spec.dateStringChars. cbn [split].
  repeat match goal with
         | H : isDigit ?c = true |- _ =>
             rewrite (digit_not c "-" H eq_refl); clear H
         end.
  reflexivity.
Qed.

Lemma parseInt_2 (a b : ascii) :
  isDigit a = true -> isDigit b = true ->
  parseInt (String a (String b EmptyString))
  = Some (10 * digitValue a + digitValue b).
Proof.
  intros Ha Hb. unfold parseInt. cbn [parseDigits]. rewrite Ha, Hb.
  f_equal; lia.
Qed.

Lemma parseInt_4 (a b c d : ascii) :
  isDigit a = true -> isDigit b = true ->
  isDigit c = true -> isDigit d = true ->
  parseInt (String a (String b (String c (String d EmptyString))))
  = Some (1000 * digitValue a + 100 * digitValue b
          + 10 * digitValue c + digitValue d).
Proof.
  intros Ha Hb Hc Hd. unfold parseInt. cbn [parseDigits].
  rewrite Ha, Hb, Hc, Hd. f_equal; lia.
Qed.

Lemma parse_chars y1 y2 y3 y4 m1 m2 d1 d2 :
  Forall (fun c => isDigit c = true) [y1; y2; y3; y4; m1; m2; d1; d2] ->
  parseDateFromFilename (Spec.fileNameChars y1 y2 y3 y4 m1 m2 d1 d2)
  = Spec.validateParts
      (1000 * digitValue y1 + 100 * digitValue y2
       + 10 * digitValue y3 + digitValue y4)
      (10 * digitValue m1 + digitValue m2)
      (10 * digitValue d1 + digitValue d2).
Proof.
  intros Hd. unfold parseDateFromFilename.
  rewrite (test_regex_chars _ _ _ _ _ _ _ _ Hd).
  rewrite (replace_chars _ _ _ _ _ _ _ _ Hd).
  rewrite (split_chars _ _ _ _ _ _ _ _ Hd).
  repeat match goal with
         | H : Forall _ (_ :: _) |- _ => inversion H; clear H; subst
         end.
  rewrite parseInt_4, !parseInt_2 by assumption.
  reflexivity.
Qed.
End Parse.

Section Validate.
Import JsDate.

Lemma daysInMonth_le_31 (y m : Z) : daysInMonth y m <= 31.
Proof.
  unfold daysInMonth.
  repeat match goal with
         | |- context [match ?x with _ => _ end] => destruct x
         end; lia.
Qed.

Lemma make_four_digit_year (y m d : Z) :
  100 <= y -> make y m d = ofDay (MakeDay y m d).
Proof.
  intros Hy. unfold make.
  destruct (Z.leb_spec y 99); [lia |].
  rewrite andb_false_r. reflexivity.
Qed.

Lemma validateParts_Some (y m d : Z) (dt : t) :
  Spec.validateParts y m d = Some dt ->
  1900 <= y <= 2100 /\ Spec.realCalendarDate y m d
  /\ dt = ofDay (MakeDay y (m - 1) d)
  /\ getFullYear dt = y /\ getMonth dt = m - 1 /\ getDate dt = d.
Proof.
  unfold Spec.validateParts, Spec.realCalendarDate.
  destruct (Z.ltb_spec y 1900); [discriminate |].
  destruct (Z.gtb_spec y 2100); [discriminate |].
  destruct (Z.ltb_spec (m - 1) 0); [discriminate |].
  destruct (Z.gtb_spec (m - 1) 11); [discriminate |].
  destruct (Z.ltb_spec d 1); [discriminate |].
  destruct (Z.gtb_spec d 31); [discriminate |].
  cbn [orb]. rewrite make_four_digit_year by lia.
  destruct (Z.eqb_spec (getFullYear (ofDay (MakeDay y (m - 1) d))) y)
    as [Ey |]; [| discriminate].
  destruct (Z.eqb_spec (getMonth (ofDay (MakeDay y (m - 1) d))) (m - 1))
    as [Em |]; [| discriminate].
  destruct (Z.eqb_spec (getDate (ofDay (MakeDay y (m - 1) d))) d)
    as [Ed |]; [| discriminate].
  cbn [negb orb]. intros [= <-].
  repeat split; try lia; try assumption.
  destruct (Z.le_gt_cases d (daysInMonth y m)) as [Hle | Hgt];
    [exact Hle | exfalso].
  apply (fields_MakeDay_overflow y (m - 1) d); try assumption; try lia.
  replace (m - 1 + 1) with m by lia. lia.
Qed.

Lemma validateParts_real (y m d : Z) :
  1900 <= y <= 2100 -> Spec.realCalendarDate y m d ->
  Spec.validateParts y m d = Some (ofDay (MakeDay y (m - 1) d)).
Proof.
  intros Hy [Hm Hd]. pose proof (daysInMonth_le_31 y m) as H31.
  unfold Spec.validateParts.
  destruct (Z.ltb_spec y 1900); [lia |].
  destruct (Z.gtb_spec y 2100); [lia |].
  destruct (Z.ltb_spec (m - 1) 0); [lia |].
  destruct (Z.gtb_spec (m - 1) 11); [lia |].
  destruct (Z.ltb_spec d 1); [lia |].
  destruct (Z.gtb_spec d 31); [lia |].
  cbn [orb]. rewrite make_four_digit_year by lia.
  destruct (fields_MakeDay y (m - 1) d) as (Ey & Em & Ed);
    [lia | replace (m - 1 + 1) with m by lia; exact Hd |].
  rewrite Ey, Em, Ed, !Z.eqb_refl. reflexivity.
Qed.
End Validate.

Section Format.
Import Js Spec.

Lemma digitsOf_one (fuel : nat) (n : Z) :
  0 <= n <= 9 ->
  digitsOf (S fuel) n EmptyString = String (digitChar n) EmptyString.
Proof.
  intros Hn. cbn [digitsOf].
  rewrite (Z.div_small n 10), (Z.mod_small n 10) by lia. reflexivity.
Qed.

Lemma digitsOf_two (fuel : nat) (n : Z) :
  10 <= n <= 99 -> digitsOf (S (S fuel)) n EmptyString = twoDigits n.
Proof.
  intros Hn. cbn [digitsOf].
  destruct (Z.eqb_spec (n / 10) 0) as [E |];
    [exfalso; Z.div_mod_to_equations; lia |].
  destruct (Z.eqb_spec (n / 10 / 10) 0) as [| E];
    [| exfalso; Z.div_mod_to_equations; lia].
  unfold twoDigits. f_equal. f_equal. Z.div_mod_to_equations; lia.
Qed.

Lemma digitsOf_four (fuel : nat) (n : Z) :
  1000 <= n <= 9999 ->
  digitsOf (S (S (S (S fuel)))) n EmptyString = fourDigits n.
Proof.
  intros Hn. cbn [digitsOf].
  destruct (Z.eqb_spec (n / 10) 0) as [E |];
    [exfalso; Z.div_mod_to_equations; lia |].
  destruct (Z.eqb_spec (n / 10 / 10) 0) as [E |];
    [exfalso; Z.div_mod_to_equations; lia |].
  destruct (Z.eqb_spec (n / 10 / 10 / 10) 0) as [E |];
    [exfalso; Z.div_mod_to_equations; lia |].
  destruct (Z.eqb_spec (n / 10 / 10 / 10 / 10) 0) as [| E];
    [| exfalso; Z.div_mod_to_equations; lia].
  unfold fourDigits.
  repeat (f_equal; try (Z.div_mod_to_equations; lia)).
Qed.

Lemma log2_fuel (n k : Z) :
  0 <= k -> 2 ^ k <= n -> exists f, Z.to_nat (Z.log2 n) = (Z.to_nat k + f)%nat.
Proof.
  intros Hk Hn.
  assert (k <= Z.log2 n).
  { rewrite <- (Z.log2_pow2 k Hk). apply Z.log2_le_mono. exact Hn. }
  exists (Z.to_nat (Z.log2 n - k)). lia.
Qed.

Lemma Number_toString_four (n : Z) :
  1000 <= n <= 9999 -> Number_toString n = fourDigits n.
Proof.
  intros Hn. unfold Number_toString.
  destruct (Z.ltb_spec n 0); [lia |].
  destruct (log2_fuel n 9) as [f Hf]; [lia | cbn; lia |].
  rewrite Hf. apply (digitsOf_four (6 + f)). exact Hn.
Qed.

Lemma padStart_two (n : Z) :
  0 <= n <= 99 -> padStart 2 "0" (Number_toString n) = twoDigits n.
Proof.
  intros Hn. unfold Number_toString.
  destruct (Z.ltb_spec n 0); [lia |].
  destruct (Z.le_gt_cases n 9).
  - rewrite digitsOf_one by lia. unfold twoDigits.
    rewrite (Z.div_small n 10), (Z.mod_small n 10) by lia. reflexivity.
  - destruct (log2_fuel n 3) as [f Hf]; [lia | cbn; lia |].
    rewrite Hf. change (S (Z.to_nat 3 + f)) with (S (S (2 + f))).
    rewrite digitsOf_two by lia. reflexivity.
Qed.

Lemma formatDateToFileName_canonical (d : JsDate.t) :
  1000 <= JsDate.getFullYear d <= 9999 ->
  DateService.formatDateToFileName d
  = canonicalDateString (JsDate.getFullYear d) (JsDate.getMonth d + 1)
      (JsDate.getDate d).
Proof.
  intros Hy. destruct (fields_range d) as [Hm Hd].
  pose proof (daysInMonth_le_31 (JsDate.getFullYear d) (JsDate.getMonth d + 1)).
  unfold DateService.formatDateToFileName, canonicalDateString.
  rewrite Number_toString_four by exact Hy.
  rewrite !padStart_two by lia. reflexivity.
Qed.

Lemma canonical_chars (y m d : Z) :
  (canonicalDateString y m d ++ Constants.NOTE_FILE_EXTENSION)%string
  = Spec.fileNameChars (digitChar (y / 1000)) (digitChar (y / 100 mod 10))
      (digitChar (y / 10 mod 10)) (digitChar (y mod 10))
      (digitChar (m / 10)) (digitChar (m mod 10))
      (digitChar (d / 10)) (digitChar (d mod 10)).
Proof. reflexivity. Qed.

Lemma chars_canonical y1 y2 y3 y4 m1 m2 d1 d2 :
  Forall (fun c => isDigit c = true) [y1; y2; y3; y4; m1; m2; d1; d2] ->
  Spec.dateStringChars y1 y2 y3 y4 m1 m2 d1 d2
  = canonicalDateString
      (1000 * digitValue y1 + 100 * digitValue y2
       + 10 * digitValue y3 + digitValue y4)
      (10 * digitValue m1 + digitValue m2)
      (10 * digitValue d1 + digitValue d2).
Proof.
  intros Hd.
  repeat match goal with
         | H : Forall _ (_ :: _) |- _ => inversion H; clear H; subst
         end.
  repeat match goal with
         | H : isDigit ?c = true |- _ =>
             pose proof (digitValue_range c H);
             rewrite <- (digitChar_digitValue c H) at 1; clear H
         end.
  unfold Spec.dateStringChars, canonicalDateString, fourDigits, twoDigits.
  cbn [String.append].
  repeat (f_equal; try (Z.div_mod_to_equations; lia)).
Qed.
End Format.

(** ** The date codec *)

Section Codec.
Import Js Constants DateService Spec.

Lemma length_append (s t : string) :
  String.length (s ++ t) = (String.length s + String.length t)%nat.
Proof. induction s as [| c s IH]; cbn; [reflexivity | now rewrite IH]. Qed.

Lemma append_inj_l (s1 s2 t : string) :
  (s1 ++ t)%string = (s2 ++ t)%string -> s1 = s2.
Proof.
  revert s2. induction s1 as [| c s1 IH]; intros [| c2 s2] E; cbn in E.
  - reflexivity.
  - apply (f_equal String.length) in E. cbn in E.
    rewrite length_append in E. lia.
  - apply (f_equal String.length) in E. cbn in E.
    rewrite length_append in E. lia.
  - injection E as -> E. f_equal. apply IH. exact E.
Qed.

Lemma digits_of_number (y m d : Z) :
  0 <= y <= 9999 -> 0 <= m <= 99 -> 0 <= d <= 99 ->
  Forall (fun c => isDigit c = true)
    [digitChar (y / 1000); digitChar (y / 100 mod 10);
     digitChar (y / 10 mod 10); digitChar (y mod 10);
     digitChar (m / 10); digitChar (m mod 10);
     digitChar (d / 10); digitChar (d mod 10)].
Proof.
  intros Hy Hm Hd.
  repeat constructor; apply isDigit_digitChar;
    Z.div_mod_to_equations; lia.
Qed.

(** Parsing a canonical filename comes down to the checks on its three
    numbers. *)
Lemma parse_canonical (y m d : Z) :
  0 <= y <= 9999 -> 0 <= m <= 99 -> 0 <= d <= 99 ->
  parseDateFromFilename (canonicalDateString y m d ++ NOTE_FILE_EXTENSION)
  = validateParts y m d.
Proof.
  intros Hy Hm Hd.
  rewrite canonical_chars, parse_chars by (apply digits_of_number; assumption).
  rewrite !digitValue_digitChar by (Z.div_mod_to_equations; lia).
  f_equal; Z.div_mod_to_equations; lia.
Qed.

(** What [parseDateFromFilename] accepts. *)
Lemma parseDateFromFilename_Some (s : string) (dt : JsDate.t) :
  parseDateFromFilename s = Some dt ->
  exists y m d,
    s = (canonicalDateString y m d ++ NOTE_FILE_EXTENSION)%string
    /\ 1900 <= y <= 2100 /\ realCalendarDate y m d
    /\ JsDate.getFullYear dt = y /\ JsDate.getMonth dt = m - 1
    /\ JsDate.getDate dt = d.
Proof.
  intros Hp.
  assert (Ht : test DAILY_NOTE_FILENAME_REGEX s = true).
  { unfold parseDateFromFilename in Hp.
    destruct (test DAILY_NOTE_FILENAME_REGEX s); [reflexivity | discriminate]. }
  destruct (test_regex_inv s Ht)
    as (y1 & y2 & y3 & y4 & m1 & m2 & d1 & d2 & -> & Hd).
  rewrite (parse_chars _ _ _ _ _ _ _ _ Hd) in Hp.
  apply validateParts_Some in Hp.
  destruct Hp as (Hy & Hreal & _ & Ey & Em & Ed).
  eexists _, _, _.
  split; [| exact (conj Hy (conj Hreal (conj Ey (conj Em Ed))))].
  change (fileNameChars y1 y2 y3 y4 m1 m2 d1 d2)
    with (dateStringChars y1 y2 y3 y4 m1 m2 d1 d2 ++ NOTE_FILE_EXTENSION)%string.
  rewrite (chars_canonical _ _ _ _ _ _ _ _ Hd). reflexivity.
Qed.

Lemma parseDateString_Some (s : string) (dt : JsDate.t) :
  parseDateString s = Some dt ->
  exists y m d,
    s = canonicalDateString y m d
    /\ 1900 <= y <= 2100 /\ realCalendarDate y m d
    /\ JsDate.getFullYear dt = y /\ JsDate.getMonth dt = m - 1
    /\ JsDate.getDate dt = d.
Proof.
  unfold parseDateString. intros Hp.
  destruct (parseDateFromFilename_Some _ _ Hp) as (y & m & d & E & Hr).
  exists y, m, d. split; [exact (append_inj_l _ _ _ E) | exact Hr].
Qed.

(** A filename that passes validation is its date-string followed by the
    extension, and the date-string is valid. *)
Lemma isValidDailyNoteFilename_dateString (filename : string) :
  isValidDailyNoteFilename filename = true ->
  (replace NOTE_FILE_EXTENSION "" filename ++ NOTE_FILE_EXTENSION)%string
  = filename
  /\ exists dt,
      parseDateString (replace NOTE_FILE_EXTENSION "" filename) = Some dt.
Proof.
  unfold isValidDailyNoteFilename. intros Hv.
  destruct (test DAILY_NOTE_FILENAME_REGEX filename) eqn:Ht;
    [| discriminate].
  cbn [negb] in Hv.
  destruct (parseDateFromFilename filename) as [dt |] eqn:Hp;
    [| discriminate].
  destruct (test_regex_inv filename Ht)
    as (y1 & y2 & y3 & y4 & m1 & m2 & d1 & d2 & -> & Hd).
  rewrite (replace_chars _ _ _ _ _ _ _ _ Hd).
  split; [reflexivity |].
  exists dt. unfold parseDateString. exact Hp.
Qed.

Lemma parseDateFromFilename_generateFilename (d : JsDate.t) :
  1900 <= JsDate.getFullYear d <= 2100 ->
  parseDateFromFilename (generateFilename d) = Some d.
Proof.
  intros Hy. destruct (fields_range d) as [Hm Hd].
  pose proof (daysInMonth_le_31 (JsDate.getFullYear d) (JsDate.getMonth d + 1)).
  unfold generateFilename.
  rewrite formatDateToFileName_canonical by lia.
  rewrite parse_canonical by lia.
  rewrite validateParts_real; [| exact Hy | split; [lia | exact Hd]].
  replace (JsDate.getMonth d + 1 - 1) with (JsDate.getMonth d) by lia.
  rewrite MakeDay_fields. destruct d; reflexivity.
Qed.

(** C4.  For every date whose year is in 1900 to 2100, the filename
    generated from it is the canonical string of its year, month and day,
    which are a day of the calendar, followed by the extension, and parsing
    that filename gives the date back. *)
Theorem parse_generateFilename_roundtrip (date : JsDate.t) :
  1900 <= JsDate.getFullYear date <= 2100 ->
  generateFilename date
  = (canonicalDateString (JsDate.getFullYear date) (JsDate.getMonth date + 1)
       (JsDate.getDate date) ++ NOTE_FILE_EXTENSION)%string
  /\ realCalendarDate (JsDate.getFullYear date) (JsDate.getMonth date + 1)
       (JsDate.getDate date)
  /\ parseDateFromFilename (generateFilename date) = Some date.
Proof.
  intros Hy. destruct (fields_range date) as [Hm Hd].
  split; [| split].
  - unfold generateFilename.
    rewrite formatDateToFileName_canonical by lia. reflexivity.
  - split; [lia | exact Hd].
  - apply parseDateFromFilename_generateFilename. exact Hy.
Qed.

Lemma parse_generateFilename_roundtrip_witness :
  1900 <= JsDate.getFullYear (JsDate.ofDay 20468) <= 2100
  /\ generateFilename (JsDate.ofDay 20468) = "2026-01-15.md"%string
  /\ parseDateFromFilename (generateFilename (JsDate.ofDay 20468))
     = Some (JsDate.ofDay 20468).
Proof.
  assert (H1 : 1900 <= JsDate.getFullYear (JsDate.ofDay 20468) <= 2100)
    by (vm_compute; split; discriminate).
  destruct (parse_generateFilename_roundtrip (JsDate.ofDay 20468) H1)
    as (Hname & _ & Hparse).
  split; [exact H1 |]. split; [| exact Hparse].
  rewrite Hname. vm_compute. reflexivity.
Defined.

(** C5.  [parseDateFromFilename] succeeds only on a canonical
    [YYYY-MM-DD] string followed by the extension, and [parseDateString]
    only on a canonical string alone; in both cases the year is in 1900
    to 2100 and year, month and day are a day of the calendar, which the
    returned date denotes.  The strings 2026-02-30, 2026-13-01 and
    2026-00-10 fail to parse, with and without the extension. *)
Theorem parse_only_canonical_real_dates :
  (forall s dt,
      parseDateFromFilename s = Some dt ->
      exists y m d,
        s = (canonicalDateString y m d ++ NOTE_FILE_EXTENSION)%string
        /\ 1900 <= y <= 2100 /\ realCalendarDate y m d
        /\ JsDate.getFullYear dt = y /\ JsDate.getMonth dt = m - 1
        /\ JsDate.getDate dt = d)
  /\ (forall s dt,
         parseDateString s = Some dt ->
         exists y m d,
           s = canonicalDateString y m d
           /\ 1900 <= y <= 2100 /\ realCalendarDate y m d
           /\ JsDate.getFullYear dt = y /\ JsDate.getMonth dt = m - 1
           /\ JsDate.getDate dt = d)
  /\ Forall (fun s => parseDateString s = None
                      /\ parseDateFromFilename s = None
                      /\ parseDateFromFilename (s ++ NOTE_FILE_EXTENSION)
                         = None
                      /\ isValidDailyNoteFilename (s ++ NOTE_FILE_EXTENSION)
                         = false)
       ["2026-02-30"; "2026-13-01"; "2026-00-10"]%string.
Proof.
  split; [exact parseDateFromFilename_Some |].
  split; [exact parseDateString_Some |].
  repeat constructor.
Qed.

End Codec.

(** ** The cache as a map *)

Section MapFacts.
Context {V : Type}.

Lemma keys_set_incl (k : string) (v : V) (m : JsMap.t V) (x : string) :
  In x (JsMap.keys (JsMap.set k v m)) -> x = k \/ In x (JsMap.keys m).
Proof.
  unfold JsMap.keys. induction m as [| [k' v'] m IH]; cbn.
  - intros [<- | []]. left. reflexivity.
  - destruct (String.eqb k' k); cbn.
    + intros [<- | Hin]; right; [left; reflexivity | right; exact Hin].
    + intros [<- | Hin]; [right; left; reflexivity |].
      destruct (IH Hin) as [-> | Hin']; [left; reflexivity | right; right; exact Hin'].
Qed.

Lemma keys_delete_incl (k : string) (m : JsMap.t V) (x : string) :
  In x (JsMap.keys (JsMap.delete k m)) -> In x (JsMap.keys m).
Proof.
  unfold JsMap.keys. induction m as [| [k' v'] m IH]; cbn; [tauto |].
  destruct (String.eqb k' k); cbn.
  - intros Hin. right. exact (IH Hin).
  - intros [<- | Hin]; [left; reflexivity | right; exact (IH Hin)].
Qed.

Lemma keys_delete_absent (k : string) (m : JsMap.t V) :
  ~ In k (JsMap.keys (JsMap.delete k m)).
Proof.
  unfold JsMap.keys. induction m as [| [k' v'] m IH]; cbn; [tauto |].
  destruct (String.eqb_spec k' k) as [-> | Hne]; cbn; [exact IH |].
  intros [E | Hin]; [congruence | exact (IH Hin)].
Qed.

Lemma get_delete_same (k : string) (m : JsMap.t V) :
  JsMap.get k (JsMap.delete k m) = None.
Proof.
  induction m as [| [k' v'] m IH]; cbn; [reflexivity |].
  destruct (String.eqb k' k) eqn:E; cbn; [exact IH |].
  rewrite E. exact IH.
Qed.

Lemma existsb_eqb_absent (k : string) (l : list string) :
  ~ In k l -> existsb (String.eqb k) l = false.
Proof.
  intros Hn. destruct (existsb (String.eqb k) l) eqn:E; [| reflexivity].
  apply existsb_exists in E. destruct E as (x & Hx & Ex).
  apply String.eqb_eq in Ex. subst x. contradiction.
Qed.

End MapFacts.

(** ** Calls that always return *)

Section Lifecycle.
Import Obsidian Types DailyNotesManager.
Context {V : Type} `{Vault V}.

Lemma scanDirectory_cached (w : World V) :
  dateNow w - lastScanTime (manager w) < 5000 ->
  scanDirectory false w = (Returned (JsMap.keys (cache w)), w).
Proof.
  intros Hfresh. unfold scanDirectory, bind, gets. cbn [negb andb].
  destruct (Z.ltb_spec (dateNow w - lastScanTime (manager w)) 5000);
    [reflexivity | lia].
Qed.

Lemma createNote_returns (dateString content : string) (w : World V) :
  exists r w', createNote dateString content w = (Returned r, w').
Proof.
  unfold createNote, tryCatch.
  destruct (bind ensureDirectoryExists _ w) as [[r | e] w'] eqn:E;
    eexists _, _; reflexivity.
Qed.

End Lifecycle.

(** ** Validity of the cache keys *)

Section Invariant.
Import Obsidian Types DailyNotesManager Run.
Context {V : Type} `{Vault V}.

Lemma keysValid_set (k : string) (f : TFile) (c : JsMap.t TFile) :
  validDateString k = true -> keysValid c -> keysValid (JsMap.set k f c).
Proof.
  unfold keysValid. rewrite !Forall_forall. intros Hk Hc x Hx.
  destruct (keys_set_incl k f c x Hx) as [-> | Hin]; auto.
Qed.

Lemma keysValid_delete (k : string) (c : JsMap.t TFile) :
  keysValid c -> keysValid (JsMap.delete k c).
Proof.
  unfold keysValid. rewrite !Forall_forall. intros Hc x Hx.
  apply Hc. exact (keys_delete_incl k c x Hx).
Qed.

Lemma keysValid_empty : keysValid JsMap.empty.
Proof. constructor. Qed.

Lemma keysValid_scanFile (c : JsMap.t TFile) (file : TAbstractFile) :
  keysValid c -> keysValid (scanFile c file).
Proof.
  intros Hc. unfold scanFile.
  destruct file as [f | p l]; [| exact Hc].
  destruct (String.eqb (extension f) "md"); [| exact Hc].
  destruct (DateService.isValidDailyNoteFilename (name f)) eqn:Hv; [| exact Hc].
  apply keysValid_set; [| exact Hc].
  destruct (isValidDailyNoteFilename_dateString _ Hv) as (_ & dt & Hp).
  unfold validDateString. rewrite Hp. reflexivity.
Qed.

Lemma keysValid_fold_scanFile (files : list TAbstractFile) (c : JsMap.t TFile) :
  keysValid c -> keysValid (fold_left scanFile files c).
Proof.
  revert c. induction files as [| file files IH]; intros c Hc; cbn;
    [exact Hc |].
  apply IH. apply keysValid_scanFile. exact Hc.
Qed.

Lemma preserves_ret {A} (a : A) : preserves (ret (V := V) a).
Proof. intros w Hw. exact Hw. Qed.

Lemma preserves_throw {A} (e : string) : preserves (throw (V := V) (A := A) e).
Proof. intros w Hw. exact Hw. Qed.

Lemma preserves_gets {A} (f : World V -> A) : preserves (gets f).
Proof. intros w Hw. exact Hw. Qed.

Lemma preserves_bind {A B} (m : M V A) (k : A -> M V B) :
  preserves m -> (forall a, preserves (k a)) -> preserves (bind m k).
Proof.
  intros Hm Hk w Hw. unfold bind.
  specialize (Hm w Hw). destruct (m w) as [[a | e] w']; cbn in Hm |- *.
  - apply Hk. exact Hm.
  - exact Hm.
Qed.

Lemma preserves_tryCatch {A} (m : M V A) (h : string -> M V A) :
  preserves m -> (forall e, preserves (h e)) -> preserves (tryCatch m h).
Proof.
  intros Hm Hh w Hw. unfold tryCatch.
  specialize (Hm w Hw). destruct (m w) as [[a | e] w']; cbn in Hm |- *.
  - exact Hm.
  - apply Hh. exact Hm.
Qed.

Lemma preserves_setCache (c : JsMap.t TFile) :
  keysValid c -> preserves (setCache (V := V) c).
Proof. intros Hc w _. exact Hc. Qed.

Lemma preserves_modifyCache (f : JsMap.t TFile -> JsMap.t TFile) :
  (forall c, keysValid c -> keysValid (f c)) ->
  preserves (modifyCache (V := V) f).
Proof. intros Hf w Hw. apply Hf. exact Hw. Qed.

Lemma preserves_setLastScanTime (t : Z) : preserves (setLastScanTime (V := V) t).
Proof. intros w Hw. exact Hw. Qed.

Lemma preserves_setSettings (s : BonjoroSettings) :
  preserves (setSettings (V := V) s).
Proof. intros w Hw. exact Hw. Qed.

Lemma preserves_setVault (v : V) : preserves (setVault v).
Proof. intros w Hw. exact Hw. Qed.

Lemma preserves_vault_createFolder (p : string) :
  preserves (vault_createFolder p).
Proof.
  intros w Hw. unfold vault_createFolder.
  destruct (createFolder (vault w) p); exact Hw.
Qed.

Lemma preserves_vault_create (p c : string) : preserves (vault_create p c).
Proof.
  intros w Hw. unfold vault_create.
  destruct (create (vault w) p c) as [[f v'] | e]; exact Hw.
Qed.

Lemma preserves_vault_read (f : TFile) : preserves (vault_read f).
Proof.
  intros w Hw. unfold vault_read. destruct (read (vault w) f); exact Hw.
Qed.

Lemma preserves_vault_modify (f : TFile) (c : string) :
  preserves (vault_modify f c).
Proof.
  intros w Hw. unfold vault_modify.
  destruct (modify (vault w) f c); exact Hw.
Qed.

Lemma preserves_vault_delete (f : TFile) : preserves (vault_delete f).
Proof.
  intros w Hw. unfold vault_delete. destruct (delete (vault w) f); exact Hw.
Qed.

Lemma preserves_forEach {A B} (l : list A) (body : A -> B -> M V B) (acc : B) :
  (forall x b, preserves (body x b)) -> preserves (forEach l body acc).
Proof.
  intros Hb. revert acc. induction l as [| x l IH]; intros acc; cbn.
  - apply preserves_ret.
  - apply preserves_bind; [apply Hb | intros b; apply IH].
Qed.

Ltac preserve_step :=
  lazymatch goal with
  | |- preserves (ret _) => apply preserves_ret
  | |- preserves (throw _) => apply preserves_throw
  | |- preserves (gets _) => apply preserves_gets
  | |- preserves (setLastScanTime _) => apply preserves_setLastScanTime
  | |- preserves (setSettings _) => apply preserves_setSettings
  | |- preserves (setVault _) => apply preserves_setVault
  | |- preserves (vault_createFolder _) => apply preserves_vault_createFolder
  | |- preserves (vault_create _ _) => apply preserves_vault_create
  | |- preserves (vault_read _) => apply preserves_vault_read
  | |- preserves (vault_modify _ _) => apply preserves_vault_modify
  | |- preserves (vault_delete _) => apply preserves_vault_delete
  | |- preserves (setCache JsMap.empty) =>
      apply preserves_setCache; apply keysValid_empty
  | |- preserves (bind _ _) => apply preserves_bind; [| intros ?]
  | |- preserves (tryCatch _ _) => apply preserves_tryCatch; [| intros ?]
  | |- preserves (forEach _ _ _) => apply preserves_forEach; intros ? ?
  | |- preserves (match ?x with _ => _ end) => destruct x
  end.

Ltac preserve := repeat preserve_step.

Lemma preserves_ensureDirectoryExists : preserves ensureDirectoryExists.
Proof. unfold ensureDirectoryExists, getDailyNotesPath, vault_getAbstractFileByPath. preserve. Qed.

Lemma preserves_scanDirectory (b : bool) : preserves (scanDirectory b).
Proof.
  unfold scanDirectory, getDailyNotesPath, vault_getAbstractFileByPath.
  preserve.
  apply preserves_modifyCache. intros c. apply keysValid_fold_scanFile.
Qed.

Lemma preserves_loadOne (d : string) (notes : list DailyNote) :
  preserves (loadOne d notes).
Proof. unfold loadOne. preserve. Qed.

Lemma preserves_loadNotes (o : LoadNotesOptions) : preserves (loadNotes o).
Proof.
  unfold loadNotes. preserve;
    first [apply preserves_scanDirectory | apply preserves_loadOne].
Qed.

Lemma preserves_createNote (d c : string) :
  validDateString d = true -> preserves (createNote d c).
Proof.
  intros Hd. unfold createNote, getNotePath, vault_getAbstractFileByPath.
  preserve; try apply preserves_ensureDirectoryExists.
  apply preserves_modifyCache. intros m. apply keysValid_set. exact Hd.
Qed.

Lemma preserves_saveNote (d c : string) :
  validDateString d = true -> preserves (saveNote d c).
Proof.
  intros Hd. unfold saveNote, vault_getAbstractFileByPath.
  preserve; try (apply preserves_createNote; exact Hd).
  apply preserves_modifyCache. intros m. apply keysValid_delete.
Qed.

Lemma preserves_deleteNote (d : string) : preserves (deleteNote d).
Proof.
  unfold deleteNote. preserve.
  apply preserves_modifyCache. intros m. apply keysValid_delete.
Qed.

Lemma preserves_readNote (d : string) : preserves (readNote d).
Proof. unfold readNote. preserve. Qed.

Lemma preserves_noteExists (d : string) : preserves (noteExists d).
Proof. unfold noteExists. preserve. apply preserves_scanDirectory. Qed.

Lemma preserves_refreshFile (d : string) :
  validDateString d = true -> preserves (refreshFile d).
Proof.
  intros Hd. unfold refreshFile, getNotePath, vault_getAbstractFileByPath.
  preserve; apply preserves_modifyCache; intros m;
    first [apply keysValid_set; exact Hd | apply keysValid_delete].
Qed.

Lemma preserves_clearCache : preserves (clearCache (V := V)).
Proof. unfold clearCache. preserve. Qed.

Lemma preserves_updateSettings (s : BonjoroSettings) :
  preserves (updateSettings (V := V) s).
Proof. unfold updateSettings. preserve. Qed.

Lemma bind_gets {A B} (f : World V -> A) (k : A -> M V B) (w : World V) :
  bind (gets f) k w = k (f w) w.
Proof. reflexivity. Qed.

Lemma validDateString_today (today : JsDate.t) :
  1900 <= JsDate.getFullYear today <= 2100 ->
  validDateString (DateService.formatDateToFileName today) = true.
Proof.
  intros Hy. unfold validDateString, DateService.parseDateString.
  fold (DateService.generateFilename today).
  rewrite parseDateFromFilename_generateFilename by exact Hy. reflexivity.
Qed.

Lemma getOrCreateTodayNote_keeps (w : World V) :
  1900 <= JsDate.getFullYear (newDate w) <= 2100 ->
  cacheKeysValid w -> cacheKeysValid (snd (getOrCreateTodayNote w)).
Proof.
  intros Hy Hw. apply validDateString_today in Hy.
  unfold getOrCreateTodayNote. rewrite bind_gets. cbv beta.
  rewrite bind_gets. cbv beta.
  match goal with
  | |- cacheKeysValid (snd (?m w)) =>
      assert (Hp : preserves m); [| exact (Hp w Hw)]
  end.
  preserve;
    first [ apply preserves_scanDirectory
          | apply preserves_loadNotes
          | apply preserves_createNote; exact Hy ].
Qed.

Lemma call_keeps (c : Call) (w : World V) :
  callArgsValid (newDate w) c ->
  cacheKeysValid w -> cacheKeysValid (call c w).
Proof.
  intros Hc Hw. destruct c; cbn [call callArgsValid] in *; unfold after.
  - apply preserves_scanDirectory; exact Hw.
  - apply preserves_loadNotes; exact Hw.
  - apply getOrCreateTodayNote_keeps; assumption.
  - apply preserves_createNote; assumption.
  - apply preserves_saveNote; assumption.
  - apply preserves_deleteNote; exact Hw.
  - apply preserves_readNote; exact Hw.
  - apply preserves_noteExists; exact Hw.
  - apply preserves_refreshFile; assumption.
  - apply preserves_ensureDirectoryExists; exact Hw.
  - apply preserves_clearCache; exact Hw.
  - apply preserves_updateSettings; exact Hw.
Qed.

Lemma step_keeps (e : Event V) (w : World V) :
  eventArgsValid e -> cacheKeysValid w -> cacheKeysValid (step w e).
Proof.
  intros He Hw. destruct e as [now today c | v]; cbn [step eventArgsValid] in *.
  - apply call_keeps; [exact He | exact Hw].
  - exact Hw.
Qed.

Lemma run_keeps (es : list (Event V)) (w : World V) :
  Forall eventArgsValid es -> cacheKeysValid w -> cacheKeysValid (run w es).
Proof.
  revert w. induction es as [| e es IH]; intros w Hes Hw; cbn.
  - exact Hw.
  - inversion Hes as [| ? ? He Hes']; subst.
    apply IH; [exact Hes' | apply step_keeps; assumption].
Qed.

(** C3, as amended.  From a freshly constructed manager, after any sequence
  of method calls and outside changes to the vault in which every
  date-string given to [createNote], [saveNote] and [refreshFile] is valid
  and [getOrCreateTodayNote] runs on a day of the years 1900 to 2100,
  every key of the cache is a valid date-string. *)
Theorem cache_keys_valid_invariant
  (s : BonjoroSettings) (v : V) (es : list (Event V)) :
  Forall eventArgsValid es -> cacheKeysValid (run (initial s v) es).
Proof.
  intros Hes. apply run_keeps; [exact Hes | apply keysValid_empty].
Qed.

End Invariant.

(** ** Sorting date-strings *)

Section Sorting.
Import Js DateService Run Spec.

Lemma insertSorted_perm {A} (cmp : A -> A -> Z) (x : A) (l : list A) :
  Permutation (insertSorted cmp x l) (x :: l).
Proof.
  induction l as [| y l IH]; cbn; [reflexivity |].
  destruct (cmp x y <=? 0); [reflexivity |].
  rewrite IH. apply perm_swap.
Qed.

Lemma sort_perm {A} (cmp : A -> A -> Z) (l : list A) :
  Permutation (sort cmp l) l.
Proof.
  induction l as [| x l IH]; cbn; [reflexivity |].
  rewrite insertSorted_perm. apply perm_skip. exact IH.
Qed.

Lemma byDateDesc_valid (a b : string) :
  validDateString a = true -> validDateString b = true ->
  byDateDesc a b = JsDate.msPerDay * (dayOf b - dayOf a).
Proof.
  unfold validDateString, byDateDesc, dayOf, compareDates, JsDate.midnightTime.
  destruct (parseDateString a), (parseDateString b); try discriminate.
  intros _ _. lia.
Qed.

Lemma insertSorted_sorted (x : string) (l : list string) :
  validDateString x = true -> Forall (fun k => validDateString k = true) l ->
  newestFirstByDate l -> newestFirstByDate (insertSorted byDateDesc x l).
Proof.
  unfold newestFirstByDate. intros Hx Hl Hs.
  induction l as [| y l IH]; cbn.
  - repeat constructor.
  - inversion Hl as [| ? ? Hy Hl']; subst.
    inversion Hs as [| ? ? Hs' Hhd]; subst.
    rewrite (byDateDesc_valid x y Hx Hy).
    destruct (Z.leb_spec (JsDate.msPerDay * (dayOf y - dayOf x)) 0) as [Hle | Hgt].
    + constructor; [exact Hs |]. constructor. unfold JsDate.msPerDay in Hle. lia.
    + constructor; [exact (IH Hl' Hs') |].
      destruct l as [| z l]; cbn.
      * constructor. unfold JsDate.msPerDay in Hgt. lia.
      * inversion Hl' as [| ? ? Hz _]; subst.
        rewrite (byDateDesc_valid x z Hx Hz).
        destruct (JsDate.msPerDay * (dayOf z - dayOf x) <=? 0).
        -- constructor. unfold JsDate.msPerDay in Hgt. lia.
        -- inversion Hhd; subst. constructor. assumption.
Qed.

Lemma sortDateStringsDesc_perm (l : list string) :
  Permutation (sortDateStringsDesc l) l.
Proof. apply sort_perm. Qed.

Lemma sortDateStringsDesc_sorted (l : list string) :
  Forall (fun k => validDateString k = true) l ->
  newestFirstByDate (sortDateStringsDesc l).
Proof.
  unfold sortDateStringsDesc. fold byDateDesc.
  induction l as [| x l IH]; intros Hl; cbn.
  - constructor.
  - inversion Hl as [| ? ? Hx Hl']; subst.
    apply insertSorted_sorted; [exact Hx | | exact (IH Hl')].
    eapply Permutation_Forall; [| exact Hl'].
    symmetry. apply sort_perm.
Qed.

End Sorting.

Section ScanAndLoad.
Import Js Obsidian Types DailyNotesManager Run Spec.
Context {V : Type} `{Vault V}.

Lemma keys_set_iff (k : string) (f : TFile) (m : JsMap.t TFile) (x : string) :
  In x (JsMap.keys (JsMap.set k f m)) <-> x = k \/ In x (JsMap.keys m).
Proof.
  split; [apply keys_set_incl |].
  unfold JsMap.keys. induction m as [| [k' v'] m IH]; cbn.
  - intros [-> | []]. left. reflexivity.
  - destruct (String.eqb_spec k' k) as [-> | Hne]; cbn.
    + intros [-> | [-> | Hin]]; auto.
    + intros [-> | [-> | Hin]]; auto.
Qed.

Lemma keys_scanFile (c : JsMap.t TFile) (file : TAbstractFile) (k : string) :
  In k (JsMap.keys (scanFile c file))
  <-> In k (JsMap.keys c) \/ entered [file] k.
Proof.
  unfold scanFile, entered.
  destruct file as [f | p l].
  - destruct (String.eqb_spec (extension f) "md") as [He | He].
    + destruct (DateService.isValidDailyNoteFilename (name f)) eqn:Hv.
      * rewrite keys_set_iff. split.
        -- intros [-> | Hin]; [right | left; exact Hin].
           exists f. cbn. auto.
        -- intros [Hin | (f' & [[= <-] | []] & _ & _ & ->)]; auto.
      * split; [auto |].
        intros [Hin | (f' & [[= <-] | []] & _ & Hv' & _)];
          [exact Hin | congruence].
    + split; [auto |].
      intros [Hin | (f' & [[= <-] | []] & He' & _)]; [exact Hin | congruence].
  - split; [auto |].
    intros [Hin | (f' & [E | []] & _)]; [exact Hin | discriminate E].
Qed.

Lemma entered_cons (file : TAbstractFile) (files : list TAbstractFile)
  (k : string) :
  entered (file :: files) k <-> entered [file] k \/ entered files k.
Proof.
  unfold entered. split.
  - intros (f & [E | Hin] & Hf).
    + left. exists f. split; [left; exact E | exact Hf].
    + right. exists f. split; [exact Hin | exact Hf].
  - intros [(f & [E | []] & Hf) | (f & Hin & Hf)]; exists f.
    + split; [left; exact E | exact Hf].
    + split; [right; exact Hin | exact Hf].
Qed.

Lemma keys_fold_scanFile (files : list TAbstractFile) (c : JsMap.t TFile)
  (k : string) :
  In k (JsMap.keys (fold_left scanFile files c))
  <-> In k (JsMap.keys c) \/ entered files k.
Proof.
  revert c. induction files as [| file files IH]; intros c; cbn [fold_left].
  - split; [auto |]. intros [Hin | (f & [] & _)]. exact Hin.
  - rewrite IH, keys_scanFile, (entered_cons file files). tauto.
Qed.

(** What a scan that lists the folder does. *)
Lemma scanDirectory_listing (forceRefresh : bool) (w : World V)
  (p : string) (files : list TAbstractFile) :
  forceRefresh = true \/ 5000 <= dateNow w - lastScanTime (manager w) ->
  getAbstractFileByPath (vault w) (dailyNotesPath (settings (manager w)))
  = Some (AFolder p files) ->
  let c := fold_left scanFile files JsMap.empty in
  scanDirectory forceRefresh w
  = (Returned (DateService.sortDateStringsDesc (JsMap.keys c)),
     {| manager := {| settings := settings (manager w);
                      cachedFileList := c;
                      lastScanTime := dateNow w |};
        vault := vault w; dateNow := dateNow w; newDate := newDate w |})
  /\ newestFirstByDate (DateService.sortDateStringsDesc (JsMap.keys c))
  /\ Permutation (DateService.sortDateStringsDesc (JsMap.keys c)) (JsMap.keys c)
  /\ forall k, In k (JsMap.keys c) <-> entered files k.
Proof.
  intros Hstale Hfolder c.
  assert (Hc : keysValid c) by (apply keysValid_fold_scanFile, keysValid_empty).
  split; [| split; [| split]].
  - unfold scanDirectory, bind, gets at 1 2.
    assert (E : negb forceRefresh
                && (dateNow w - lastScanTime (manager w) <? 5000) = false).
    { destruct Hstale as [-> | Hold]; [reflexivity |].
      destruct (Z.ltb_spec (dateNow w - lastScanTime (manager w)) 5000);
        [lia | apply andb_false_r]. }
    rewrite E.
    unfold tryCatch, bind, getDailyNotesPath, vault_getAbstractFileByPath, gets.
    rewrite Hfolder. reflexivity.
  - apply sortDateStringsDesc_sorted. exact Hc.
  - apply sortDateStringsDesc_perm.
  - intros k. unfold c. rewrite keys_fold_scanFile. cbn. tauto.
Qed.

(** A scan that finds no folder returns nothing and changes nothing. *)
Lemma scanDirectory_no_folder (forceRefresh : bool) (w : World V) :
  forceRefresh = true \/ 5000 <= dateNow w - lastScanTime (manager w) ->
  (forall p files,
      getAbstractFileByPath (vault w) (dailyNotesPath (settings (manager w)))
      <> Some (AFolder p files)) ->
  scanDirectory forceRefresh w = (Returned [], w).
Proof.
  intros Hstale Hfolder.
  unfold scanDirectory, bind, gets at 1 2.
  assert (E : negb forceRefresh
              && (dateNow w - lastScanTime (manager w) <? 5000) = false).
  { destruct Hstale as [-> | Hold]; [reflexivity |].
    destruct (Z.ltb_spec (dateNow w - lastScanTime (manager w)) 5000);
      [lia | apply andb_false_r]. }
  rewrite E.
  unfold tryCatch, bind, getDailyNotesPath, vault_getAbstractFileByPath, gets.
  destruct (getAbstractFileByPath (vault w)
              (dailyNotesPath (settings (manager w)))) as [[f | p files] |];
    [reflexivity | | reflexivity].
  exfalso. exact (Hfolder p files eq_refl).
Qed.

Lemma scanDirectory_returns (forceRefresh : bool) (w : World V) :
  exists l w', scanDirectory forceRefresh w = (Returned l, w').
Proof.
  unfold scanDirectory, bind, gets at 1 2.
  destruct (negb forceRefresh
            && (dateNow w - lastScanTime (manager w) <? 5000));
    [eexists _, _; reflexivity |].
  unfold tryCatch, bind, getDailyNotesPath, vault_getAbstractFileByPath, gets.
  destruct (getAbstractFileByPath (vault w)
              (dailyNotesPath (settings (manager w)))) as [[f | p files] |];
    eexists _, _; reflexivity.
Qed.

(** Each date-string of the page gives one note, unless it does not parse;
  reading does not change the world. *)
Lemma loadOne_spec (d : string) (notes : list DailyNote) (w : World V) :
  exists more,
    loadOne d notes w = (Returned (notes ++ more), w)
    /\ map dateString more = filter validDateString [d].
Proof.
  unfold loadOne, validDateString. cbn [filter].
  destruct (DateService.parseDateString d) as [dt |].
  - unfold bind, gets.
    destruct (JsMap.get d (cachedFileList (manager w))) as [f |].
    + unfold tryCatch, vault_read, ret.
      destruct (read (vault w) f) as [c | e];
        eexists [_]; split; reflexivity.
    + eexists [_]; split; reflexivity.
  - exists []. rewrite app_nil_r. split; reflexivity.
Qed.

Lemma forEach_loadOne (ds : list string) (notes : list DailyNote) (w : World V) :
  exists more,
    forEach ds loadOne notes w = (Returned (notes ++ more), w)
    /\ map dateString more = filter validDateString ds.
Proof.
  revert notes. induction ds as [| d ds IH]; intros notes; cbn [forEach].
  - exists []. rewrite app_nil_r. split; reflexivity.
  - destruct (loadOne_spec d notes w) as (m1 & E1 & Hm1).
    destruct (IH (notes ++ m1)) as (m2 & E2 & Hm2).
    exists (m1 ++ m2). split.
    + unfold bind. rewrite E1, E2, app_assoc. reflexivity.
    + rewrite map_app, Hm1, Hm2. cbn.
      destruct (validDateString d); reflexivity.
Qed.

(** What [loadNotes] returns, in terms of what [scanDirectory(false)]
  returns: the date-strings up to the cursor, in the order of the scan,
  cut to [count], less those that do not parse. *)
Lemma loadNotes_spec (o : LoadNotesOptions) (w : World V) :
  exists existingDates notes w',
    scanDirectory false w = (Returned existingDates, w')
    /\ loadNotes o w = (Returned notes, w')
    /\ map dateString notes
       = filter validDateString
           (slice0 (count o)
              (filter
                 (fun d =>
                    le d (DateService.formatDateToFileName
                            match startDate o with
                            | Some s => s
                            | None => newDate w
                            end))
                 existingDates))
    /\ (0 <= count o -> Z.of_nat (List.length notes) <= count o).
Proof.
  destruct (scanDirectory_returns false w) as (l & w' & Es).
  match goal with
  | |- exists _ _ _, _ /\ _ /\ _ = filter _ (slice0 _ (filter ?p _)) /\ _ =>
      destruct (forEach_loadOne (slice0 (count o) (filter p l)) [] w')
        as (notes & El & Hn)
  end.
  exists l, notes, w'. split; [exact Es |]. split; [| split].
  - unfold loadNotes.
    destruct (startDate o) as [s |]; unfold bind;
      [unfold ret at 1 | unfold gets at 1]; rewrite Es; exact El.
  - exact Hn.
  - intros Hc.
    rewrite <- (length_map dateString), Hn.
    match goal with
    | |- Z.of_nat (List.length (filter _ ?l0)) <= _ =>
        pose proof (filter_length_le validDateString l0) as Hf;
        assert (Hl : (List.length l0 <= Z.to_nat (count o))%nat)
    end.
    { unfold slice0. destruct (Z.ltb_spec (count o) 0); [lia |].
      apply firstn_le_length. }
    lia.
Qed.

End ScanAndLoad.

(** ** The single-note operations *)

Section NoteOperations.
Import Obsidian Types DailyNotesManager.
Context {V : Type} `{Vault V}.

(** C9.  When a handle is cached for the date-string and the vault fails to
  delete the file, [deleteNote] returns a failure carrying the error and
  leaves the cache, and the rest of the world, as they were. *)
Theorem deleteNote_failure_keeps_cache
  (dateString : string) (w : World V) (f : TFile) (e : string) :
  JsMap.get dateString (cache w) = Some f ->
  delete (vault w) f = Thrown e ->
  deleteNote dateString w = (Returned (failure e), w)
  /\ success (failure e) = false
  /\ JsMap.get dateString (cache (snd (deleteNote dateString w))) = Some f.
Proof.
  intros Hget Hdel.
  assert (E : deleteNote dateString w = (Returned (failure e), w)).
  { unfold deleteNote, tryCatch, bind, gets, vault_delete, ret.
    fold (cache w). rewrite Hget, Hdel. reflexivity. }
  rewrite E. repeat split. exact Hget.
Qed.

(** C7.  Without a cached handle [deleteNote] fails with "File not found"
    and changes nothing.  With a cached handle it asks the vault to delete
    that file; once the vault has done so the result is a success and the
    entry is gone from the cache.  A [noteExists] for the same date-string
    that follows inside the freshness window answers [false] from the cache
    alone, whatever the vault holds and without touching the world; one that
    follows later lists the folder, and answers [false] as long as the
    folder no longer lists the note. *)
Theorem deleteNote_then_noteExists (dateString : string) (w : World V) :
  (JsMap.get dateString (cache w) = None ->
   deleteNote dateString w = (Returned (failure "File not found"), w))
  /\ (forall f v',
         JsMap.get dateString (cache w) = Some f ->
         delete (vault w) f = Returned v' ->
         let w' := withCache (withVault w v')
                     (JsMap.delete dateString (cache w)) in
         deleteNote dateString w
         = (Returned {| success := true; error := None; resultFile := None |},
            w')
         /\ JsMap.get dateString (cache w') = None
         /\ (forall now today v'',
                now - lastScanTime (manager w) < 5000 ->
                let w'' := {| manager := manager w'; vault := v'';
                              dateNow := now; newDate := today |} in
                noteExists dateString w'' = (Returned false, w''))
         /\ (forall now today,
                5000 <= now - lastScanTime (manager w) ->
                (forall p files,
                    getAbstractFileByPath v'
                      (dailyNotesPath (settings (manager w)))
                    = Some (AFolder p files) ->
                    ~ Spec.entered files dateString) ->
                fst (noteExists dateString (withClock w' now today))
                = Returned false)).
Proof.
  split.
  - intros Hget.
    unfold deleteNote, tryCatch, bind, gets, ret.
    fold (cache w). rewrite Hget. reflexivity.
  - intros f v' Hget Hdel w'. split; [| split; [| split]].
    + unfold deleteNote, tryCatch, bind, gets, vault_delete, ret.
      fold (cache w). rewrite Hget, Hdel. reflexivity.
    + apply get_delete_same.
    + intros now today v'' Hfresh w''.
      unfold noteExists, bind.
      rewrite scanDirectory_cached by exact Hfresh.
      unfold ret. f_equal. f_equal.
      apply existsb_eqb_absent. apply keys_delete_absent.
    + intros now today Hstale Hlisting.
      unfold noteExists, bind.
      destruct (getAbstractFileByPath v'
                  (dailyNotesPath (settings (manager w))))
        as [[g | p files] |] eqn:Hdir.
      * rewrite (scanDirectory_no_folder false (withClock w' now today));
          [reflexivity | right; exact Hstale |].
        cbn. rewrite Hdir. discriminate.
      * destruct (scanDirectory_listing false (withClock w' now today) p files)
          as (Escan & _ & Hperm & Hkeys);
          [right; exact Hstale | exact Hdir |].
        rewrite Escan. unfold ret. cbn [fst]. f_equal.
        apply existsb_eqb_absent. intros Hin.
        apply (Hlisting p files eq_refl). apply Hkeys.
        exact (Permutation_in _ Hperm Hin).
      * rewrite (scanDirectory_no_folder false (withClock w' now today));
          [reflexivity | right; exact Hstale |].
        cbn. rewrite Hdir. discriminate.
Qed.

(** C10.  [readNote] returns [null] when no handle is cached for the
  date-string, and also when a handle is cached and the vault fails to
  read the file; in both cases nothing else changes, so the caller sees
  the same outcome. *)
Theorem readNote_null_when_absent_or_unreadable
  (dateString : string) (w : World V) :
  (JsMap.get dateString (cache w) = None ->
   readNote dateString w = (Returned None, w))
  /\ (forall f e,
         JsMap.get dateString (cache w) = Some f ->
         read (vault w) f = Thrown e ->
         readNote dateString w = (Returned None, w)).
Proof.
  split.
  - intros Hget. unfold readNote, tryCatch, bind, gets, ret.
    fold (cache w). rewrite Hget. reflexivity.
  - intros f e Hget Hread.
    unfold readNote, tryCatch, bind, gets, vault_read, ret.
    fold (cache w). rewrite Hget, Hread. reflexivity.
Qed.

(** C6.  [saveNote] is [createNote] when no handle is cached; when the
  cached handle's path is no longer in the vault it drops the cache entry
  and is [createNote] from there; otherwise it has the vault overwrite the
  file behind the cached handle and, once the vault has done so, returns
  that same handle, the cache being untouched. *)
Theorem saveNote_cases (dateString content : string) (w : World V) :
  (JsMap.get dateString (cache w) = None ->
   saveNote dateString content w = createNote dateString content w)
  /\ (forall f,
         JsMap.get dateString (cache w) = Some f ->
         getAbstractFileByPath (vault w) (path f) = None ->
         saveNote dateString content w
         = createNote dateString content
             (withCache w (JsMap.delete dateString (cache w))))
  /\ (forall f x v',
         JsMap.get dateString (cache w) = Some f ->
         getAbstractFileByPath (vault w) (path f) = Some x ->
         modify (vault w) f content = Returned v' ->
         saveNote dateString content w
         = (Returned {| success := true; error := None;
                        resultFile := Some f |},
            withVault w v'))
  /\ (forall f x e,
         JsMap.get dateString (cache w) = Some f ->
         getAbstractFileByPath (vault w) (path f) = Some x ->
         modify (vault w) f content = Thrown e ->
         saveNote dateString content w = (Returned (failure e), w)).
Proof.
  split; [| split; [| split]].
  - intros Hget.
    destruct (createNote_returns dateString content w) as (r & w' & E).
    unfold saveNote, tryCatch, bind, gets.
    fold (cache w). rewrite Hget, E. reflexivity.
  - intros f Hget Hgone. unfold withCache, cache in *.
    match goal with
    | |- _ = createNote ?d ?c ?w0 =>
        destruct (createNote_returns d c w0) as (r & w' & E)
    end.
    rewrite E.
    unfold saveNote, tryCatch, bind, vault_getAbstractFileByPath, gets,
      modifyCache, setCache.
    rewrite Hget. cbv beta iota. rewrite Hgone. cbv beta iota.
    rewrite E. reflexivity.
  - intros f x v' Hget Hthere Hmod.
    unfold saveNote, tryCatch, bind, vault_getAbstractFileByPath, gets,
      vault_modify, setVault, ret.
    fold (cache w). rewrite Hget. cbv beta iota. rewrite Hthere.
    cbv beta iota. rewrite Hmod.
    reflexivity.
  - intros f x e Hget Hthere Hmod.
    unfold saveNote, tryCatch, bind, vault_getAbstractFileByPath, gets,
      vault_modify, ret.
    fold (cache w). rewrite Hget. cbv beta iota. rewrite Hthere.
    cbv beta iota. rewrite Hmod.
    reflexivity.
Qed.

End NoteOperations.

(** ** Changing the settings *)

Section Settings.
Import Obsidian Types DailyNotesManager.
Context {V : Type} `{Vault V}.

Lemma updateSettings_effect (s : BonjoroSettings) (w : World V) :
  updateSettings s w
  = (Returned tt,
     {| manager := {| settings := s;
                      cachedFileList := JsMap.empty;
                      lastScanTime := lastScanTime (manager w) |};
        vault := vault w; dateNow := dateNow w; newDate := newDate w |}).
Proof. reflexivity. Qed.

Lemma clearCache_effect (w : World V) :
  clearCache w
  = (Returned tt,
     {| manager := {| settings := settings (manager w);
                      cachedFileList := JsMap.empty;
                      lastScanTime := 0 |};
        vault := vault w; dateNow := dateNow w; newDate := newDate w |}).
Proof. reflexivity. Qed.

(** Inside the freshness window of the last scan, the scan that follows
  [updateSettings] returns the emptied cache, whatever the new folder
  holds. *)
Lemma scanDirectory_after_updateSettings
  (s : BonjoroSettings) (w : World V) (now : Z) (today : JsDate.t) :
  now - lastScanTime (manager w) < 5000 ->
  fst (scanDirectory false (withClock (snd (updateSettings s w)) now today))
  = Returned [].
Proof.
  intros Hfresh. rewrite updateSettings_effect. cbn [snd].
  rewrite scanDirectory_cached by exact Hfresh. reflexivity.
Qed.

End Settings.

(** ** The operations on concrete worlds *)

Section Concrete.
Import Obsidian Types DailyNotesManager Run Examples.
Local Open Scope string_scope.

Ltac by_computation := vm_compute; reflexivity.

(** C3 as stated fails: [createNote] enters whatever string it is given. *)
Lemma createNote_enters_invalid_key :
  ~ cacheKeysValid
      (run (initial settings0 vault0) [At noon jan15 (CreateNote "hello" "")]).
Proof.
  unfold cacheKeysValid, keysValid.
  replace (JsMap.keys
             (cache (run (initial settings0 vault0)
                       [At noon jan15 (CreateNote "hello" "")])))
    with ["hello"] by by_computation.
  intros Hv. inversion Hv as [| k l Hk Hl]. vm_compute in Hk. discriminate Hk.
Qed.

Lemma cache_keys_valid_invariant_witness :
  Forall eventArgsValid validRun
  /\ cacheKeysValid (run (initial settings0 vault0) validRun).
Proof.
  assert (Hargs : Forall (eventArgsValid (V := MemVault.t)) validRun).
  { repeat constructor; vm_compute; first [reflexivity | discriminate]. }
  split.
  - exact Hargs.
  - exact (cache_keys_valid_invariant settings0 vault0 validRun Hargs).
Defined.

Lemma deleteNote_failure_keeps_cache_witness :
  let w := withVault scanned readOnlyVault in
  JsMap.get "2026-01-10" (cache w) = Some note10
  /\ delete (vault w) note10 = Thrown "Error: EACCES: permission denied"
  /\ deleteNote "2026-01-10" w
     = (Returned (failure "Error: EACCES: permission denied"), w).
Proof.
  intros w.
  assert (Hget : JsMap.get "2026-01-10" (cache w) = Some note10)
    by by_computation.
  assert (Hdel : delete (vault w) note10
                 = Thrown "Error: EACCES: permission denied")
    by by_computation.
  split; [exact Hget | split; [exact Hdel |]].
  exact (proj1 (deleteNote_failure_keeps_cache "2026-01-10" w note10 _
                  Hget Hdel)).
Defined.

Lemma deleteNote_then_noteExists_witness :
  deleteNote "2026-01-11" scanned
  = (Returned (failure "File not found"), scanned)
  /\ fst (deleteNote "2026-01-10" scanned)
     = Returned {| success := true; error := None; resultFile := None |}
  /\ fst (noteExists "2026-01-10"
            (withClock (snd (deleteNote "2026-01-10" scanned))
               (noon + 100) jan15))
     = Returned false
  /\ fst (noteExists "2026-01-10"
            (withClock (snd (deleteNote "2026-01-10" scanned))
               (noon + 6000) jan15))
     = Returned false.
Proof.
  assert (Hnone : JsMap.get "2026-01-11" (cache scanned) = None)
    by by_computation.
  assert (Hsome : JsMap.get "2026-01-10" (cache scanned) = Some note10)
    by by_computation.
  assert (Hdel : delete (vault scanned) note10 = Returned emptiedVault)
    by by_computation.
  assert (Hfresh : noon + 100 - lastScanTime (manager scanned) < 5000)
    by by_computation.
  assert (Hstale : 5000 <= noon + 6000 - lastScanTime (manager scanned))
    by (vm_compute; discriminate).
  assert (Hlisting :
           forall p files,
             getAbstractFileByPath emptiedVault
               (dailyNotesPath (settings (manager scanned)))
             = Some (AFolder p files) ->
             ~ Spec.entered files "2026-01-10").
  { intros p files E. vm_compute in E. injection E as <- <-.
    intros (f & [[= <-] | []] & _ & Hv & _).
    vm_compute in Hv. discriminate Hv. }
  destruct (deleteNote_then_noteExists "2026-01-11" scanned) as [Habsent _].
  destruct (deleteNote_then_noteExists "2026-01-10" scanned) as [_ Hcached].
  specialize (Hcached note10 emptiedVault Hsome Hdel).
  cbv zeta in Hcached. destruct Hcached as (Hgone & _ & Hsoon & Hlater).
  split; [exact (Habsent Hnone) |].
  rewrite Hgone. split; [reflexivity |].
  split.
  - exact (f_equal fst (Hsoon (noon + 100) jan15 emptiedVault Hfresh)).
  - exact (Hlater (noon + 6000) jan15 Hstale Hlisting).
Defined.

Lemma readNote_null_when_absent_or_unreadable_witness :
  let w := withVault scanned unreadableVault in
  readNote "2026-01-11" w = (Returned None, w)
  /\ readNote "2026-01-10" w = (Returned None, w)
  /\ readNote "2026-01-10" scanned = (Returned (Some "ten"), scanned).
Proof.
  intros w.
  assert (Hnone : JsMap.get "2026-01-11" (cache w) = None) by by_computation.
  assert (Hsome : JsMap.get "2026-01-10" (cache w) = Some note10)
    by by_computation.
  assert (Hread : read (vault w) note10 = Thrown "Error: EIO: i/o error")
    by by_computation.
  destruct (readNote_null_when_absent_or_unreadable "2026-01-11" w)
    as [Habsent _].
  destruct (readNote_null_when_absent_or_unreadable "2026-01-10" w)
    as [_ Hfail].
  split; [exact (Habsent Hnone) |].
  split; [exact (Hfail note10 _ Hsome Hread) |].
  by_computation.
Defined.

Lemma saveNote_cases_witness :
  saveNote "2026-01-20" "hello" scanned
  = createNote "2026-01-20" "hello" scanned
  /\ (let w := withVault scanned emptiedVault in
      saveNote "2026-01-10" "again" w
      = createNote "2026-01-10" "again"
          (withCache w (JsMap.delete "2026-01-10" (cache w))))
  /\ fst (saveNote "2026-01-10" "TEN" scanned)
     = Returned {| success := true; error := None;
                   resultFile := Some note10 |}.
Proof.
  assert (Hnone : JsMap.get "2026-01-20" (cache scanned) = None)
    by by_computation.
  assert (Hsome : JsMap.get "2026-01-10" (cache scanned) = Some note10)
    by by_computation.
  assert (Hsome' : JsMap.get "2026-01-10"
                     (cache (withVault scanned emptiedVault)) = Some note10)
    by by_computation.
  assert (Hgone : getAbstractFileByPath
                    (vault (withVault scanned emptiedVault)) (path note10)
                  = None) by by_computation.
  assert (Hthere : getAbstractFileByPath (vault scanned) (path note10)
                   = Some (AFile note10)) by by_computation.
  assert (Hmod : modify (vault scanned) note10 "TEN"
                 = Returned
                     (MemVault.withNodes vault0
                        (MemVault.update (path note10) "TEN"
                           (MemVault.nodes vault0)))) by by_computation.
  destruct (saveNote_cases "2026-01-20" "hello" scanned) as (Hnew & _).
  destruct (saveNote_cases "2026-01-10" "again"
              (withVault scanned emptiedVault)) as (_ & Hstale & _).
  destruct (saveNote_cases "2026-01-10" "TEN" scanned)
    as (_ & _ & Hsame & _).
  split; [exact (Hnew Hnone) |].
  split; [exact (Hstale note10 Hsome' Hgone) |].
  rewrite (Hsame note10 _ _ Hsome Hthere Hmod). reflexivity.
Defined.

(** C2 on a concrete world.  One second after [createNote] of 2026-01-15,
  inside the freshness window, [scanDirectory(false)] returns the keys of
  the cache in the order they were entered, oldest first here; the forced
  scan of the same world returns them newest first. *)
Theorem scanDirectory_cached_keeps_insertion_order :
  let w := withClock created (noon + 2000) jan15 in
  dateNow w - lastScanTime (manager w) < 5000
  /\ fst (scanDirectory false w) = Returned ["2026-01-10"; "2026-01-15"]
  /\ Spec.newestFirst ["2026-01-10"; "2026-01-15"] = false
  /\ ~ Spec.newestFirstByDate ["2026-01-10"; "2026-01-15"]
  /\ fst (scanDirectory true w) = Returned ["2026-01-15"; "2026-01-10"]
  /\ Spec.newestFirst ["2026-01-15"; "2026-01-10"] = true.
Proof.
  intros w. split; [by_computation |]. split; [by_computation |].
  split; [by_computation |]. split; [| split; by_computation].
  intros Hs. inversion Hs as [| a l Hl Hhd]; subst.
  inversion Hhd as [| b l' Hle]; subst.
  vm_compute in Hle. apply Hle. reflexivity.
Qed.

(** C1 on a concrete world.  In the same world, asked for one note at the
  cursor 2026-01-15, [loadNotes] returns the note of 2026-01-10 although
  2026-01-15 is a key of the cache and is not above the cursor. *)
Theorem loadNotes_cached_skips_newest :
  let w := withClock created (noon + 2000) jan15 in
  fst (loadNotes firstPage w)
  = Returned [ {| date := JsDate.make 2026 0 10;
                  dateString := "2026-01-10";
                  content := "ten";
                  file := Some note10;
                  exists_ := true;
                  isDirty := false |} ]
  /\ JsMap.keys (cache w) = ["2026-01-10"; "2026-01-15"]
  /\ Js.le "2026-01-15" (DateService.formatDateToFileName jan15) = true
  /\ Js.le "2026-01-10" "2026-01-15" = true.
Proof. intros w. repeat split; by_computation. Qed.

(** C8 on a concrete world.  One second after a scan the notes folder is
  changed to [journal]: [updateSettings] empties the cache and leaves the
  time of the last scan in place, so a second later [scanDirectory(false)]
  returns the empty cache and lists nothing, although [journal] holds a
  note; after [clearCache] the same call lists it. *)
Theorem updateSettings_keeps_scan_time :
  let w := withClock moved (noon + 2000) jan15 in
  cache w = []
  /\ lastScanTime (manager w) = noon
  /\ scanDirectory false w = (Returned [], w)
  /\ fst (scanDirectory true w) = Returned ["2026-01-12"]
  /\ fst (scanDirectory false (snd (clearCache w))) = Returned ["2026-01-12"].
Proof. intros w. repeat split; by_computation. Qed.

End Concrete.

(* ===================================================================== *)
(** * Further properties of the code                                       *)
(* ===================================================================== *)

(** ** Calendar arithmetic of the date service *)

Section DateArithmetic.
Import JsDate DateService.

Lemma setDate_shift (d : t) (k : Z) :
  setDate d (getDate d + k) = ofDay (day d + k).
Proof.
  unfold setDate. f_equal.
  pose proof (MakeDay_fields d) as E. unfold MakeDay in *. lia.
Qed.

Lemma addDays_day (d : t) (n : Z) : addDays d n = ofDay (day d + n).
Proof. apply setDate_shift. Qed.





End DateArithmetic.

(** ** Order of dates and order of date-strings *)

Section DateOrder.
Import JsDate Spec.

Lemma day_of_fields (d : t) :
  day d = DayFromYear (getFullYear d)
          + monthStart (InLeapYear (getFullYear d)) (getMonth d)
          + getDate d - 1.
Proof.
  destruct (fields_range d) as [Hm _].
  rewrite <- (MakeDay_fields d) at 1. unfold MakeDay.
  rewrite (Z.div_small (getMonth d) 12), (Z.mod_small (getMonth d) 12) by lia.
  rewrite Z.add_0_r. reflexivity.
Qed.

Lemma DayFromYear_mono (y y' : Z) : y <= y' -> DayFromYear y <= DayFromYear y'.
Proof.
  intros Hy. unfold DayFromYear. Z.div_mod_to_equations. lia.
Qed.

Lemma monthStart_mono (l : bool) (a b : Z) :
  0 <= a -> a <= b -> b <= 12 -> monthStart l a <= monthStart l b.
Proof.
  intros Ha Hab Hb.
  assert (Ca : a = 0 \/ a = 1 \/ a = 2 \/ a = 3 \/ a = 4 \/ a = 5 \/ a = 6
               \/ a = 7 \/ a = 8 \/ a = 9 \/ a = 10 \/ a = 11 \/ a = 12) by lia.
  assert (Cb : b = 0 \/ b = 1 \/ b = 2 \/ b = 3 \/ b = 4 \/ b = 5 \/ b = 6
               \/ b = 7 \/ b = 8 \/ b = 9 \/ b = 10 \/ b = 11 \/ b = 12) by lia.
  repeat (destruct Ca as [-> | Ca]); try subst a;
    repeat (destruct Cb as [-> | Cb]); try subst b;
    try lia; destruct l; cbn; lia.
Qed.

Lemma day_lt_of_dateNumber (d1 d2 : t) :
  dateNumberOf d1 < dateNumberOf d2 -> day d1 < day d2.
Proof.
  unfold dateNumberOf, dateNumber. intros Hn.
  destruct (fields_range d1) as [Hm1 Hd1], (fields_range d2) as [Hm2 Hd2].
  pose proof (daysInMonth_le_31 (getFullYear d1) (getMonth d1 + 1)).
  pose proof (daysInMonth_le_31 (getFullYear d2) (getMonth d2 + 1)).
  rewrite (day_of_fields d1), (day_of_fields d2).
  pose proof (monthStart_succ (getFullYear d1) (getMonth d1) Hm1) as Hs1.
  assert (Hpos : 0 <= monthStart (InLeapYear (getFullYear d2)) (getMonth d2)).
  { apply (monthStart_mono _ 0); lia. }
  destruct (Z.lt_trichotomy (getFullYear d1) (getFullYear d2)) as [Hy | [Hy | Hy]];
    [| | lia].
  - pose proof (DayFromYear_mono (getFullYear d1 + 1) (getFullYear d2)) as Hmono.
    rewrite DayFromYear_succ, DaysInYear_monthStart in Hmono.
    pose proof (monthStart_mono (InLeapYear (getFullYear d1))
                  (getMonth d1 + 1) 12) as Hend.
    lia.
  - rewrite Hy in *.
    destruct (Z.lt_trichotomy (getMonth d1) (getMonth d2)) as [Hm | [Hm | Hm]];
      [| rewrite Hm in *; lia | lia].
    pose proof (monthStart_mono (InLeapYear (getFullYear d2))
                  (getMonth d1 + 1) (getMonth d2)) as Hmm.
    lia.
Qed.

Lemma dateNumberOf_inj (d1 d2 : t) :
  dateNumberOf d1 = dateNumberOf d2 -> d1 = d2.
Proof.
  unfold dateNumberOf, dateNumber. intros Hn.
  destruct (fields_range d1) as [Hm1 Hd1], (fields_range d2) as [Hm2 Hd2].
  pose proof (daysInMonth_le_31 (getFullYear d1) (getMonth d1 + 1)).
  pose proof (daysInMonth_le_31 (getFullYear d2) (getMonth d2 + 1)).
  assert (Ey : getFullYear d1 = getFullYear d2) by lia.
  assert (Em : getMonth d1 = getMonth d2) by lia.
  assert (Ed : getDate d1 = getDate d2) by lia.
  pose proof (day_of_fields d1) as E1. pose proof (day_of_fields d2) as E2.
  rewrite Ey, Em, Ed in E1.
  destruct d1 as [n1], d2 as [n2]. cbn [day] in *. f_equal. lia.
Qed.

Lemma day_compare_dateNumber (d1 d2 : t) :
  (day d1 ?= day d2) = (dateNumberOf d1 ?= dateNumberOf d2).
Proof.
  destruct (Z.compare_spec (dateNumberOf d1) (dateNumberOf d2)) as [E | L | G].
  - apply dateNumberOf_inj in E. subst. apply Z.compare_refl.
  - apply Z.compare_lt_iff. apply day_lt_of_dateNumber. exact L.
  - apply Z.compare_gt_iff. apply day_lt_of_dateNumber. exact G.
Qed.

Lemma day_lt_iff (d1 d2 : t) :
  day d1 < day d2 <-> dateNumberOf d1 < dateNumberOf d2.
Proof.
  rewrite <- !Z.compare_lt_iff, day_compare_dateNumber. reflexivity.
Qed.

Lemma day_eq_iff (d1 d2 : t) :
  day d1 = day d2 <-> dateNumberOf d1 = dateNumberOf d2.
Proof.
  rewrite <- !Z.compare_eq_iff, day_compare_dateNumber. reflexivity.
Qed.

End DateOrder.

Section StringOrder.
Import Js Spec DateService.

Lemma compare_digitChar (k j : Z) :
  0 <= k <= 9 -> 0 <= j <= 9 ->
  Ascii.compare (digitChar k) (digitChar j) = (k ?= j).
Proof.
  intros Hk Hj. unfold Ascii.compare, digitChar.
  rewrite !N_ascii_embedding by lia.
  rewrite Z2N.inj_compare by lia.
  apply Z.add_compare_mono_l.
Qed.

Ltac compare_digit a b :=
  rewrite (compare_digitChar a b) by lia;
  destruct (Z.compare_spec a b) as [-> | ? | ?];
  [ | symmetry; apply Z.compare_lt_iff; lia
    | symmetry; apply Z.compare_gt_iff; lia ].

Lemma compare_digit_strings (k1 k2 k3 k4 k5 k6 k7 k8 j1 j2 j3 j4 j5 j6 j7 j8 : Z) :
  0 <= k1 <= 9 -> 0 <= k2 <= 9 -> 0 <= k3 <= 9 -> 0 <= k4 <= 9 ->
  0 <= k5 <= 9 -> 0 <= k6 <= 9 -> 0 <= k7 <= 9 -> 0 <= k8 <= 9 ->
  0 <= j1 <= 9 -> 0 <= j2 <= 9 -> 0 <= j3 <= 9 -> 0 <= j4 <= 9 ->
  0 <= j5 <= 9 -> 0 <= j6 <= 9 -> 0 <= j7 <= 9 -> 0 <= j8 <= 9 ->
  String.compare
    (dateStringChars (digitChar k1) (digitChar k2) (digitChar k3) (digitChar k4)
       (digitChar k5) (digitChar k6) (digitChar k7) (digitChar k8))
    (dateStringChars (digitChar j1) (digitChar j2) (digitChar j3) (digitChar j4)
       (digitChar j5) (digitChar j6) (digitChar j7) (digitChar j8))
  = (dateNumber (1000 * k1 + 100 * k2 + 10 * k3 + k4) (10 * k5 + k6)
       (10 * k7 + k8)
     ?= dateNumber (1000 * j1 + 100 * j2 + 10 * j3 + j4) (10 * j5 + j6)
          (10 * j7 + j8)).
Proof.
  intros. unfold dateStringChars, dateNumber. cbn [String.compare].
  compare_digit k1 j1. compare_digit k2 j2.
  compare_digit k3 j3. compare_digit k4 j4.
  change (Ascii.compare "-" "-") with Eq. cbv iota.
  compare_digit k5 j5. compare_digit k6 j6.
  change (Ascii.compare "-" "-") with Eq. cbv iota.
  compare_digit k7 j7. compare_digit k8 j8.
  symmetry. apply Z.compare_refl.
Qed.

Lemma compare_canonical (y m d y' m' d' : Z) :
  0 <= y <= 9999 -> 0 <= m <= 99 -> 0 <= d <= 99 ->
  0 <= y' <= 9999 -> 0 <= m' <= 99 -> 0 <= d' <= 99 ->
  String.compare (canonicalDateString y m d) (canonicalDateString y' m' d')
  = (dateNumber y m d ?= dateNumber y' m' d').
Proof.
  intros.
  change (canonicalDateString y m d)
    with (dateStringChars (digitChar (y / 1000)) (digitChar (y / 100 mod 10))
            (digitChar (y / 10 mod 10)) (digitChar (y mod 10))
            (digitChar (m / 10)) (digitChar (m mod 10))
            (digitChar (d / 10)) (digitChar (d mod 10))).
  change (canonicalDateString y' m' d')
    with (dateStringChars (digitChar (y' / 1000)) (digitChar (y' / 100 mod 10))
            (digitChar (y' / 10 mod 10)) (digitChar (y' mod 10))
            (digitChar (m' / 10)) (digitChar (m' mod 10))
            (digitChar (d' / 10)) (digitChar (d' mod 10))).
  rewrite compare_digit_strings by (Z.div_mod_to_equations; lia).
  f_equal; unfold dateNumber; Z.div_mod_to_equations; lia.
Qed.

(** A valid date-string is the canonical string of the fields of its date. *)
Lemma parseDateString_fields (s : string) (dt : JsDate.t) :
  parseDateString s = Some dt ->
  s = canonicalDateString (JsDate.getFullYear dt) (JsDate.getMonth dt + 1)
        (JsDate.getDate dt)
  /\ 1900 <= JsDate.getFullYear dt <= 2100.
Proof.
  intros Hp.
  destruct (parseDateString_Some s dt Hp) as (y & m & d & -> & Hy & _ & Ey & Em & Ed).
  rewrite Ey, Em, Ed. replace (m - 1 + 1) with m by lia. split; [reflexivity | exact Hy].
Qed.

Lemma compare_dateStrings (a b : string) (da db : JsDate.t) :
  parseDateString a = Some da -> parseDateString b = Some db ->
  String.compare a b = (JsDate.day da ?= JsDate.day db).
Proof.
  intros Ha Hb.
  destruct (parseDateString_fields a da Ha) as [Ea Hya].
  destruct (parseDateString_fields b db Hb) as [Eb Hyb].
  destruct (fields_range da) as [Hma Hda], (fields_range db) as [Hmb Hdb].
  pose proof (daysInMonth_le_31 (JsDate.getFullYear da) (JsDate.getMonth da + 1)).
  pose proof (daysInMonth_le_31 (JsDate.getFullYear db) (JsDate.getMonth db + 1)).
  rewrite day_compare_dateNumber. unfold dateNumberOf.
  rewrite Ea at 1. rewrite Eb at 1.
  apply compare_canonical; lia.
Qed.

End StringOrder.

Section DateServiceProperties.
Import Js Spec DateService.
Local Open Scope string_scope.

(** X3.  On valid date-strings the order of the strings is the order of
    the dates: [a <= b] as strings exactly when the date of [a] is not after
    the date of [b], and the strings are equal exactly when the dates are
    the same day. *)
Theorem dateString_order_is_date_order (a b : string) (da db : JsDate.t) :
  parseDateString a = Some da -> parseDateString b = Some db ->
  (Js.le a b = true <-> compareDates da db <= 0)
  /\ (a = b <-> isSameDay da db = true).
Proof.
  intros Ha Hb. pose proof (compare_dateStrings a b da db Ha Hb) as Hc.
  unfold Js.le, String.leb, isSameDay, compareDates, JsDate.midnightTime,
    JsDate.msPerDay.
  split.
  - rewrite Hc.
    destruct (Z.compare_spec (JsDate.day da) (JsDate.day db));
      split; intros; try reflexivity; try discriminate; lia.
  - rewrite Z.eqb_eq. split.
    + intros ->. rewrite Ha in Hb. injection Hb as ->. lia.
    + intros Hd. apply String.compare_eq_iff. rewrite Hc.
      apply Z.compare_eq_iff. lia.
Qed.

(** X4.  [compareDates] is negative, zero or positive as the first date's
    year, month and day come before, equal or come after the second's in
    that order of weight; [isSameDay] holds exactly when year, month and
    day are equal. *)
Theorem compareDates_orders_by_fields (d1 d2 : JsDate.t) :
  let before :=
    JsDate.getFullYear d1 < JsDate.getFullYear d2
    \/ (JsDate.getFullYear d1 = JsDate.getFullYear d2
        /\ (JsDate.getMonth d1 < JsDate.getMonth d2
            \/ (JsDate.getMonth d1 = JsDate.getMonth d2
                /\ JsDate.getDate d1 < JsDate.getDate d2))) in
  let same :=
    JsDate.getFullYear d1 = JsDate.getFullYear d2
    /\ JsDate.getMonth d1 = JsDate.getMonth d2
    /\ JsDate.getDate d1 = JsDate.getDate d2 in
  (compareDates d1 d2 < 0 <-> before)
  /\ (compareDates d1 d2 = 0 <-> same)
  /\ (isSameDay d1 d2 = true <-> same)
  /\ compareDates d2 d1 = - compareDates d1 d2.
Proof.
  intros before same. subst before same.
  destruct (fields_range d1) as [Hm1 Hd1], (fields_range d2) as [Hm2 Hd2].
  pose proof (daysInMonth_le_31 (JsDate.getFullYear d1) (JsDate.getMonth d1 + 1)).
  pose proof (daysInMonth_le_31 (JsDate.getFullYear d2) (JsDate.getMonth d2 + 1)).
  pose proof (day_lt_iff d1 d2) as Hlt. pose proof (day_eq_iff d1 d2) as Heq.
  unfold isSameDay. rewrite Z.eqb_eq.
  unfold compareDates, JsDate.midnightTime, JsDate.msPerDay.
  unfold dateNumberOf, dateNumber in Hlt, Heq.
  repeat split; intros; lia.
Qed.

(** X5.  Formatting undoes parsing: a date-string that parses is the
    formatted form of its date, and a filename that parses is the filename
    generated from its date. *)
Theorem format_parse_roundtrip (s : string) (d : JsDate.t) :
  (parseDateString s = Some d -> formatDateToFileName d = s)
  /\ (parseDateFromFilename s = Some d -> generateFilename d = s).
Proof.
  assert (Hstr : forall t, parseDateString t = Some d ->
                           formatDateToFileName d = t).
  { intros t Hp. destruct (parseDateString_fields t d Hp) as [E Hy].
    rewrite formatDateToFileName_canonical by lia. symmetry. exact E. }
  split; [apply Hstr |].
  intros Hp.
  destruct (parseDateFromFilename_Some s d Hp) as (y & m & dd & E & _).
  unfold generateFilename. rewrite (Hstr (canonicalDateString y m dd)).
  - symmetry. exact E.
  - unfold parseDateString. rewrite <- E. exact Hp.
Qed.

Lemma generateFilename_of_parse (filename : string) (date : JsDate.t) :
  parseDateFromFilename filename = Some date ->
  1900 <= JsDate.getFullYear date <= 2100
  /\ generateFilename date = filename.
Proof.
  intros Hp.
  destruct (parseDateFromFilename_Some _ _ Hp)
    as (y & m & d & E & Hy & _ & Ey & Em & Ed).
  split; [lia |].
  unfold generateFilename. rewrite formatDateToFileName_canonical by lia.
  rewrite Ey, Em, Ed. replace (m - 1 + 1) with m by lia.
  symmetry. exact E.
Qed.

(** X6.  The filenames that pass validation are exactly the filenames that
    [generateFilename] gives for the dates of the years 1900 to 2100.  A
    filename that passes is the canonical zero-padded [YYYY-MM-DD] string
    of a day of the calendar in those years, followed by the extension. *)
Theorem isValidDailyNoteFilename_iff (filename : string) :
  (isValidDailyNoteFilename filename = true
   <-> exists date,
         1900 <= JsDate.getFullYear date <= 2100
         /\ filename = generateFilename date)
  /\ (isValidDailyNoteFilename filename = true ->
      exists y m d,
        1900 <= y <= 2100 /\ realCalendarDate y m d
        /\ filename
           = (canonicalDateString y m d ++ Constants.NOTE_FILE_EXTENSION)).
Proof.
  assert (Hparse : isValidDailyNoteFilename filename = true ->
                   exists date, parseDateFromFilename filename = Some date).
  { unfold isValidDailyNoteFilename.
    destruct (test Constants.DAILY_NOTE_FILENAME_REGEX filename);
      [| discriminate].
    cbn [negb].
    destruct (parseDateFromFilename filename) as [dt |];
      [eauto | discriminate]. }
  split; [split |].
  - intros Hv. destruct (Hparse Hv) as [date Hp].
    destruct (generateFilename_of_parse _ _ Hp) as [Hy E].
    exists date. split; [exact Hy | symmetry; exact E].
  - intros (date & Hy & ->).
    destruct (fields_range date) as [Hm Hd].
    pose proof (daysInMonth_le_31 (JsDate.getFullYear date)
                  (JsDate.getMonth date + 1)).
    unfold isValidDailyNoteFilename.
    rewrite (parseDateFromFilename_generateFilename date Hy).
    unfold generateFilename.
    rewrite formatDateToFileName_canonical by lia.
    rewrite canonical_chars, test_regex_chars
      by (apply digits_of_number; lia).
    reflexivity.
  - intros Hv. destruct (Hparse Hv) as [date Hp].
    destruct (parseDateFromFilename_Some _ _ Hp)
      as (y & m & d & E & Hy & Hr & _).
    exists y, m, d. auto.
Qed.

End DateServiceProperties.

Section SortProperties.
Import Js Spec DateService Run.
Local Open Scope string_scope.

Lemma Forall_valid_sorted (l : list string) :
  Forall (fun k => validDateString k = true) l ->
  Forall (fun k => validDateString k = true) (sortDateStringsDesc l).
Proof.
  intros Hl. eapply Permutation_Forall; [| exact Hl].
  symmetry. apply sortDateStringsDesc_perm.
Qed.

Lemma valid_parses (s : string) :
  validDateString s = true -> exists d, parseDateString s = Some d.
Proof.
  unfold validDateString. destruct (parseDateString s) as [d |];
    [eauto | discriminate].
Qed.

Lemma le_of_dayOf (a b : string) :
  validDateString a = true -> validDateString b = true ->
  dayOf b <= dayOf a -> Js.le b a = true.
Proof.
  intros Ha Hb Hd.
  destruct (valid_parses a Ha) as [da Ea], (valid_parses b Hb) as [db Eb].
  unfold Js.le, String.leb. rewrite (compare_dateStrings b a db da Eb Ea).
  unfold dayOf in Hd. rewrite Ea, Eb in Hd.
  destruct (Z.compare_spec (JsDate.day db) (JsDate.day da)); [reflexivity.. | lia].
Qed.

Lemma Sorted_weaken {A} (P : A -> Prop) (R R' : A -> A -> Prop) (l : list A) :
  (forall a b, P a -> P b -> R a b -> R' a b) ->
  Forall P l -> Sorted R l -> Sorted R' l.
Proof.
  intros HR Hl Hs. induction Hs as [| a l Hs IH Hhd]; [constructor |].
  inversion Hl as [| ? ? Pa Pl]; subst.
  constructor; [exact (IH Pl) |].
  destruct Hhd as [| b l' Hab]; constructor.
  inversion Pl; subst. apply HR; assumption.
Qed.

(** X7.  [sortDateStringsDesc] returns a rearrangement of its argument;
    when all the strings are valid date-strings, the result is newest
    first by date and descending as strings. *)
Theorem sortDateStringsDesc_newest_first (dateStrings : list string) :
  Permutation (sortDateStringsDesc dateStrings) dateStrings
  /\ (Forall (fun s => validDateString s = true) dateStrings ->
      newestFirstByDate (sortDateStringsDesc dateStrings)
      /\ Sorted (fun a b => Js.le b a = true) (sortDateStringsDesc dateStrings)).
Proof.
  split; [apply sortDateStringsDesc_perm |].
  intros Hv.
  pose proof (sortDateStringsDesc_sorted dateStrings Hv) as Hs.
  split; [exact Hs |].
  apply (Sorted_weaken (fun k => validDateString k = true)
           (fun a b => dayOf b <= dayOf a)).
  - intros a b Ha Hb. apply le_of_dayOf; assumption.
  - apply Forall_valid_sorted. exact Hv.
  - exact Hs.
Qed.

Lemma newestFirst_strong (l : list string) :
  newestFirstByDate l -> StronglySorted (fun a b => dayOf b <= dayOf a) l.
Proof.
  apply Sorted_StronglySorted. intros a b c Hab Hbc. lia.
Qed.

Lemma strong_last (l : list string) (x z : string) :
  StronglySorted (fun a b => dayOf b <= dayOf a) l ->
  nth_error l (List.length l - 1) = Some z -> In x l -> dayOf z <= dayOf x.
Proof.
  intros Hs. revert z x. induction Hs as [| a l Hs IH Hall]; intros z x Hz Hx.
  - destruct Hx.
  - destruct l as [| b l].
    + cbn in Hz. injection Hz as <-. destruct Hx as [<- | []]. lia.
    + assert (Hz' : nth_error (b :: l) (List.length (b :: l) - 1) = Some z).
      { cbn [List.length] in *.
        replace (S (S (List.length l)) - 1)%nat with (S (List.length l)) in Hz by lia.
        cbn [nth_error] in Hz.
        replace (S (List.length l) - 1)%nat with (List.length l) by lia.
        exact Hz. }
      destruct Hx as [<- | Hx].
      * rewrite Forall_forall in Hall. apply Hall.
        apply nth_error_In in Hz'. exact Hz'.
      * exact (IH z x Hz' Hx).
Qed.

(** X8.  [getNewestDate] and [getOldestDate] return [null] for an empty
    list.  For a non-empty list of valid date-strings they return the dates
    of two of its strings, and every string of the list has a date between
    the oldest and the newest. *)
Theorem getNewestDate_getOldestDate_bounds (dateStrings : list string) :
  (dateStrings = [] ->
   getNewestDate dateStrings = None /\ getOldestDate dateStrings = None)
  /\ (dateStrings <> [] ->
      Forall (fun s => validDateString s = true) dateStrings ->
      exists sn so dn do_,
        In sn dateStrings /\ In so dateStrings
        /\ parseDateString sn = Some dn /\ parseDateString so = Some do_
        /\ getNewestDate dateStrings = Some dn
        /\ getOldestDate dateStrings = Some do_
        /\ forall s d, In s dateStrings -> parseDateString s = Some d ->
                       compareDates do_ d <= 0 /\ compareDates d dn <= 0).
Proof.
  split; [intros ->; split; reflexivity |].
  intros Hne Hv.
  pose proof (sortDateStringsDesc_perm dateStrings) as Hperm.
  pose proof (Forall_valid_sorted dateStrings Hv) as Hvs.
  pose proof (newestFirst_strong _ (sortDateStringsDesc_sorted dateStrings Hv))
    as Hss.
  assert (Hget : getNewestDate dateStrings
                 = parseAt (sortDateStringsDesc dateStrings) 0
                 /\ getOldestDate dateStrings
                    = parseAt (sortDateStringsDesc dateStrings)
                        (List.length (sortDateStringsDesc dateStrings) - 1)).
  { destruct dateStrings; [contradiction | split; reflexivity]. }
  destruct Hget as [-> ->].
  destruct (sortDateStringsDesc dateStrings) as [| sn rest] eqn:Es.
  { apply Permutation_nil in Hperm. contradiction. }
  assert (Hlast : exists so, nth_error (sn :: rest) (List.length (sn :: rest) - 1)
                             = Some so).
  { destruct (nth_error (sn :: rest) (List.length (sn :: rest) - 1)) eqn:E;
      [eauto |].
    apply nth_error_None in E. cbn [List.length] in E. lia. }
  destruct Hlast as [so Hso].
  assert (Hin_n : In sn (sn :: rest)) by (left; reflexivity).
  assert (Hin_o : In so (sn :: rest)) by (eapply nth_error_In; exact Hso).
  rewrite Forall_forall in Hvs.
  destruct (valid_parses sn (Hvs sn Hin_n)) as [dn En].
  destruct (valid_parses so (Hvs so Hin_o)) as [do_ Eo].
  exists sn, so, dn, do_.
  split; [exact (Permutation_in _ Hperm Hin_n) |].
  split; [exact (Permutation_in _ Hperm Hin_o) |].
  split; [exact En |]. split; [exact Eo |].
  split; [unfold parseAt; cbn [nth_error]; exact En |].
  split; [unfold parseAt; rewrite Hso; exact Eo |].
  intros s d Hs Ed.
  assert (Hs' : In s (sn :: rest)).
  { apply (Permutation_in _ (Permutation_sym Hperm)). exact Hs. }
  pose proof (strong_last _ s so Hss Hso Hs') as Hlo.
  assert (Hhi : dayOf s <= dayOf sn).
  { inversion Hss as [| ? ? _ Hall]; subst.
    destruct Hs' as [<- | Hs']; [lia |].
    rewrite Forall_forall in Hall. exact (Hall s Hs'). }
  unfold dayOf in Hlo, Hhi. rewrite Ed, Eo in Hlo. rewrite Ed, En in Hhi.
  unfold compareDates, JsDate.midnightTime, JsDate.msPerDay. lia.
Qed.

Lemma ordinal_check :
  forallb (fun n => String.eqb (getOrdinalSuffix (Z.of_nat n))
                      (englishOrdinalSuffix (Z.of_nat n)))
    (seq 0 111) = true.
Proof. vm_compute. reflexivity. Qed.

(** X9.  For every number from 0 to 110, so for every day of a month,
    [getOrdinalSuffix] is the English ordinal suffix: th for numbers ending
    in 11, 12 and 13, otherwise st, nd, rd for a last digit 1, 2, 3, and th
    for the rest.  The two part at 111, where the code gives st. *)
Theorem getOrdinalSuffix_english (day : Z) :
  (0 <= day <= 110 -> getOrdinalSuffix day = englishOrdinalSuffix day)
  /\ getOrdinalSuffix 111 = "st" /\ englishOrdinalSuffix 111 = "th".
Proof.
  split; [| split; reflexivity].
  intros Hd.
  pose proof ordinal_check as Hc. rewrite forallb_forall in Hc.
  specialize (Hc (Z.to_nat day)).
  rewrite Z2Nat.id in Hc by lia.
  apply String.eqb_eq. apply Hc. apply in_seq. lia.
Qed.

End SortProperties.

(** ** Lookups in the cache *)

Section MapLookups.
Context {V : Type}.

Lemma get_set_same (k : string) (v : V) (m : JsMap.t V) :
  JsMap.get k (JsMap.set k v m) = Some v.
Proof.
  induction m as [| [k' v'] m IH]; cbn.
  - rewrite String.eqb_refl. reflexivity.
  - destruct (String.eqb k' k) eqn:E; cbn; rewrite E; [reflexivity | exact IH].
Qed.

Lemma get_set_other (k k' : string) (v : V) (m : JsMap.t V) :
  k' <> k -> JsMap.get k' (JsMap.set k v m) = JsMap.get k' m.
Proof.
  intros Hne. induction m as [| [k0 v0] m IH]; cbn.
  - destruct (String.eqb_spec k k'); [congruence | reflexivity].
  - destruct (String.eqb_spec k0 k) as [-> | Hk]; cbn.
    + destruct (String.eqb_spec k k'); [congruence | reflexivity].
    + rewrite IH. reflexivity.
Qed.

Lemma get_delete_other (k k' : string) (m : JsMap.t V) :
  k' <> k -> JsMap.get k' (JsMap.delete k m) = JsMap.get k' m.
Proof.
  intros Hne. induction m as [| [k0 v0] m IH]; cbn; [reflexivity |].
  destruct (String.eqb_spec k0 k) as [-> | Hk]; cbn.
  - rewrite IH. destruct (String.eqb_spec k k'); [congruence | reflexivity].
  - rewrite IH. reflexivity.
Qed.

Lemma get_None_iff (k : string) (m : JsMap.t V) :
  JsMap.get k m = None <-> ~ In k (JsMap.keys m).
Proof.
  unfold JsMap.keys. induction m as [| [k0 v0] m IH]; cbn; [tauto |].
  destruct (String.eqb_spec k0 k) as [-> | Hk].
  - split; [discriminate | intros Hn; exfalso; apply Hn; left; reflexivity].
  - rewrite IH. split.
    + intros Hn [E | Hin]; [congruence | exact (Hn Hin)].
    + intros Hn Hin. apply Hn. right. exact Hin.
Qed.

Lemma keys_set_new (k : string) (v : V) (m : JsMap.t V) :
  JsMap.get k m = None -> JsMap.keys (JsMap.set k v m) = JsMap.keys m ++ [k].
Proof.
  unfold JsMap.keys. induction m as [| [k0 v0] m IH]; cbn; [reflexivity |].
  destruct (String.eqb k0 k); [discriminate |].
  intros Hn. cbn. rewrite (IH Hn). reflexivity.
Qed.

Lemma keys_set_old (k : string) (v : V) (m : JsMap.t V) :
  JsMap.get k m <> None -> JsMap.keys (JsMap.set k v m) = JsMap.keys m.
Proof.
  unfold JsMap.keys. induction m as [| [k0 v0] m IH]; cbn; [congruence |].
  destruct (String.eqb k0 k); [reflexivity |].
  intros Hn. cbn. rewrite (IH Hn). reflexivity.
Qed.

Lemma delete_set_new (k : string) (v : V) (m : JsMap.t V) :
  JsMap.get k m = None -> JsMap.delete k (JsMap.set k v m) = m.
Proof.
  induction m as [| [k0 v0] m IH]; cbn.
  - rewrite String.eqb_refl. reflexivity.
  - destruct (String.eqb k0 k) eqn:E; [discriminate |].
    intros Hn. cbn. rewrite E, (IH Hn). reflexivity.
Qed.

Lemma existsb_eqb_In (k : string) (l : list string) :
  existsb (String.eqb k) l = true <-> In k l.
Proof.
  rewrite existsb_exists. split.
  - intros (x & Hx & E). apply String.eqb_eq in E. subst. exact Hx.
  - intros Hin. exists k. split; [exact Hin | apply String.eqb_refl].
Qed.

End MapLookups.

(** ** Error capture and framing in the manager *)

Section ManagerFraming.
Import Js Constants Obsidian Types DailyNotesManager Run.
Context {V : Type} `{Vault V}.

Lemma returns_tryCatch_ret {A} (m : M V A) (f : string -> A) (w : World V) :
  returns (tryCatch m (fun e => ret (f e))) w.
Proof.
  unfold returns, tryCatch. destruct (m w) as [[a | e] w'];
    eexists _, _; reflexivity.
Qed.

(** X10.  Whatever the vault's [createFolder], [create], [read], [modify]
    and [delete] do, throwing included, the methods below return and do
    not throw: every such failure comes back as a returned value.  (The
    lookup [getAbstractFileByPath] is taken to answer with a file, a folder
    or [null], as the vault's interface has it.) *)
Theorem manager_methods_never_throw (w : World V) :
  returns ensureDirectoryExists w
  /\ (forall b, returns (scanDirectory b) w)
  /\ (forall o, returns (loadNotes o) w)
  /\ (forall d c, returns (createNote d c) w)
  /\ (forall d c, returns (saveNote d c) w)
  /\ (forall d, returns (deleteNote d) w)
  /\ (forall d, returns (readNote d) w)
  /\ (forall d, returns (noteExists d) w).
Proof.
  repeat split; intros.
  - unfold returns, ensureDirectoryExists, getDailyNotesPath.
    rewrite bind_gets. apply (returns_tryCatch_ret _ (fun _ => false)).
  - apply scanDirectory_returns.
  - destruct (loadNotes_spec o w) as (l & notes & w' & _ & E & _).
    eexists _, _. exact E.
  - apply (returns_tryCatch_ret _ failure).
  - apply (returns_tryCatch_ret _ failure).
  - apply (returns_tryCatch_ret _ failure).
  - apply (returns_tryCatch_ret _ (fun _ => None)).
  - destruct (scanDirectory_returns false w) as (l & w' & E).
    unfold returns, noteExists, bind. rewrite E. eexists _, _. reflexivity.
Qed.

(** *** What a method leaves of the manager *)

Section Relates.
Variable R : Manager -> Manager -> Prop.
Hypothesis R_refl : forall m, R m m.
Hypothesis R_trans : forall a b c, R a b -> R b c -> R a c.

Lemma relates_ret {A} (a : A) : relates R (ret (V := V) a).
Proof. intros w. apply R_refl. Qed.

Lemma relates_throw {A} (e : string) : relates R (throw (V := V) (A := A) e).
Proof. intros w. apply R_refl. Qed.

Lemma relates_gets {A} (f : World V -> A) : relates R (gets f).
Proof. intros w. apply R_refl. Qed.

Lemma relates_bind {A B} (m : M V A) (k : A -> M V B) :
  relates R m -> (forall a, relates R (k a)) -> relates R (bind m k).
Proof.
  intros Hm Hk w. unfold bind. specialize (Hm w).
  destruct (m w) as [[a | e] w']; cbn [snd] in *; [| exact Hm].
  exact (R_trans _ _ _ Hm (Hk a w')).
Qed.

Lemma relates_tryCatch {A} (m : M V A) (h : string -> M V A) :
  relates R m -> (forall e, relates R (h e)) -> relates R (tryCatch m h).
Proof.
  intros Hm Hh w. unfold tryCatch. specialize (Hm w).
  destruct (m w) as [[a | e] w']; cbn [snd] in *; [exact Hm |].
  exact (R_trans _ _ _ Hm (Hh e w')).
Qed.

Lemma relates_vault_createFolder (p : string) : relates R (vault_createFolder p).
Proof.
  intros w. unfold vault_createFolder.
  destruct (createFolder (vault w) p); apply R_refl.
Qed.

Lemma relates_vault_create (p c : string) : relates R (vault_create p c).
Proof.
  intros w. unfold vault_create.
  destruct (create (vault w) p c) as [[f v'] | e]; apply R_refl.
Qed.

Lemma relates_vault_read (f : TFile) : relates R (vault_read f).
Proof.
  intros w. unfold vault_read. destruct (read (vault w) f); apply R_refl.
Qed.

Lemma relates_vault_modify (f : TFile) (c : string) :
  relates R (vault_modify f c).
Proof.
  intros w. unfold vault_modify.
  destruct (modify (vault w) f c); apply R_refl.
Qed.

Lemma relates_vault_delete (f : TFile) : relates R (vault_delete f).
Proof.
  intros w. unfold vault_delete. destruct (delete (vault w) f); apply R_refl.
Qed.

Lemma relates_forEach {A B} (l : list A) (body : A -> B -> M V B) (acc : B) :
  (forall x b, relates R (body x b)) -> relates R (forEach l body acc).
Proof.
  intros Hb. revert acc. induction l as [| x l IH]; intros acc; cbn.
  - apply relates_ret.
  - apply relates_bind; [apply Hb | intros b; apply IH].
Qed.

End Relates.

Ltac relate_step Hrefl Htrans :=
  lazymatch goal with
  | |- relates _ (ret _) => apply relates_ret; exact Hrefl
  | |- relates _ (throw _) => apply relates_throw; exact Hrefl
  | |- relates _ (gets _) => apply relates_gets; exact Hrefl
  | |- relates _ (vault_createFolder _) =>
      apply relates_vault_createFolder; exact Hrefl
  | |- relates _ (vault_create _ _) => apply relates_vault_create; exact Hrefl
  | |- relates _ (vault_read _) => apply relates_vault_read; exact Hrefl
  | |- relates _ (vault_modify _ _) => apply relates_vault_modify; exact Hrefl
  | |- relates _ (vault_delete _) => apply relates_vault_delete; exact Hrefl
  | |- relates _ (bind _ _) =>
      apply relates_bind; [exact Htrans | | intros ?]
  | |- relates _ (tryCatch _ _) =>
      apply relates_tryCatch; [exact Htrans | | intros ?]
  | |- relates _ (forEach _ _ _) =>
      apply relates_forEach; [exact Hrefl | exact Htrans | intros ? ?]
  | |- relates _ (match ?x with _ => _ end) => destruct x
  end.

Lemma sameExcept_refl (d : string) (m : Manager) : sameExcept d m m.
Proof. repeat split. Qed.

Lemma sameExcept_trans (d : string) (a b c : Manager) :
  sameExcept d a b -> sameExcept d b c -> sameExcept d a c.
Proof.
  intros (S1 & T1 & G1) (S2 & T2 & G2). repeat split; try congruence.
  intros k Hk. rewrite (G2 k Hk). exact (G1 k Hk).
Qed.

Lemma relates_modifyCache_at (d : string) (f : JsMap.t TFile -> JsMap.t TFile) :
  (forall c k, k <> d -> JsMap.get k (f c) = JsMap.get k c) ->
  relates (sameExcept d) (modifyCache (V := V) f).
Proof.
  intros Hf w. repeat split. intros k Hk. cbn. apply Hf. exact Hk.
Qed.

Ltac frame d :=
  repeat first
    [ relate_step (sameExcept_refl d) (sameExcept_trans d)
    | apply relates_modifyCache_at; intros ? ? ?;
      first [apply get_set_other | apply get_delete_other]; assumption ].

Lemma frames_ensureDirectoryExists (d : string) :
  relates (sameExcept d) ensureDirectoryExists.
Proof.
  unfold ensureDirectoryExists, getDailyNotesPath, vault_getAbstractFileByPath.
  frame d.
Qed.

Lemma frames_createNote (d c : string) :
  relates (sameExcept d) (createNote d c).
Proof.
  unfold createNote, getNotePath, vault_getAbstractFileByPath.
  frame d; apply frames_ensureDirectoryExists.
Qed.

(** X11.  An operation on one date-string leaves the cache entries of all
    other date-strings, the settings and the time of the last scan as they
    were: this holds for [createNote], [saveNote], [deleteNote] and
    [refreshFile]; [readNote] and [ensureDirectoryExists] leave the whole
    manager as it was. *)
Theorem note_operations_touch_one_entry (dateString content : string) :
  relates (sameExcept dateString) (createNote dateString content)
  /\ relates (sameExcept dateString) (saveNote dateString content)
  /\ relates (sameExcept dateString) (deleteNote dateString)
  /\ relates (sameExcept dateString) (refreshFile dateString)
  /\ relates eq (readNote dateString)
  /\ relates eq ensureDirectoryExists.
Proof.
  split; [apply frames_createNote |].
  split.
  { unfold saveNote, vault_getAbstractFileByPath.
    frame dateString; apply frames_createNote. }
  split; [unfold deleteNote; frame dateString |].
  split.
  { unfold refreshFile, getNotePath, vault_getAbstractFileByPath.
    frame dateString. }
  split.
  - unfold readNote.
    repeat relate_step (@eq_refl Manager) (@eq_trans Manager).
  - unfold ensureDirectoryExists, getDailyNotesPath,
      vault_getAbstractFileByPath.
    repeat relate_step (@eq_refl Manager) (@eq_trans Manager).
Qed.

End ManagerFraming.

(** ** Creating and looking up notes *)

Section CreateAndLookup.
Import Js Constants Obsidian Types DailyNotesManager Run.
Context {V : Type} `{Vault V}.

(** The folder of the notes and the path of a note, as [getNotePath]
    computes it. *)
Lemma getNotePath_value (d : string) (w : World V) :
  getNotePath d w = (Returned (notePathOf w d), w).
Proof. reflexivity. Qed.

Lemma ensureDirectoryExists_cases (w : World V) :
  (forall p files,
      getAbstractFileByPath (vault w) (folderOf w) = Some (AFolder p files) ->
      ensureDirectoryExists w = (Returned true, w))
  /\ (forall f,
         getAbstractFileByPath (vault w) (folderOf w) = Some (AFile f) ->
         ensureDirectoryExists w = (Returned false, w))
  /\ (forall v',
         getAbstractFileByPath (vault w) (folderOf w) = None ->
         createFolder (vault w) (folderOf w) = Returned v' ->
         ensureDirectoryExists w = (Returned true, withVault w v'))
  /\ (forall e,
         getAbstractFileByPath (vault w) (folderOf w) = None ->
         createFolder (vault w) (folderOf w) = Thrown e ->
         ensureDirectoryExists w = (Returned false, w)).
Proof.
  unfold folderOf.
  repeat split; intros;
    unfold ensureDirectoryExists, getDailyNotesPath, tryCatch, bind,
      vault_getAbstractFileByPath, gets, vault_createFolder, ret, setVault;
    repeat match goal with
           | E : _ = _ |- _ => rewrite E; clear E
           end; reflexivity.
Qed.


Lemma createNote_success (dateString content : string) (w : World V)
  (p : string) (files : list TAbstractFile) (f : TFile) (v' : V) :
  getAbstractFileByPath (vault w) (folderOf w) = Some (AFolder p files) ->
  getAbstractFileByPath (vault w) (notePathOf w dateString) = None ->
  create (vault w) (notePathOf w dateString) content = Returned (f, v') ->
  createNote dateString content w
  = (Returned {| success := true; error := None; resultFile := Some f |},
     withCache (withVault w v') (JsMap.set dateString f (cache w))).
Proof.
  intros Hdir Hfree Hcreate.
  destruct (ensureDirectoryExists_cases w) as (Hfolder & _).
  unfold createNote, tryCatch. unfold bind at 1.
  rewrite (Hfolder p files) by assumption. cbn [negb].
  unfold bind at 1. rewrite getNotePath_value.
  unfold bind, vault_getAbstractFileByPath, gets, vault_create.
  rewrite Hfree, Hcreate. reflexivity.
Qed.

(** X13.  When the notes folder exists, nothing is at the note's path and
    the vault creates the file, [createNote] succeeds with the new handle
    and enters it in the cache: [getFile] returns it, a date-string new to
    the cache is enumerated last, and [noteExists] inside the freshness
    window answers [true] without listing the folder. *)
Theorem createNote_registers_handle (dateString content : string)
  (w : World V) (p : string) (files : list TAbstractFile) (f : TFile) (v' : V) :
  getAbstractFileByPath (vault w) (folderOf w) = Some (AFolder p files) ->
  getAbstractFileByPath (vault w) (notePathOf w dateString) = None ->
  create (vault w) (notePathOf w dateString) content = Returned (f, v') ->
  let w' := snd (createNote dateString content w) in
  fst (createNote dateString content w)
  = Returned {| success := true; error := None; resultFile := Some f |}
  /\ vault w' = v'
  /\ fst (getFile dateString w') = Returned (Some f)
  /\ (JsMap.get dateString (cache w) = None ->
      JsMap.keys (cache w') = JsMap.keys (cache w) ++ [dateString])
  /\ (forall now today v'',
         now - lastScanTime (manager w) < 5000 ->
         fst (noteExists dateString
                {| manager := manager w'; vault := v'';
                   dateNow := now; newDate := today |})
         = Returned true).
Proof.
  intros Hdir Hfree Hcreate w'. subst w'.
  rewrite (createNote_success _ _ _ p files f v' Hdir Hfree Hcreate).
  cbn [fst snd]. split; [reflexivity |]. split; [reflexivity |].
  split; [| split].
  - unfold getFile, gets. cbn. rewrite get_set_same. reflexivity.
  - intros Hnew. cbn. apply keys_set_new. exact Hnew.
  - intros now today v'' Hfresh.
    unfold noteExists, bind.
    rewrite scanDirectory_cached by exact Hfresh.
    unfold ret. cbn [fst]. f_equal.
    apply existsb_eqb_In. cbn. apply keys_set_iff. left. reflexivity.
Qed.

Lemma refreshFile_value (dateString : string) (w : World V) :
  refreshFile dateString w
  = (Returned tt,
     withCache w
       match getAbstractFileByPath (vault w) (notePathOf w dateString) with
       | Some (AFile f) => JsMap.set dateString f (cache w)
       | _ => JsMap.delete dateString (cache w)
       end).
Proof.
  unfold refreshFile, bind. rewrite getNotePath_value.
  unfold vault_getAbstractFileByPath, gets.
  destruct (getAbstractFileByPath (vault w) (notePathOf w dateString))
    as [[g | q l] |]; reflexivity.
Qed.

(** X14.  After [refreshFile] the cache entry of the date-string is the
    file the vault has at the note's path, and there is none if the vault
    has nothing or a folder there; the vault is not changed. *)
Theorem refreshFile_follows_vault (dateString : string) (w : World V) :
  let w' := snd (refreshFile dateString w) in
  vault w' = vault w
  /\ (forall f,
         getAbstractFileByPath (vault w) (notePathOf w dateString)
         = Some (AFile f) ->
         JsMap.get dateString (cache w') = Some f)
  /\ ((forall f,
          getAbstractFileByPath (vault w) (notePathOf w dateString)
          <> Some (AFile f)) ->
      JsMap.get dateString (cache w') = None).
Proof.
  intros w'. subst w'. rewrite refreshFile_value. cbn [snd].
  split; [reflexivity |].
  destruct (getAbstractFileByPath (vault w) (notePathOf w dateString))
    as [[g | q l] |]; cbn.
  - split.
    + intros f [= <-]. apply get_set_same.
    + intros Hn. exfalso. exact (Hn g eq_refl).
  - split; [discriminate |]. intros _. apply get_delete_same.
  - split; [discriminate |]. intros _. apply get_delete_same.
Qed.

(** X15.  Inside the freshness window [noteExists] answers [true] exactly
    for the date-strings that [getFile] has a handle for, and changes
    nothing. *)
Theorem noteExists_agrees_with_getFile (dateString : string) (w : World V) :
  dateNow w - lastScanTime (manager w) < 5000 ->
  exists b,
    noteExists dateString w = (Returned b, w)
    /\ (b = true <-> exists f, getFile dateString w = (Returned (Some f), w)).
Proof.
  intros Hfresh. eexists. split.
  - unfold noteExists, bind. rewrite scanDirectory_cached by exact Hfresh.
    reflexivity.
  - rewrite existsb_eqb_In. unfold getFile, gets. fold (cache w).
    pose proof (get_None_iff dateString (cache w)) as Hn.
    destruct (JsMap.get dateString (cache w)) as [f |].
    + split; [intros _; eauto |].
      intros _. destruct (in_dec string_dec dateString (JsMap.keys (cache w)))
        as [Hin | Hout]; [exact Hin |].
      apply Hn in Hout. discriminate.
    + split.
      * intros Hin. exfalso. apply (proj1 Hn eq_refl). exact Hin.
      * intros (f & E). discriminate.
Qed.

End CreateAndLookup.

(** ** Scanning and paging *)

Section ScanAndPage.
Import Js Constants Obsidian Types DailyNotesManager Run Spec.
Context {V : Type} `{Vault V}.

Lemma NoDup_keys_set (k : string) (f : TFile) (c : JsMap.t TFile) :
  NoDup (JsMap.keys c) -> NoDup (JsMap.keys (JsMap.set k f c)).
Proof.
  intros Hc. destruct (JsMap.get k c) as [g |] eqn:E.
  - rewrite keys_set_old by congruence. exact Hc.
  - rewrite keys_set_new by exact E.
    apply NoDup_app; [exact Hc | repeat constructor; intros [] |].
    + intros x Hin [<- | []]. apply get_None_iff in E. contradiction.
Qed.

Lemma NoDup_keys_scanFile (c : JsMap.t TFile) (file : TAbstractFile) :
  NoDup (JsMap.keys c) -> NoDup (JsMap.keys (scanFile c file)).
Proof.
  intros Hc. unfold scanFile.
  destruct file as [f | p l]; [| exact Hc].
  destruct (String.eqb (extension f) "md"); [| exact Hc].
  destruct (DateService.isValidDailyNoteFilename (name f)); [| exact Hc].
  apply NoDup_keys_set. exact Hc.
Qed.

Lemma NoDup_keys_fold_scanFile (files : list TAbstractFile) (c : JsMap.t TFile) :
  NoDup (JsMap.keys c) -> NoDup (JsMap.keys (fold_left scanFile files c)).
Proof.
  revert c. induction files as [| file files IH]; intros c Hc; cbn;
    [exact Hc |].
  apply IH. apply NoDup_keys_scanFile. exact Hc.
Qed.

Lemma le_antisym (a b : string) :
  Js.le a b = true -> Js.le b a = true -> a = b.
Proof.
  unfold Js.le, String.leb. rewrite (String.compare_antisym b a).
  destruct (String.compare a b) eqn:E; cbn; try discriminate.
  intros _ _. apply String.compare_eq_iff. exact E.
Qed.

Lemma newestFirst_of_sorted (l : list string) :
  Sorted (fun a b => Js.le b a = true) l -> NoDup l -> newestFirst l = true.
Proof.
  intros Hs. induction Hs as [| a l Hs IH Hhd]; intros Hn; [reflexivity |].
  inversion Hn as [| ? ? Hnotin Hn']; subst.
  destruct l as [| b l]; [reflexivity |].
  change (newestFirst (a :: b :: l))
    with (negb (Js.le a b) && newestFirst (b :: l)).
  rewrite (IH Hn'), andb_true_r.
  inversion Hhd as [| ? ? Hba]; subst.
  destruct (Js.le a b) eqn:Hab; [| reflexivity].
  exfalso. apply Hnotin. left. symmetry. apply le_antisym; assumption.
Qed.

(** X16.  A scan that lists the folder (forced, or outside the freshness
    window) builds the cache from the listing alone, whatever the cache held
    before: it holds a handle exactly for the date-strings of the files of
    the folder whose names pass validation.  The scan records its time,
    leaves the vault alone, and returns each of those date-strings once, in
    strictly descending order. *)
Theorem scanDirectory_rebuilds_from_listing
  (forceRefresh : bool) (w : World V) (p : string)
  (files : list TAbstractFile) :
  forceRefresh = true \/ 5000 <= dateNow w - lastScanTime (manager w) ->
  getAbstractFileByPath (vault w) (folderOf w) = Some (AFolder p files) ->
  exists result,
    scanDirectory forceRefresh w
    = (Returned result,
       {| manager := {| settings := settings (manager w);
                        cachedFileList := fold_left scanFile files JsMap.empty;
                        lastScanTime := dateNow w |};
          vault := vault w; dateNow := dateNow w; newDate := newDate w |})
    /\ (forall k,
           (exists f, JsMap.get k (fold_left scanFile files JsMap.empty)
                      = Some f)
           <-> entered files k)
    /\ (forall k, In k result <-> entered files k)
    /\ NoDup result
    /\ newestFirst result = true.
Proof.
  intros Hstale Hdir.
  destruct (scanDirectory_listing forceRefresh w p files Hstale Hdir)
    as (Escan & Hsorted & Hperm & Hkeys).
  set (c := fold_left scanFile files JsMap.empty) in *.
  assert (Hvalid : keysValid c)
    by (apply keysValid_fold_scanFile, keysValid_empty).
  assert (Hnodup : NoDup (JsMap.keys c))
    by (apply NoDup_keys_fold_scanFile; constructor).
  exists (DateService.sortDateStringsDesc (JsMap.keys c)).
  split; [exact Escan |]. split; [| split; [| split]].
  - intros k. rewrite <- Hkeys.
    pose proof (get_None_iff k c) as Hn.
    destruct (JsMap.get k c) as [f |].
    + split; [intros _ | eauto].
      destruct (in_dec string_dec k (JsMap.keys c)) as [Hin | Hout];
        [exact Hin |].
      apply Hn in Hout. discriminate.
    + split; [intros (f & E); discriminate |].
      intros Hin. exfalso. exact (proj1 Hn eq_refl Hin).
  - intros k. rewrite <- Hkeys. split.
    + apply Permutation_in. exact Hperm.
    + apply Permutation_in. symmetry. exact Hperm.
  - apply (Permutation_NoDup (Permutation_sym Hperm)). exact Hnodup.
  - apply newestFirst_of_sorted.
    + apply (Sorted_weaken (fun k => validDateString k = true)
               (fun a b => dayOf b <= dayOf a)).
      * intros a b Ha Hb. apply le_of_dayOf; assumption.
      * eapply Permutation_Forall; [symmetry; exact Hperm | exact Hvalid].
      * exact Hsorted.
    + apply (Permutation_NoDup (Permutation_sym Hperm)). exact Hnodup.
Qed.

Lemma scanDirectory_world (forceRefresh : bool) (w : World V) :
  exists c t,
    snd (scanDirectory forceRefresh w)
    = {| manager := {| settings := settings (manager w);
                       cachedFileList := c;
                       lastScanTime := t |};
         vault := vault w; dateNow := dateNow w; newDate := newDate w |}.
Proof.
  unfold scanDirectory, bind, gets at 1 2.
  destruct (negb forceRefresh
            && (dateNow w - lastScanTime (manager w) <? 5000)).
  - exists (cachedFileList (manager w)), (lastScanTime (manager w)).
    destruct w as [[s c t] v n d]. reflexivity.
  - unfold tryCatch, bind, getDailyNotesPath, vault_getAbstractFileByPath, gets.
    destruct (getAbstractFileByPath (vault w)
                (dailyNotesPath (settings (manager w)))) as [[f | p files] |].
    + exists (cachedFileList (manager w)), (lastScanTime (manager w)).
      destruct w as [[s c t] v n d]. reflexivity.
    + eexists _, _. reflexivity.
    + exists (cachedFileList (manager w)), (lastScanTime (manager w)).
      destruct w as [[s c t] v n d]. reflexivity.
Qed.

Lemma loadOne_value (d : string) (notes : list DailyNote) (w : World V) :
  loadOne d notes w = (Returned (notes ++ notesFor w d), w).
Proof.
  unfold loadOne, notesFor, noteFor, contentOf.
  destruct (DateService.parseDateString d) as [dt |].
  - unfold bind, gets. fold (cache w).
    destruct (JsMap.get d (cache w)) as [f |].
    + unfold tryCatch, vault_read, ret.
      destruct (read (vault w) f) as [c | e]; reflexivity.
    + reflexivity.
  - rewrite app_nil_r. reflexivity.
Qed.

Lemma forEach_loadOne_value (ds : list string) (notes : list DailyNote)
  (w : World V) :
  forEach ds loadOne notes w
  = (Returned (notes ++ flat_map (notesFor w) ds), w).
Proof.
  revert notes. induction ds as [| d ds IH]; intros notes; cbn [forEach flat_map].
  - rewrite app_nil_r. reflexivity.
  - unfold bind. rewrite loadOne_value, IH, app_assoc. reflexivity.
Qed.

Lemma flat_map_notesFor_length (w : World V) (ds : list string) :
  (List.length (flat_map (notesFor w) ds) <= List.length ds)%nat.
Proof.
  induction ds as [| d ds IH]; cbn; [lia |].
  rewrite length_app. unfold notesFor at 1.
  destruct (DateService.parseDateString d); cbn; lia.
Qed.

Lemma loadNotes_value (o : LoadNotesOptions) (w : World V) :
  exists existingDates w',
    scanDirectory false w = (Returned existingDates, w')
    /\ loadNotes o w
       = (Returned
            (flat_map (notesFor w')
               (slice0 (count o)
                  (filter
                     (fun d =>
                        le d (DateService.formatDateToFileName
                                match startDate o with
                                | Some s => s
                                | None => newDate w
                                end))
                     existingDates))),
          w').
Proof.
  destruct (scanDirectory_returns false w) as (l & w' & Es).
  exists l, w'. split; [exact Es |].
  unfold loadNotes.
  destruct (startDate o) as [s |]; unfold bind;
    [unfold ret at 1 | unfold gets at 1]; rewrite Es;
    rewrite forEach_loadOne_value; reflexivity.
Qed.

(** X17.  [loadNotes] takes the date-strings [scanDirectory(false)] returns,
    keeps those not above the cursor's date-string, cuts them to [count] and
    returns, in that order, one record for each that parses: its date, the
    cached handle, and the content the vault reads through that handle, or
    empty content if there is no handle or the read throws.  A failing read
    costs only that note its content.  The page has at most [count] notes,
    and apart from the scan nothing changes. *)
Theorem loadNotes_page (o : LoadNotesOptions) (w : World V) :
  exists existingDates w',
    scanDirectory false w = (Returned existingDates, w')
    /\ loadNotes o w
       = (Returned
            (flat_map (notesFor w')
               (slice0 (count o)
                  (filter
                     (fun d =>
                        le d (DateService.formatDateToFileName
                                match startDate o with
                                | Some s => s
                                | None => newDate w
                                end))
                     existingDates))),
          w')
    /\ (0 <= count o ->
        forall notes, fst (loadNotes o w) = Returned notes ->
                      Z.of_nat (List.length notes) <= count o).
Proof.
  destruct (loadNotes_value o w) as (l & w' & Es & El).
  exists l, w'. split; [exact Es |].
  split; [exact El |].
  intros Hc notes Hn. rewrite El in Hn. cbn [fst] in Hn. injection Hn as <-.
  match goal with
  | |- Z.of_nat (List.length (flat_map _ ?l0)) <= _ =>
      pose proof (flat_map_notesFor_length w' l0) as Hf;
      assert (Hl : (List.length l0 <= Z.to_nat (count o))%nat)
  end.
  { unfold slice0. destruct (Z.ltb_spec (count o) 0); [lia |].
    apply firstn_le_length. }
  lia.
Qed.

End ScanAndPage.

(** ** Today's note, and a note through its life *)

Section TodayAndLife.
Import Js Constants Obsidian Types DailyNotesManager Run.
Context {V : Type} `{Vault V}.

Lemma createNote_failed_keeps_cache (dateString content : string)
  (w w2 : World V) (r : FileOperationResult) :
  createNote dateString content w = (Returned r, w2) ->
  success r = false ->
  cache w2 = cache w.
Proof.
  intros E Hfail.
  unfold createNote, ensureDirectoryExists, getDailyNotesPath, getNotePath,
    tryCatch, bind, vault_getAbstractFileByPath, vault_createFolder,
    vault_create, modifyCache, setVault, gets, ret in E.
  cbn [vault withVault manager] in E.
  repeat match type of E with
         | context [getAbstractFileByPath ?v ?p] =>
             destruct (getAbstractFileByPath v p) as [[? | ? ?] |];
             cbn [negb vault withVault manager] in E
         | context [createFolder ?v ?p] =>
             destruct (createFolder v p); cbn [negb vault withVault manager] in E
         | context [create ?v ?p ?c] =>
             destruct (create v p c) as [[? ?] | ?]
         end;
    injection E as <- <-; try discriminate Hfail; reflexivity.
Qed.

Lemma getOrCreateTodayNote_absent (w w1 w2 : World V)
  (existing : list string) (r : FileOperationResult) :
  scanDirectory false w = (Returned existing, w1) ->
  ~ In (DateService.formatDateToFileName (newDate w)) existing ->
  createNote (DateService.formatDateToFileName (newDate w))
    DEFAULT_NOTE_TEMPLATE w1 = (Returned r, w2) ->
  getOrCreateTodayNote w
  = (if success r
     then Returned
            (Some {| date := newDate w;
                     dateString := DateService.formatDateToFileName (newDate w);
                     content := DEFAULT_NOTE_TEMPLATE;
                     file := resultFile r;
                     exists_ := true; isDirty := false |})
     else Thrown
            ("Error: Failed to create today's note: " ++
             match error r with
             | Some e => e
             | None => "undefined"
             end)%string,
     w2).
Proof.
  intros Escan Hnew Ecreate.
  unfold getOrCreateTodayNote. rewrite bind_gets. cbv beta.
  rewrite bind_gets. cbv beta.
  unfold bind at 1. rewrite Escan.
  rewrite (existsb_eqb_absent _ _ Hnew).
  unfold bind. rewrite Ecreate.
  destruct (success r); reflexivity.
Qed.

(** X18.  When today's date-string is not among the scanned ones,
    [getOrCreateTodayNote] creates the note with the default (empty)
    content.  If the folder exists, the path is free and the vault creates
    the file, it returns today's record with the new handle and enters the
    handle in the cache, so that a scan inside the freshness window lists
    today without reading the folder.  If creating fails, it throws an
    error that carries the failure's message, and the cache is as the scan
    left it. *)
Theorem getOrCreateTodayNote_creates_today (w w1 : World V)
  (existing : list string) :
  let today := DateService.formatDateToFileName (newDate w) in
  scanDirectory false w = (Returned existing, w1) ->
  ~ In today existing ->
  (forall p files f v',
      getAbstractFileByPath (vault w) (folderOf w) = Some (AFolder p files) ->
      getAbstractFileByPath (vault w) (notePathOf w today) = None ->
      create (vault w) (notePathOf w today) DEFAULT_NOTE_TEMPLATE
      = Returned (f, v') ->
      let w2 := withCache (withVault w1 v') (JsMap.set today f (cache w1)) in
      getOrCreateTodayNote w
      = (Returned
           (Some {| date := newDate w; dateString := today;
                    content := ""; file := Some f;
                    exists_ := true; isDirty := false |}),
         w2)
      /\ forall now day v'',
          now - lastScanTime (manager w1) < 5000 ->
          exists l,
            fst (scanDirectory false
                   {| manager := manager w2; vault := v'';
                      dateNow := now; newDate := day |}) = Returned l
            /\ In today l)
  /\ (forall r w2,
         createNote today DEFAULT_NOTE_TEMPLATE w1 = (Returned r, w2) ->
         success r = false ->
         exists message,
           getOrCreateTodayNote w
           = (Thrown ("Error: Failed to create today's note: " ++ message), w2)
           /\ cache w2 = cache w1).
Proof.
  intros today Escan Hnew.
  destruct (scanDirectory_world false w) as (c & t & Ew1).
  rewrite Escan in Ew1. cbn [snd] in Ew1.
  assert (Hv : vault w1 = vault w) by (rewrite Ew1; reflexivity).
  assert (Hf : folderOf w1 = folderOf w) by (rewrite Ew1; reflexivity).
  assert (Hp : notePathOf w1 today = notePathOf w today)
    by (unfold notePathOf; rewrite Hf; reflexivity).
  split.
  - intros p files f v' Hdir Hfree Hcreate w2.
    rewrite <- Hv in Hdir, Hfree, Hcreate.
    rewrite <- Hf in Hdir. rewrite <- Hp in Hfree, Hcreate.
    pose proof (createNote_success today DEFAULT_NOTE_TEMPLATE w1 p files f v'
                  Hdir Hfree Hcreate) as Ec.
    split.
    + rewrite (getOrCreateTodayNote_absent w w1 _ existing _ Escan Hnew Ec).
      reflexivity.
    + intros now day v'' Hfresh. eexists. split.
      * rewrite scanDirectory_cached by exact Hfresh. reflexivity.
      * cbn. apply keys_set_iff. left. reflexivity.
  - intros r w2 Ec Hfail.
    exists (match error r with Some e => e | None => "undefined"%string end).
    split.
    + rewrite (getOrCreateTodayNote_absent w w1 _ existing _ Escan Hnew Ec).
      rewrite Hfail. reflexivity.
    + exact (createNote_failed_keeps_cache _ _ _ _ _ Ec Hfail).
Qed.

(** X19.  A note that [createNote] created is afterwards served through
    its cached handle, also when the vault has changed in between: as long
    as the file is still there [saveNote] overwrites it in place and
    returns the same handle, without creating a second file or cache
    entry; [readNote] returns what the vault reads through the handle; and
    [deleteNote] removes the entry, which gives back the cache of before
    when the date-string was new. *)
Theorem created_note_lives_through_its_handle
  (dateString content : string) (w : World V) (p : string)
  (files : list TAbstractFile) (f : TFile) (v' : V) :
  getAbstractFileByPath (vault w) (folderOf w) = Some (AFolder p files) ->
  getAbstractFileByPath (vault w) (notePathOf w dateString) = None ->
  create (vault w) (notePathOf w dateString) content = Returned (f, v') ->
  forall w2 : World V,
    manager w2 = manager (snd (createNote dateString content w)) ->
    (forall x content2 v3,
        getAbstractFileByPath (vault w2) (path f) = Some x ->
        modify (vault w2) f content2 = Returned v3 ->
        saveNote dateString content2 w2
        = (Returned {| success := true; error := None;
                       resultFile := Some f |},
           withVault w2 v3))
    /\ (forall text,
           read (vault w2) f = Returned text ->
           readNote dateString w2 = (Returned (Some text), w2))
    /\ (forall v3,
           delete (vault w2) f = Returned v3 ->
           fst (deleteNote dateString w2)
           = Returned {| success := true; error := None; resultFile := None |}
           /\ JsMap.get dateString (cache (snd (deleteNote dateString w2)))
              = None
           /\ (JsMap.get dateString (cache w) = None ->
               cache (snd (deleteNote dateString w2)) = cache w)).
Proof.
  intros Hdir Hfree Hcreate w2 Hm.
  rewrite (createNote_success _ _ _ p files f v' Hdir Hfree Hcreate) in Hm.
  cbn [snd] in Hm.
  assert (Hget : JsMap.get dateString (cache w2) = Some f).
  { unfold cache. rewrite Hm. cbn. apply get_set_same. }
  assert (Hcache : cache w2 = JsMap.set dateString f (cache w)).
  { unfold cache at 1. rewrite Hm. reflexivity. }
  split; [| split].
  - intros x content2 v3 Hthere Hmod.
    unfold saveNote, tryCatch, bind, vault_getAbstractFileByPath, gets,
      vault_modify, setVault, ret.
    fold (cache w2). rewrite Hget. cbv beta iota. rewrite Hthere.
    cbv beta iota. rewrite Hmod. reflexivity.
  - intros text Hread.
    unfold readNote, tryCatch, bind, gets, vault_read, ret.
    fold (cache w2). rewrite Hget, Hread. reflexivity.
  - intros v3 Hdel.
    assert (E : deleteNote dateString w2
                = (Returned {| success := true; error := None;
                               resultFile := None |},
                   withCache (withVault w2 v3)
                     (JsMap.delete dateString (cache w2)))).
    { unfold deleteNote, tryCatch, bind, gets, vault_delete, ret.
      fold (cache w2). rewrite Hget, Hdel. reflexivity. }
    rewrite E. cbn [fst snd]. split; [reflexivity |]. split.
    + apply get_delete_same.
    + intros Hnew. cbn. fold (cache w2). rewrite Hcache.
      apply delete_set_new. exact Hnew.
Qed.

End TodayAndLife.

(** ** Paging in the view *)

Section Paging.
Import Js Constants Obsidian Types DailyNotesManager Run Spec.
Context {V : Type} `{Vault V}.

Lemma In_slice0 {A} (c : Z) (l : list A) (x : A) :
  In x (slice0 c l) -> In x l.
Proof.
  assert (Hf : forall n, In x (firstn n l) -> In x l).
  { intros n Hx. rewrite <- (firstn_skipn n l). apply in_or_app. left.
    exact Hx. }
  unfold slice0. destruct (c <? 0); apply Hf.
Qed.

Lemma slice0_length {A} (c : Z) (l : list A) :
  0 <= c -> Z.of_nat (List.length (slice0 c l)) <= c.
Proof.
  intros Hc. unfold slice0. destruct (Z.ltb_spec c 0); [lia |].
  pose proof (firstn_le_length (Z.to_nat c) l). lia.
Qed.

Lemma compare_with_formatted (a : string) (da c : JsDate.t) :
  DateService.parseDateString a = Some da ->
  1000 <= JsDate.getFullYear c <= 9999 ->
  String.compare a (DateService.formatDateToFileName c)
  = (JsDate.day da ?= JsDate.day c).
Proof.
  intros Ha Hy.
  destruct (parseDateString_fields a da Ha) as [Ea Hya].
  destruct (fields_range da) as [Hma Hda], (fields_range c) as [Hmc Hdc].
  pose proof (daysInMonth_le_31 (JsDate.getFullYear da) (JsDate.getMonth da + 1)).
  pose proof (daysInMonth_le_31 (JsDate.getFullYear c) (JsDate.getMonth c + 1)).
  rewrite day_compare_dateNumber. unfold dateNumberOf.
  rewrite formatDateToFileName_canonical by exact Hy.
  rewrite Ea at 1. apply compare_canonical; lia.
Qed.

Lemma year_of_day_before (d : JsDate.t) :
  JsDate.getFullYear d - 1
  <= JsDate.getFullYear (JsDate.ofDay (JsDate.day d - 1))
  <= JsDate.getFullYear d.
Proof.
  unfold JsDate.getFullYear. cbn [JsDate.day].
  pose proof (YearFromDay_bounds (JsDate.day d)) as B.
  pose proof (YearFromDay_bounds (JsDate.day d - 1)) as B'.
  pose proof (DayFromYear_succ (JsDate.YearFromDay (JsDate.day d) - 1)) as S1.
  replace (JsDate.YearFromDay (JsDate.day d) - 1 + 1)
    with (JsDate.YearFromDay (JsDate.day d)) in S1 by lia.
  assert (Hpos : 365 <= JsDate.DaysInYear (JsDate.YearFromDay (JsDate.day d) - 1))
    by (unfold JsDate.DaysInYear; destruct (JsDate.InLeapYear _); lia).
  split.
  - destruct (Z.le_gt_cases (JsDate.YearFromDay (JsDate.day d) - 1)
                (JsDate.YearFromDay (JsDate.day d - 1))) as [L | G];
      [exact L |].
    pose proof (DayFromYear_mono (JsDate.YearFromDay (JsDate.day d - 1) + 1)
                  (JsDate.YearFromDay (JsDate.day d) - 1) ltac:(lia)).
    lia.
  - destruct (Z.le_gt_cases (JsDate.YearFromDay (JsDate.day d - 1))
                (JsDate.YearFromDay (JsDate.day d))) as [L | G];
      [exact L |].
    pose proof (DayFromYear_mono (JsDate.YearFromDay (JsDate.day d) + 1)
                  (JsDate.YearFromDay (JsDate.day d - 1)) ltac:(lia)).
    lia.
Qed.

(** The notes of a page are well dated and not after the cursor. *)
Lemma page_notes (w' : World V) (c : Z) (cursor : JsDate.t)
  (existingDates : list string) :
  1000 <= JsDate.getFullYear cursor <= 9999 ->
  Forall
    (fun n => DateService.parseDateString (dateString n) = Some (date n)
              /\ JsDate.day (date n) <= JsDate.day cursor)
    (flat_map (notesFor w')
       (slice0 c
          (filter
             (fun d => le d (DateService.formatDateToFileName cursor))
             existingDates))).
Proof.
  intros Hy. apply Forall_forall. intros n Hn.
  apply in_flat_map in Hn. destruct Hn as (d & Hd & Hn).
  apply In_slice0, filter_In in Hd. destruct Hd as [_ Hle].
  unfold notesFor in Hn.
  destruct (DateService.parseDateString d) as [dt |] eqn:Hp; [| destruct Hn].
  destruct Hn as [<- | []]. cbn [dateString date noteFor].
  split; [exact Hp |].
  unfold le, String.leb in Hle.
  rewrite (compare_with_formatted d dt cursor Hp Hy) in Hle.
  destruct (Z.compare_spec (JsDate.day dt) (JsDate.day cursor));
    [lia | lia | discriminate].
Qed.

Lemma page_length (w' : World V) (c : Z) (l : list string) :
  0 <= c ->
  Z.of_nat (List.length (flat_map (notesFor w') (slice0 c l))) <= c.
Proof.
  intros Hc. pose proof (flat_map_notesFor_length w' (slice0 c l)).
  pose proof (slice0_length c l Hc). lia.
Qed.

(** X20.  [loadInitialNotes] shows a page of at most [initialLoadCount]
    notes, each carrying the date its date-string parses to and none dated
    after today; it clears the loading flag and expects more notes exactly
    when the page is full. *)
Theorem loadInitialNotes_shows_no_future_note
  (view : DailyNotesView.View) (w : World V) :
  1000 <= JsDate.getFullYear (newDate w) <= 9999 ->
  exists shown,
    fst (DailyNotesView.loadInitialNotes view w)
    = Returned
        {| DailyNotesView.settings := DailyNotesView.settings view;
           DailyNotesView.notes := shown;
           DailyNotesView.isLoading := false;
           DailyNotesView.hasMoreToLoad :=
             Z.of_nat (List.length shown)
             =? initialLoadCount (DailyNotesView.settings view) |}
    /\ Forall
         (fun n => DateService.parseDateString (dateString n) = Some (date n)
                   /\ DateService.compareDates (date n) (newDate w) <= 0)
         shown
    /\ (0 <= initialLoadCount (DailyNotesView.settings view) ->
        Z.of_nat (List.length shown)
        <= initialLoadCount (DailyNotesView.settings view)).
Proof.
  intros Hy.
  destruct (loadNotes_value
              {| count := initialLoadCount (DailyNotesView.settings view);
                 startDate := Some (newDate w); append := false |} w)
    as (l & w' & _ & El).
  cbn [count startDate] in El.
  eexists. split; [| split].
  - unfold DailyNotesView.loadInitialNotes, tryCatch, bind, gets, ret.
    rewrite El. reflexivity.
  - eapply Forall_impl; [| apply (page_notes w' _ (newDate w) l Hy)].
    intros n [Hp Hd]. split; [exact Hp |].
    unfold DateService.compareDates, JsDate.midnightTime, JsDate.msPerDay. lia.
  - apply page_length.
Qed.

(** X21.  [loadMoreNotes] does nothing while a load is running or when no
    more notes are expected.  Otherwise, below a last shown note that
    carries the date of its date-string, it keeps the notes shown and
    appends at most [loadMoreCount] notes, none of them dated after the
    cursor, which is [subtractDays] of that last note's date and one day.
    So where the cursor is before the last note, every note appended is
    older than the last note and no note is shown twice.  It clears the
    loading flag, and expects more notes exactly when it appended a full
    page. *)
Theorem loadMoreNotes_appends_up_to_cursor
  (view : DailyNotesView.View) (w : World V) :
  (DailyNotesView.isLoading view
   || negb (DailyNotesView.hasMoreToLoad view) = true ->
   DailyNotesView.loadMoreNotes view w = (Returned view, w))
  /\ (DailyNotesView.isLoading view = false ->
      DailyNotesView.hasMoreToLoad view = true ->
      forall oldest,
        nth_error (DailyNotesView.notes view)
          (List.length (DailyNotesView.notes view) - 1) = Some oldest ->
        DateService.parseDateString (dateString oldest) = Some (date oldest) ->
        let cursor := DateService.subtractDays (date oldest) 1 in
        exists added,
          fst (DailyNotesView.loadMoreNotes view w)
          = Returned
              {| DailyNotesView.settings := DailyNotesView.settings view;
                 DailyNotesView.notes := DailyNotesView.notes view ++ added;
                 DailyNotesView.isLoading := false;
                 DailyNotesView.hasMoreToLoad :=
                   negb (List.length added =? 0)%nat
                   && (Z.of_nat (List.length added)
                       =? loadMoreCount (DailyNotesView.settings view)) |}
          /\ Forall
               (fun n =>
                  DateService.parseDateString (dateString n) = Some (date n)
                  /\ DateService.compareDates (date n) cursor <= 0)
               added
          /\ (DateService.compareDates cursor (date oldest) < 0 ->
              Forall
                (fun n => DateService.compareDates (date n) (date oldest) < 0)
                added)
          /\ (0 <= loadMoreCount (DailyNotesView.settings view) ->
              Z.of_nat (List.length added)
              <= loadMoreCount (DailyNotesView.settings view))).
Proof.
  split.
  { intros Hg. unfold DailyNotesView.loadMoreNotes. rewrite Hg. reflexivity. }
  intros Hl Hm oldest Hlast Hp cursor.
  assert (Ecursor : cursor = JsDate.ofDay (JsDate.day (date oldest) - 1)).
  { unfold cursor, DateService.subtractDays. rewrite addDays_day.
    f_equal. }
  assert (Hy : 1000 <= JsDate.getFullYear cursor <= 9999).
  { destruct (parseDateString_fields _ _ Hp) as [_ Hyo].
    pose proof (year_of_day_before (date oldest)). rewrite Ecursor. lia. }
  assert (Hnth : match List.length (DailyNotesView.notes view) with
                 | O => gets newDate
                 | S n =>
                     match nth_error (DailyNotesView.notes view) n with
                     | Some o => ret (DateService.subtractDays (date o) 1)
                     | None => gets newDate
                     end
                 end = (ret cursor : M V JsDate.t)).
  { destruct (List.length (DailyNotesView.notes view)) as [| n] eqn:En.
    - apply length_zero_iff_nil in En. rewrite En in Hlast.
      discriminate Hlast.
    - replace (S n - 1)%nat with n in Hlast by lia. rewrite Hlast.
      reflexivity. }
  destruct (loadNotes_value
              {| count := loadMoreCount (DailyNotesView.settings view);
                 startDate := Some cursor; append := true |} w)
    as (l & w' & _ & El).
  cbn [count startDate] in El.
  match type of El with
  | _ = (Returned ?page, _) => exists page; set (added := page) in *
  end.
  assert (Hpage : Forall
                    (fun n =>
                       DateService.parseDateString (dateString n)
                       = Some (date n)
                       /\ DateService.compareDates (date n) cursor <= 0)
                    added).
  { eapply Forall_impl; [| apply (page_notes w' _ cursor l Hy)].
    intros n [Hpn Hd]. split; [exact Hpn |].
    unfold DateService.compareDates, JsDate.midnightTime, JsDate.msPerDay.
    lia. }
  split; [| split; [| split]].
  - unfold DailyNotesView.loadMoreNotes. rewrite Hl, Hm. cbn [orb negb].
    rewrite Hnth. unfold tryCatch, bind. unfold ret at 1. rewrite El.
    destruct added as [| a added].
    + rewrite app_nil_r. reflexivity.
    + reflexivity.
  - exact Hpage.
  - intros Hbefore. eapply Forall_impl; [| exact Hpage].
    intros n [_ Hn]. unfold DateService.compareDates in *. lia.
  - apply page_length.
Qed.

End Paging.

(** ** The date line of a note *)

Section DateLine.
Import Js DailyNotesView.

Lemma split_nonempty (sep : ascii) (s : string) : split sep s <> [].
Proof.
  destruct s as [| c s]; cbn [split]; [discriminate |].
  destruct (Ascii.eqb c sep); [discriminate |].
  destruct (split sep s); discriminate.
Qed.

Lemma join_split (sep : ascii) (s : string) :
  join (String sep "") (split sep s) = s.
Proof.
  induction s as [| c s IH]; [reflexivity |].
  cbn [split]. destruct (Ascii.eqb_spec c sep) as [-> | Hc].
  - pose proof (split_nonempty sep s) as Hne.
    destruct (split sep s) as [| a l]; [contradiction |].
    change (join (String sep "") ("" :: a :: l))%string
      with (String sep (join (String sep "") (a :: l))).
    rewrite IH. reflexivity.
  - pose proof (split_nonempty sep s) as Hne.
    destruct (split sep s) as [| a l]; [contradiction |].
    rewrite <- IH. destruct l; reflexivity.
Qed.

Lemma leadingBlank_spec (lines : list string) :
  Forall (fun l => trim l = ""%string) (firstn (leadingBlank lines) lines)
  /\ match skipn (leadingBlank lines) lines with
     | [] => True
     | first :: _ => trim first <> ""%string
     end.
Proof.
  induction lines as [| l lines [IH1 IH2]]; cbn [leadingBlank].
  - split; [constructor | exact I].
  - destruct (String.eqb_spec (trim l) "") as [E | N].
    + cbn [firstn skipn]. split; [constructor; assumption | exact IH2].
    + cbn [firstn skipn]. split; [constructor | exact N].
Qed.

(** X22.  [stripDateLineFromContent] only drops leading lines, and leaves
    the text of all other lines as it is: the lines dropped are blank
    lines, then at most one line that is the date-string up to surrounding
    white space, then blank lines.  Unless the content is all white space,
    the first line kept is not blank, and it is not the date line unless a
    date line was dropped before it. *)
Theorem stripDateLineFromContent_drops_leading_lines
  (content dateString : string) :
  exists blanks dateLines blanks' kept,
    split "010" content = blanks ++ dateLines ++ blanks' ++ kept
    /\ stripDateLineFromContent content dateString
       = join (String "010" "") kept
    /\ Forall (fun l => trim l = ""%string) blanks
    /\ Forall (fun l => trim l = ""%string) blanks'
    /\ Forall (fun l => trim l = dateString) dateLines
    /\ (List.length dateLines <= 1)%nat
    /\ (trim content <> ""%string ->
        match kept with
        | [] => True
        | first :: _ =>
            trim first <> ""%string
            /\ (dateLines = [] -> trim first <> dateString)
        end).
Proof.
  unfold stripDateLineFromContent.
  destruct (String.eqb content "" || String.eqb (trim content) "") eqn:Eearly.
  { exists [], [], [], (split "010" content).
    rewrite join_split.
    split; [reflexivity |]. split; [reflexivity |].
    do 3 (split; [constructor |]). split; [cbn; lia |].
    intros Hne.
    apply orb_true_iff in Eearly. destruct Eearly as [E | E];
      apply String.eqb_eq in E; [subst content |]; contradiction. }
  set (lines := split "010" content).
  assert (Hstrip :
            forall k, (if (0 <? k)%nat
                       then join (String "010" "") (skipn k lines)
                       else content)
                      = join (String "010" "") (skipn k lines)).
  { intros [| k]; [| reflexivity]. cbn [Nat.ltb Nat.leb skipn].
    unfold lines. symmetry. apply join_split. }
  rewrite Hstrip.
  unfold skipBlank. cbn [skipn Nat.add].
  destruct (leadingBlank_spec lines) as [Hb Hk].
  pose proof (firstn_skipn (leadingBlank lines) lines) as Hsplit.
  destruct (skipn (leadingBlank lines) lines) as [| x rest] eqn:Erest.
  - (* every line is blank *)
    assert (Hnone : nth_error lines (leadingBlank lines) = None).
    { rewrite <- (Nat.add_0_r (leadingBlank lines)), <- nth_error_skipn.
      rewrite Erest. reflexivity. }
    rewrite Hnone, Erest.
    exists (firstn (leadingBlank lines) lines), [], [], [].
    rewrite !app_nil_r in *.
    split; [symmetry; exact Hsplit |]. split; [reflexivity |].
    split; [exact Hb |]. do 2 (split; [constructor |]).
    split; [cbn; lia |]. intros _. exact I.
  - assert (Hnth : nth_error lines (leadingBlank lines) = Some x).
    { rewrite <- (Nat.add_0_r (leadingBlank lines)), <- nth_error_skipn.
      rewrite Erest. reflexivity. }
    rewrite Hnth.
    destruct (String.eqb_spec (trim x) dateString) as [Ed | Nd].
    + destruct (leadingBlank_spec rest) as [Hb' Hk'].
      assert (Eskip : skipn (leadingBlank lines + 1) lines = rest).
      { rewrite Nat.add_comm, <- skipn_skipn, Erest. reflexivity. }
      rewrite Eskip, Nat.add_comm, <- skipn_skipn.
      rewrite Nat.add_comm, <- skipn_skipn, Erest. cbn [skipn].
      exists (firstn (leadingBlank lines) lines), [x],
        (firstn (leadingBlank rest) rest), (skipn (leadingBlank rest) rest).
      cbn [app]. rewrite (firstn_skipn (leadingBlank rest) rest).
      split; [symmetry; exact Hsplit |]. split; [reflexivity |].
      split; [exact Hb |]. split; [exact Hb' |].
      split; [constructor; [exact Ed | constructor] |].
      split; [cbn; lia |]. intros _.
      destruct (skipn (leadingBlank rest) rest); [exact I |].
      split; [exact Hk' | discriminate].
    + rewrite Erest.
      exists (firstn (leadingBlank lines) lines), [], [], (x :: rest).
      split; [symmetry; exact Hsplit |]. split; [reflexivity |].
      split; [exact Hb |]. do 2 (split; [constructor |]).
      split; [cbn; lia |]. intros _. split; [exact Hk | intros _; exact Nd].
Qed.

End DateLine.

(** ** The notes folder setting *)

Section FolderSetting.
Import Js SettingsTab Spec.

Lemma firstChar_dropLeading (c : ascii) (s : string) :
  firstChar (dropLeading c s) <> Some c.
Proof.
  induction s as [| a s IH]; cbn [dropLeading]; [discriminate |].
  destruct (Ascii.eqb_spec a c) as [-> | N]; [exact IH |].
  cbn. congruence.
Qed.

Lemma dropTrailing_cons (c a : ascii) (s : string) :
  dropTrailing c (String a s) = EmptyString
  \/ exists t, dropTrailing c (String a s) = String a t.
Proof.
  cbn [dropTrailing]. destruct (dropTrailing c s).
  - destruct (Ascii.eqb a c); [left | right; eexists]; reflexivity.
  - right. eexists. reflexivity.
Qed.

Lemma firstChar_dropTrailing (c : ascii) (s : string) :
  firstChar s <> Some c -> firstChar (dropTrailing c s) <> Some c.
Proof.
  destruct s as [| a s]; [intros _; discriminate |].
  intros Hf. destruct (dropTrailing_cons c a s) as [-> | [t ->]];
    [discriminate | exact Hf].
Qed.

Lemma lastChar_dropTrailing (c : ascii) (s : string) :
  lastChar (dropTrailing c s) <> Some c.
Proof.
  induction s as [| a s IH]; cbn [dropTrailing]; [discriminate |].
  destruct (dropTrailing c s) as [| b t].
  - destruct (Ascii.eqb_spec a c) as [-> | N]; [discriminate |].
    cbn. congruence.
  - exact IH.
Qed.

Lemma firstChar_collapseRuns (c : ascii) (s : string) :
  firstChar (collapseRuns c s) = firstChar s.
Proof.
  induction s as [| a s IH]; [reflexivity |].
  cbn [collapseRuns]. destruct s as [| b s]; [reflexivity |].
  destruct (Ascii.eqb_spec a c) as [-> | Na]; cbn [andb]; [| reflexivity].
  destruct (Ascii.eqb_spec b c) as [-> | Nb]; [| reflexivity].
  rewrite IH. reflexivity.
Qed.

Lemma collapseRuns_empty (c : ascii) (s : string) :
  collapseRuns c s = EmptyString -> s = EmptyString.
Proof.
  intros E. pose proof (firstChar_collapseRuns c s) as Hf. rewrite E in Hf.
  destruct s; [reflexivity | discriminate].
Qed.

Lemma lastChar_cons (a : ascii) (s : string) :
  s <> EmptyString -> lastChar (String a s) = lastChar s.
Proof. destruct s; [contradiction | reflexivity]. Qed.

Lemma lastChar_collapseRuns (c : ascii) (s : string) :
  lastChar (collapseRuns c s) = lastChar s.
Proof.
  induction s as [| a s IH]; [reflexivity |].
  cbn [collapseRuns]. destruct s as [| b s]; [reflexivity |].
  rewrite (lastChar_cons a (String b s)) by discriminate.
  destruct (Ascii.eqb a c && Ascii.eqb b c); [exact IH |].
  rewrite lastChar_cons; [exact IH |].
  intros E. apply collapseRuns_empty in E. discriminate.
Qed.

Lemma hasRun_collapseRuns (c : ascii) (s : string) :
  hasRun c (collapseRuns c s) = false.
Proof.
  induction s as [| a s IH]; [reflexivity |].
  cbn [collapseRuns]. destruct s as [| b s]; [reflexivity |].
  destruct (Ascii.eqb a c && Ascii.eqb b c) eqn:E; [exact IH |].
  pose proof (firstChar_collapseRuns c (String b s)) as Hf.
  destruct (collapseRuns c (String b s)) as [| b' t]; [reflexivity |].
  cbn in Hf. injection Hf as ->.
  cbn [hasRun]. rewrite E. exact IH.
Qed.

Lemma dropLeading_clean (c : ascii) (s : string) :
  firstChar s <> Some c -> dropLeading c s = s.
Proof.
  destruct s as [| a s]; [reflexivity |]. cbn.
  destruct (Ascii.eqb_spec a c) as [-> | N]; [congruence | reflexivity].
Qed.

Lemma dropTrailing_clean (c : ascii) (s : string) :
  lastChar s <> Some c -> dropTrailing c s = s.
Proof.
  induction s as [| a s IH]; [reflexivity |].
  intros Hl. cbn [dropTrailing]. destruct s as [| b s].
  - cbn. destruct (Ascii.eqb_spec a c) as [-> | N]; [| reflexivity].
    cbn in Hl. congruence.
  - rewrite IH by exact Hl. reflexivity.
Qed.

Lemma collapseRuns_clean (c : ascii) (s : string) :
  hasRun c s = false -> collapseRuns c s = s.
Proof.
  induction s as [| a s IH]; [reflexivity |].
  intros Hr. cbn [collapseRuns]. destruct s as [| b s]; [reflexivity |].
  cbn [hasRun] in Hr. apply orb_false_iff in Hr. destruct Hr as [E Hr].
  rewrite E, IH by exact Hr. reflexivity.
Qed.

Lemma lastChar_app_slash (t : string) :
  lastChar (t ++ "/") = Some "/"%char.
Proof.
  induction t as [| a t IH]; [reflexivity |].
  cbn [append]. rewrite lastChar_cons; [exact IH |].
  destruct t; discriminate.
Qed.

Lemma hasRun_app_slashes (a b : string) : hasRun "/" (a ++ "//" ++ b) = true.
Proof.
  induction a as [| x a IH]; [reflexivity |].
  change (String x a ++ "//" ++ b)%string
    with (String x (a ++ "//" ++ b))%string.
  revert IH.
  destruct (a ++ "//" ++ b)%string as [| y s] eqn:E; intros IH.
  - destruct a; discriminate.
  - change (hasRun "/" (String x (String y s)))
      with ((Ascii.eqb x "/" && Ascii.eqb y "/") || hasRun "/" (String y s)).
    rewrite IH. apply orb_true_r.
Qed.

Lemma lastChar_Some (c : ascii) (s : string) :
  lastChar s = Some c -> exists t, s = (t ++ String c "")%string.
Proof.
  induction s as [| a s IH]; [discriminate |].
  destruct s as [| b s].
  - cbn. intros [= ->]. exists EmptyString. reflexivity.
  - rewrite lastChar_cons by discriminate. intros Hl.
    destruct (IH Hl) as [t ->]. exists (String a t). reflexivity.
Qed.

Lemma hasRun_true (c : ascii) (s : string) :
  hasRun c s = true ->
  exists a b, s = (a ++ String c (String c b))%string.
Proof.
  induction s as [| x s IH]; [discriminate |].
  destruct s as [| y s]; [discriminate |].
  change (hasRun c (String x (String y s)))
    with ((Ascii.eqb x c && Ascii.eqb y c) || hasRun c (String y s)).
  intros Hr. apply orb_true_iff in Hr. destruct Hr as [Hr | Hr].
  - apply andb_true_iff in Hr. destruct Hr as [Hx Hy].
    apply Ascii.eqb_eq in Hx, Hy. subst. exists EmptyString, s. reflexivity.
  - destruct (IH Hr) as (a & b & ->). exists (String x a), b. reflexivity.
Qed.

(** X23.  The folder path the settings tab stores is never empty, neither
    starts nor ends with a slash and holds no two slashes in a row; input
    that leaves nothing gives the default folder.  A path that is already
    of that form and has no white space around it is stored unchanged. *)
Theorem sanitizeDailyNotesPath_clean (value : string) :
  let stored := sanitizeDailyNotesPath value in
  stored <> EmptyString
  /\ (forall t, stored <> String "/" t)
  /\ (forall t, stored <> (t ++ "/")%string)
  /\ (forall a b, stored <> (a ++ "//" ++ b)%string)
  /\ (collapseRuns "/" (stripEnds "/" (trim value)) = EmptyString ->
      stored = Constants.DEFAULT_dailyNotesPath)
  /\ (trim value = value -> value <> EmptyString ->
      (forall t, value <> String "/" t) ->
      (forall t, value <> (t ++ "/")%string) ->
      (forall a b, value <> (a ++ "//" ++ b)%string) ->
      stored = value).
Proof.
  intros stored.
  set (r := collapseRuns "/" (stripEnds "/" (trim value))).
  assert (Hfirst : firstChar r <> Some "/"%char).
  { unfold r. rewrite firstChar_collapseRuns. unfold stripEnds.
    apply firstChar_dropTrailing, firstChar_dropLeading. }
  assert (Hlast : lastChar r <> Some "/"%char).
  { unfold r. rewrite lastChar_collapseRuns. unfold stripEnds.
    apply lastChar_dropTrailing. }
  assert (Hrun : hasRun "/" r = false) by apply hasRun_collapseRuns.
  assert (Es : stored = if String.eqb r "" then Constants.DEFAULT_dailyNotesPath
                        else r) by reflexivity.
  assert (Hclean : stored <> EmptyString
                   /\ firstChar stored <> Some "/"%char
                   /\ lastChar stored <> Some "/"%char
                   /\ hasRun "/" stored = false).
  { rewrite Es. destruct (String.eqb_spec r "") as [E | N].
    - repeat split; try discriminate; reflexivity.
    - repeat split; assumption. }
  destruct Hclean as (Hne & Hf & Hl & Hr).
  split; [exact Hne |].
  split; [intros t E; rewrite E in Hf; apply Hf; reflexivity |].
  split; [intros t E; rewrite E in Hl; apply Hl; apply lastChar_app_slash |].
  split.
  { intros a b E. rewrite E, hasRun_app_slashes in Hr. discriminate. }
  split.
  { intros E. rewrite Es. fold r in E. rewrite E. reflexivity. }
  intros Ht Hv Hvf Hvl Hvr.
  assert (Er : r = value).
  { unfold r, stripEnds. rewrite Ht.
    rewrite dropLeading_clean.
    - rewrite dropTrailing_clean.
      + apply collapseRuns_clean.
        destruct (hasRun "/" value) eqn:E; [| reflexivity].
        destruct (hasRun_true _ _ E) as (a & b & Eab).
        exfalso. exact (Hvr a b Eab).
      + intros E. destruct (lastChar_Some _ _ E) as [t Et].
        exact (Hvl t Et).
    - destruct value as [| a t]; [discriminate |].
      cbn. intros [= ->]. exact (Hvf t eq_refl). }
  rewrite Es, Er. destruct (String.eqb_spec value ""); [contradiction |].
  reflexivity.
Qed.

End FolderSetting.

(** ** Vault events *)

Section VaultEvents.
Import Js Constants Obsidian Types DailyNotesManager Run Spec.
Context {V : Type} `{Vault V}.

Lemma get_Some_iff_keys {A} (k : string) (c : JsMap.t A) :
  (exists f, JsMap.get k c = Some f) <-> In k (JsMap.keys c).
Proof.
  pose proof (get_None_iff k c) as Hn.
  destruct (JsMap.get k c) as [f |].
  - split; [intros _ | eauto].
    destruct (in_dec string_dec k (JsMap.keys c)) as [Hin | Hout];
      [exact Hin |].
    apply Hn in Hout. discriminate.
  - split; [intros (f & E); discriminate |].
    intros Hin. exfalso. exact (proj1 Hn eq_refl Hin).
Qed.

(** X24.  The handlers of the vault's create, delete and rename events
    leave the manager alone when the paths of the event do not start with
    the notes folder path.  When one does, they rescan at once, also inside
    the freshness window.  If the notes folder is there, the cache then
    holds a handle exactly for the valid notes the folder lists, and the
    time of the scan is reset.  If it is not, as after the folder itself
    was deleted or renamed, the rescan changes nothing: the handles of its
    notes stay in the cache. *)
Theorem vault_events_rescan (filePath oldPath : string) (w : World V) :
  let rescanned := snd (scanDirectory true w) in
  Plugin.onCreateOrDelete filePath w
  = (Returned tt, if startsWith filePath (folderOf w) then rescanned else w)
  /\ Plugin.onRename filePath oldPath w
     = (Returned tt,
        if startsWith filePath (folderOf w) || startsWith oldPath (folderOf w)
        then rescanned else w)
  /\ (forall p files,
         getAbstractFileByPath (vault w) (folderOf w) = Some (AFolder p files) ->
         rescanned
         = {| manager := {| settings := settings (manager w);
                            cachedFileList :=
                              fold_left scanFile files JsMap.empty;
                            lastScanTime := dateNow w |};
              vault := vault w; dateNow := dateNow w; newDate := newDate w |}
         /\ forall k,
             (exists f, getFile k rescanned = (Returned (Some f), rescanned))
             <-> entered files k)
  /\ ((forall p files,
          getAbstractFileByPath (vault w) (folderOf w)
          <> Some (AFolder p files)) ->
      rescanned = w).
Proof.
  intros rescanned.
  destruct (scanDirectory_returns true w) as (l & w' & Escan).
  assert (Er : rescanned = w') by (unfold rescanned; rewrite Escan; reflexivity).
  split; [| split; [| split]].
  - unfold Plugin.onCreateOrDelete. unfold bind at 1. unfold gets at 1.
    fold (folderOf w).
    destruct (startsWith filePath (folderOf w)); [| reflexivity].
    unfold bind. rewrite Escan, Er. reflexivity.
  - unfold Plugin.onRename. unfold bind at 1. unfold gets at 1.
    fold (folderOf w).
    destruct (startsWith filePath (folderOf w) || startsWith oldPath (folderOf w));
      [| reflexivity].
    unfold bind. rewrite Escan, Er. reflexivity.
  - intros p files Hdir.
    destruct (scanDirectory_listing true w p files (or_introl eq_refl) Hdir)
      as (Elist & _ & _ & Hkeys).
    assert (Ew : rescanned
                 = {| manager := {| settings := settings (manager w);
                                    cachedFileList :=
                                      fold_left scanFile files JsMap.empty;
                                    lastScanTime := dateNow w |};
                      vault := vault w; dateNow := dateNow w;
                      newDate := newDate w |})
      by (unfold rescanned; rewrite Elist; reflexivity).
    split; [exact Ew |].
    intros k. rewrite <- Hkeys, <- get_Some_iff_keys. rewrite Ew.
    unfold getFile, gets. cbn.
    split; intros [f E]; exists f.
    + destruct (JsMap.get k _); [injection E as -> | discriminate].
      reflexivity.
    + rewrite E. reflexivity.
  - intros Hgone. unfold rescanned.
    rewrite (scanDirectory_no_folder true w (or_introl eq_refl) Hgone).
    reflexivity.
Qed.

End VaultEvents.

(** ** Worked instances *)

Section Instances.
Import Js Constants Obsidian Types DailyNotesManager Run Spec Examples.
Local Open Scope string_scope.

Ltac computed := vm_compute; reflexivity.


Lemma dateString_order_is_date_order_witness :
  (Js.le "2026-01-10" "2026-01-12" = true
   <-> DateService.compareDates (JsDate.make 2026 0 10) (JsDate.make 2026 0 12)
       <= 0)
  /\ ("2026-01-10" = "2026-01-12"
      <-> DateService.isSameDay (JsDate.make 2026 0 10) (JsDate.make 2026 0 12)
          = true).
Proof.
  apply dateString_order_is_date_order; vm_compute; reflexivity.
Defined.

Lemma format_parse_roundtrip_witness :
  DateService.formatDateToFileName (JsDate.make 2026 0 10) = "2026-01-10".
Proof.
  apply (proj1 (format_parse_roundtrip "2026-01-10" (JsDate.make 2026 0 10))).
  vm_compute. reflexivity.
Defined.

Lemma isValidDailyNoteFilename_iff_witness :
  DateService.isValidDailyNoteFilename
    (DateService.generateFilename (JsDate.make 2026 0 10)) = true
  /\ exists y m d,
       1900 <= y <= 2100 /\ realCalendarDate y m d
       /\ "2026-01-10.md" = canonicalDateString y m d ++ NOTE_FILE_EXTENSION.
Proof.
  destruct (isValidDailyNoteFilename_iff
              (DateService.generateFilename (JsDate.make 2026 0 10)))
    as [[_ Hgen] _].
  destruct (isValidDailyNoteFilename_iff "2026-01-10.md") as [_ Hshape].
  split.
  - apply Hgen. exists (JsDate.make 2026 0 10).
    split; [vm_compute; split; discriminate | reflexivity].
  - apply Hshape. computed.
Defined.

Lemma sortDateStringsDesc_newest_first_witness :
  newestFirstByDate
    (DateService.sortDateStringsDesc ["2026-01-10"; "2026-01-12"])
  /\ Sorted (fun a b => Js.le b a = true)
       (DateService.sortDateStringsDesc ["2026-01-10"; "2026-01-12"]).
Proof.
  apply (proj2 (sortDateStringsDesc_newest_first ["2026-01-10"; "2026-01-12"])).
  repeat constructor; vm_compute; reflexivity.
Defined.

Lemma getNewestDate_getOldestDate_bounds_witness :
  exists sn so dn do_,
    In sn ["2026-01-10"; "2026-01-12"] /\ In so ["2026-01-10"; "2026-01-12"]
    /\ DateService.parseDateString sn = Some dn
    /\ DateService.parseDateString so = Some do_
    /\ DateService.getNewestDate ["2026-01-10"; "2026-01-12"] = Some dn
    /\ DateService.getOldestDate ["2026-01-10"; "2026-01-12"] = Some do_
    /\ forall s d, In s ["2026-01-10"; "2026-01-12"] ->
                   DateService.parseDateString s = Some d ->
                   DateService.compareDates do_ d <= 0
                   /\ DateService.compareDates d dn <= 0.
Proof.
  apply (proj2 (getNewestDate_getOldestDate_bounds
                  ["2026-01-10"; "2026-01-12"])).
  - discriminate.
  - repeat constructor; vm_compute; reflexivity.
Defined.

Lemma getOrdinalSuffix_english_witness :
  DateService.getOrdinalSuffix 21 = englishOrdinalSuffix 21.
Proof. apply (proj1 (getOrdinalSuffix_english 21)). lia. Defined.


Lemma createNote_registers_handle_witness :
  let w' := snd (createNote "2026-01-15" "fifteen" scanned) in
  fst (createNote "2026-01-15" "fifteen" scanned)
  = Returned {| success := true; error := None; resultFile := Some note15 |}
  /\ vault w' = vault15 "fifteen"
  /\ fst (getFile "2026-01-15" w') = Returned (Some note15)
  /\ (JsMap.get "2026-01-15" (cache scanned) = None ->
      JsMap.keys (cache w')
      = (JsMap.keys (cache scanned) ++ ["2026-01-15"])%list)
  /\ (forall now today v'',
         now - lastScanTime (manager scanned) < 5000 ->
         fst (noteExists "2026-01-15"
                {| manager := manager w'; vault := v'';
                   dateNow := now; newDate := today |})
         = Returned true).
Proof.
  apply (createNote_registers_handle "2026-01-15" "fifteen" scanned
           "daily-notes" dailyFiles note15 (vault15 "fifteen")); computed.
Defined.

Lemma refreshFile_follows_vault_witness :
  JsMap.get "2026-01-10" (cache (snd (refreshFile "2026-01-10" scanned)))
  = Some note10
  /\ JsMap.get "2026-01-10"
       (cache (snd (refreshFile "2026-01-10"
                      (withVault scanned emptiedVault))))
     = None.
Proof.
  destruct (refreshFile_follows_vault "2026-01-10" scanned) as (_ & Hthere & _).
  destruct (refreshFile_follows_vault "2026-01-10"
              (withVault scanned emptiedVault)) as (_ & _ & Hgone).
  split.
  - apply Hthere. computed.
  - apply Hgone. intros f. vm_compute. discriminate.
Defined.

Lemma noteExists_agrees_with_getFile_witness :
  exists b,
    noteExists "2026-01-10" scanned = (Returned b, scanned)
    /\ (b = true
        <-> exists f, getFile "2026-01-10" scanned
                      = (Returned (Some f), scanned)).
Proof.
  apply noteExists_agrees_with_getFile. vm_compute. reflexivity.
Defined.

Lemma scanDirectory_rebuilds_from_listing_witness :
  exists result,
    scanDirectory false fresh
    = (Returned result,
       {| manager := {| settings := settings (manager fresh);
                        cachedFileList :=
                          fold_left scanFile dailyFiles JsMap.empty;
                        lastScanTime := dateNow fresh |};
          vault := vault fresh; dateNow := dateNow fresh;
          newDate := newDate fresh |})
    /\ (forall k,
           (exists f, JsMap.get k (fold_left scanFile dailyFiles JsMap.empty)
                      = Some f)
           <-> entered dailyFiles k)
    /\ (forall k, In k result <-> entered dailyFiles k)
    /\ NoDup result
    /\ newestFirst result = true.
Proof.
  apply (scanDirectory_rebuilds_from_listing false fresh "daily-notes").
  - right. vm_compute. discriminate.
  - computed.
Defined.

Lemma loadNotes_page_witness :
  exists notes,
    fst (loadNotes firstPage scanned) = Returned notes
    /\ Z.of_nat (List.length notes) <= 1.
Proof.
  destruct (loadNotes_page firstPage scanned) as (l & w' & _ & _ & Hlen).
  exists [ noteFor scanned "2026-01-10" (JsDate.make 2026 0 10) ].
  assert (E : fst (loadNotes firstPage scanned)
              = Returned [ noteFor scanned "2026-01-10"
                             (JsDate.make 2026 0 10) ]) by computed.
  split; [exact E |].
  apply Hlen; [vm_compute; discriminate | exact E].
Defined.

Lemma getOrCreateTodayNote_creates_today_witness :
  getOrCreateTodayNote fresh
  = (Returned
       (Some {| date := jan15; dateString := "2026-01-15"; content := "";
                file := Some note15; exists_ := true; isDirty := false |}),
     withCache (withVault scanned (vault15 ""))
       (JsMap.set "2026-01-15" note15 (cache scanned))).
Proof.
  assert (Escan : scanDirectory false fresh = (Returned ["2026-01-10"], scanned))
    by computed.
  assert (Hnew : ~ In (DateService.formatDateToFileName (newDate fresh))
                     ["2026-01-10"]).
  { intros [E | []]. vm_compute in E. discriminate E. }
  destruct (getOrCreateTodayNote_creates_today fresh scanned ["2026-01-10"]
              Escan Hnew) as [Hmade _].
  destruct (Hmade "daily-notes" dailyFiles note15 (vault15 ""))
    as [E _]; [computed | computed | computed |].
  rewrite E. computed.
Defined.

Lemma created_note_lives_through_its_handle_witness :
  readNote "2026-01-15" created = (Returned (Some "fifteen"), created)
  /\ fst (deleteNote "2026-01-15" created)
     = Returned {| success := true; error := None; resultFile := None |}
  /\ cache (snd (deleteNote "2026-01-15" created)) = cache scanned.
Proof.
  assert (Hm : manager created
               = manager (snd (createNote "2026-01-15" "fifteen" scanned)))
    by computed.
  assert (Hdir : getAbstractFileByPath (vault scanned) (folderOf scanned)
                 = Some (AFolder "daily-notes" dailyFiles)) by computed.
  assert (Hfree : getAbstractFileByPath (vault scanned)
                    (notePathOf scanned "2026-01-15") = None) by computed.
  assert (Hcreate : create (vault scanned) (notePathOf scanned "2026-01-15")
                      "fifteen"
                    = Returned (note15, vault15 "fifteen")) by computed.
  destruct (created_note_lives_through_its_handle "2026-01-15" "fifteen"
              scanned "daily-notes" dailyFiles note15 (vault15 "fifteen")
              Hdir Hfree Hcreate created Hm)
    as (_ & Hread & Hdelete).
  split; [apply Hread; computed |].
  destruct (Hdelete (MemVault.withNodes (vault15 "fifteen")
                       (MemVault.remove "daily-notes/2026-01-15.md"
                          (MemVault.nodes (vault15 "fifteen")))))
    as (Hok & _ & Hback); [computed |].
  split; [exact Hok | apply Hback; computed].
Defined.

Lemma loadInitialNotes_shows_no_future_note_witness :
  exists shown,
    fst (DailyNotesView.loadInitialNotes emptyView scanned)
    = Returned
        {| DailyNotesView.settings := settings0;
           DailyNotesView.notes := shown;
           DailyNotesView.isLoading := false;
           DailyNotesView.hasMoreToLoad :=
             (Z.of_nat (List.length shown) =? initialLoadCount settings0)%Z |}
    /\ Forall
         (fun n => DateService.parseDateString (dateString n) = Some (date n)
                   /\ DateService.compareDates (date n) (newDate scanned) <= 0)
         shown
    /\ (0 <= initialLoadCount settings0 ->
        Z.of_nat (List.length shown) <= initialLoadCount settings0).
Proof.
  apply (loadInitialNotes_shows_no_future_note emptyView scanned).
  split; vm_compute; discriminate.
Defined.

Lemma loadMoreNotes_appends_up_to_cursor_witness :
  exists added,
    fst (DailyNotesView.loadMoreNotes todayView created)
    = Returned
        {| DailyNotesView.settings := settings0;
           DailyNotesView.notes :=
             (DailyNotesView.notes todayView ++ added)%list;
           DailyNotesView.isLoading := false;
           DailyNotesView.hasMoreToLoad :=
             negb (List.length added =? 0)%nat
             && (Z.of_nat (List.length added) =? loadMoreCount settings0)%Z |}
    /\ Forall
         (fun n =>
            DateService.parseDateString (dateString n) = Some (date n)
            /\ DateService.compareDates (date n)
                 (DateService.subtractDays jan15 1) <= 0)
         added
    /\ Forall (fun n => DateService.compareDates (date n) jan15 < 0) added
    /\ Z.of_nat (List.length added) <= loadMoreCount settings0.
Proof.
  destruct (proj2 (loadMoreNotes_appends_up_to_cursor todayView created)
              eq_refl eq_refl
              {| date := jan15; dateString := "2026-01-15"; content := "";
                 file := Some note15; exists_ := true; isDirty := false |}
              eq_refl ltac:(vm_compute; reflexivity))
    as (added & Eview & Hpage & Holder & Hlen).
  exists added.
  split; [exact Eview |]. split; [exact Hpage |].
  split; [apply Holder; vm_compute; reflexivity |].
  apply Hlen. vm_compute. discriminate.
Defined.

Lemma stripDateLineFromContent_drops_leading_lines_witness :
  exists kept,
    DailyNotesView.stripDateLineFromContent datedContent "2026-01-10"
    = join (String "010" "") kept
    /\ match kept with
       | [] => True
       | first :: _ => trim first <> ""
       end.
Proof.
  destruct (stripDateLineFromContent_drops_leading_lines datedContent
              "2026-01-10") as (b & dl & b' & kept & _ & Hr & _ & _ & _ & _ & Hk).
  exists kept. split; [exact Hr |].
  assert (Hfirst : trim datedContent <> "") by (vm_compute; discriminate).
  specialize (Hk Hfirst). destruct kept; [exact I | exact (proj1 Hk)].
Defined.

Lemma sanitizeDailyNotesPath_clean_witness :
  SettingsTab.sanitizeDailyNotesPath " // " = DEFAULT_dailyNotesPath
  /\ SettingsTab.sanitizeDailyNotesPath "journal" = "journal".
Proof.
  destruct (sanitizeDailyNotesPath_clean " // ") as (_ & _ & _ & _ & Hnone & _).
  destruct (sanitizeDailyNotesPath_clean "journal")
    as (_ & _ & _ & _ & _ & Hclean).
  split.
  - apply Hnone. computed.
  - apply Hclean.
    + computed.
    + discriminate.
    + intros t. discriminate.
    + intros t E. apply (f_equal lastChar) in E.
      rewrite lastChar_app_slash in E. vm_compute in E. discriminate E.
    + intros a b E. apply (f_equal (hasRun "/")) in E.
      rewrite hasRun_app_slashes in E. vm_compute in E. discriminate E.
Defined.

Lemma vault_events_rescan_witness :
  Plugin.onCreateOrDelete "daily-notes/2026-01-16.md" created
  = (Returned tt,
     {| manager := {| settings := settings0;
                      cachedFileList :=
                        fold_left scanFile
                          (dailyFiles ++ [AFile note15])%list JsMap.empty;
                      lastScanTime := noon + 1000 |};
        vault := vault15 "fifteen"; dateNow := noon + 1000;
        newDate := jan15 |})
  /\ Plugin.onCreateOrDelete "journal/2026-01-16.md" created
     = (Returned tt, created)
  /\ Plugin.onRename "archive" "daily-notes" (withVault scanned renamedVault)
     = (Returned tt, withVault scanned renamedVault)
  /\ JsMap.get "2026-01-10" (cache (withVault scanned renamedVault))
     = Some note10.
Proof.
  destruct (vault_events_rescan "daily-notes/2026-01-16.md" "" created)
    as (Hinside & _ & Hthere & _).
  destruct (vault_events_rescan "journal/2026-01-16.md" "" created)
    as (Houtside & _).
  destruct (vault_events_rescan "archive" "daily-notes"
              (withVault scanned renamedVault)) as (_ & Hrename & _ & Hgone).
  assert (Hdir : getAbstractFileByPath (vault created) (folderOf created)
                 = Some (AFolder "daily-notes"
                           (dailyFiles ++ [AFile note15])%list))
    by computed.
  destruct (Hthere _ _ Hdir) as [Ew _].
  split; [| split; [| split]].
  - rewrite Hinside, Ew. computed.
  - rewrite Houtside. computed.
  - rewrite Hrename, Hgone.
    + computed.
    + intros p files. vm_compute. discriminate.
  - computed.
Defined.

End Instances.
